(** * github-pr-metrics: per-PR metrics and weekly/monthly aggregation

    A shallow embedding of the Go packages [internal/metrics] and
    [internal/api], of the timestamp cells of [internal/output] and of
    the repository argument of the command, and the properties of their
    metrics engine.

    Conventions of the embedding.
    - Go [int] is [Z]; sums of [int] wrap at 64 bits ([wrap64]).
    - Go [float64] is Rocq's primitive binary64 [float]: the arithmetic
      and comparisons are the IEEE 754 ones the Go program runs.
    - [time.Time] is an instant, the number of nanoseconds since the zero
      time 0001-01-01T00:00:00 UTC, together with its location; a location
      is its [lookup] method, from an instant to the offset from UTC in
      force.  Comparisons and differences of times read the instants; the
      calendar methods read the wall clock of the location.  They are
      library code, modelled by the proleptic Gregorian calendar they
      implement.
    - A Go map is a [gmap]; a slice is a [list]; a function that writes to
      a slice of its caller returns the slice's final contents too.
    - [(T, error)] results are a sum type; the logger is a list of entries
      threaded through the calls. *)

From Stdlib Require Import ZArith List String Ascii Floats Lia Bool.
From Stdlib Require Import DecimalString DecimalZ DecimalPos.
From stdpp Require Import gmap strings list sorting.

Open Scope Z_scope.

(** ** Package [time] *)

Module time.

(** Nanoseconds, a Go [int64]. *)
Definition Duration : Type := Z.

Definition Nanosecond : Duration := 1.
Definition Second : Duration := 1000000000.
Definition Hour : Duration := 3600 * Second.
Definition nsPerDay : Z := 24 * Hour.

Definition minDuration : Duration := - 2 ^ 63.
Definition maxDuration : Duration := 2 ^ 63 - 1.

(** *** Locations and times *)

(** What the [lookup] method of a location returns for a Unix time in seconds: the
    offset in seconds east of UTC in force at that instant, and the Unix
    times at which that offset starts and stops being in force. *)
Record zoneSpan := { zone_offset : Z; zone_start : Z; zone_end : Z }.

(** A [*Location], by its [lookup] method. *)
Record Location := { lookup : Z -> zoneSpan }.

(** The bounds [alpha] and [omega] of a zone that never changes. *)
Definition alpha : Z := - 2 ^ 63.
Definition omega : Z := 2 ^ 63 - 1.

(** [time.FixedZone(name, offset)] and [time.UTC]. *)
Definition FixedZone (offset : Z) : Location :=
  {| lookup := fun _ =>
       {| zone_offset := offset; zone_start := alpha; zone_end := omega |} |}.

Definition UTC : Location := FixedZone 0.

(** A [time.Time]: an instant, in nanoseconds since the zero time
    0001-01-01T00:00:00 UTC, and the location [t.Location()] it is
    presented in. *)
Record Time := { instant : Z; Location_of : Location }.

(** The zero value [time.Time{}]. *)
Definition zeroTime : Time := {| instant := 0; Location_of := UTC |}.

(** [t.UTC()]: the same instant, presented in UTC. *)
Definition UTC_of (t : Time) : Time :=
  {| instant := instant t; Location_of := UTC |}.

(** Seconds from the zero time to 1970-01-01T00:00:00 UTC. *)
Definition unixToInternal : Z := 62135596800.

(** [t.Unix()]. *)
Definition Unix_of (t : Time) : Z := instant t / Second - unixToInternal.

Definition IsZero (t : Time) : bool := instant t =? 0.

Definition Before (t u : Time) : bool := instant t <? instant u.

(** [t.Sub(u)]: the difference, saturated to the range of [Duration]. *)
Definition Sub (t u : Time) : Duration :=
  let d := instant t - instant u in
  if d <? minDuration then minDuration
  else if maxDuration <? d then maxDuration
  else d.

(** [float64(n)] for a Go [int64] [n]: round to nearest, ties to even. *)
Definition float64_of_int (n : Z) : float :=
  if n =? - 2 ^ 63 then (- (of_uint63 (Uint63.of_Z (2 ^ 62)) * 2))%float
  else if n <? 0 then (- of_uint63 (Uint63.of_Z (- n)))%float
  else of_uint63 (Uint63.of_Z n).

(** [d.Hours()]: whole hours plus the fraction, added as floats. *)
Definition Hours (d : Duration) : float :=
  let hour := Z.quot d Hour in
  let nsec := Z.rem d Hour in
  (float64_of_int hour + float64_of_int nsec / (60 * 60 * 1e9))%float.

(** *** The civil calendar

    The calendar methods work on the wall clock of a time: the
    nanoseconds since the zero time that a clock in the time's location
    shows. *)

Definition isLeap (year : Z) : bool :=
  (year mod 4 =? 0) && (negb (year mod 100 =? 0) || (year mod 400 =? 0)).

(** Days from 0001-01-01 to January 1 of [year]. *)
Definition daysBeforeYear (year : Z) : Z :=
  let y := year - 1 in 365 * y + y / 4 - y / 100 + y / 400.

Definition daysInYear (year : Z) : Z := if isLeap year then 366 else 365.

(** [daysBefore[m]]: days of a non-leap year before month [m + 1]. *)
Definition daysBefore (m : Z) : Z :=
  match m with
  | 0 => 0 | 1 => 31 | 2 => 59 | 3 => 90 | 4 => 120 | 5 => 151 | 6 => 181
  | 7 => 212 | 8 => 243 | 9 => 273 | 10 => 304 | 11 => 334 | _ => 365
  end.

(** Days of [year] before the first of [month] (1..12). *)
Definition daysBeforeMonth (year month : Z) : Z :=
  daysBefore (month - 1) + (if isLeap year && (3 <=? month) then 1 else 0).

Definition daysIn (year month : Z) : Z :=
  if (month =? 2) && isLeap year then 29
  else daysBefore month - daysBefore (month - 1).

(** A civil date: a month of the year and a day of that month. *)
Definition validDate (y m d : Z) : Prop := 1 <= m <= 12 /\ 1 <= d <= daysIn y m.

(** The day number of the civil date [y]-[m]-[d]. *)
Definition civilDays (y m d : Z) : Z :=
  daysBeforeYear y + daysBeforeMonth y m + (d - 1).

(** The day number of a wall clock, and the nanoseconds into that day. *)
Definition absDays (wall : Z) : Z := wall / nsPerDay.
Definition nsOfDay (wall : Z) : Z := wall mod nsPerDay.

(** Year and zero-based day of the year of a day number, by cutting off
    400-, 100-, 4- and 1-year cycles. *)
Definition absDate (d : Z) : Z * Z :=
  let n400 := d / 146097 in
  let d1 := d - 146097 * n400 in
  let n100 := d1 / 36524 in
  let n100 := n100 - n100 / 4 in
  let d2 := d1 - 36524 * n100 in
  let n4 := d2 / 1461 in
  let d3 := d2 - 1461 * n4 in
  let n1 := d3 / 365 in
  let n1 := n1 - n1 / 4 in
  let yday := d3 - 365 * n1 in
  (400 * n400 + 100 * n100 + 4 * n4 + n1 + 1, yday).

(** Month (1..12) and day of the month of day [yday] of [year]. *)
Definition monthDay (year yday : Z) : Z * Z :=
  if isLeap year && (yday =? 31 + 29 - 1) then (2, 29)
  else
    let day := if isLeap year && (31 + 29 - 1 <? yday) then yday - 1 else yday in
    let month := day / 31 in
    let e := daysBefore (month + 1) in
    if e <=? day then (month + 2, day - e + 1)
    else (month + 1, day - daysBefore month + 1).

(** Year, month and day of a wall clock. *)
Definition wallDate (wall : Z) : Z * Z * Z :=
  let '(year, yday) := absDate (absDays wall) in
  let '(month, day) := monthDay year yday in
  (year, month, day).

(** Hour, minute, second and nanosecond of a wall clock. *)
Definition wallClock (wall : Z) : Z * Z * Z * Z :=
  let ns := nsOfDay wall in
  let s := ns / Second in
  (s / 3600, (s mod 3600) / 60, s mod 60, ns mod Second).

(** Day of the week of a wall clock: 0 = Sunday .. 6 = Saturday; day 0 is
    a Monday. *)
Definition wallWeekday (wall : Z) : Z := (absDays wall + 1) mod 7.

(** ISO year and week of a wall clock: the year and week of the Thursday
    of its week. *)
Definition wallISOWeek (wall : Z) : Z * Z :=
  let d := 4 - wallWeekday wall in
  let d := if d =? 4 then -3 else d in
  let '(year, yday) := absDate (absDays wall + d) in
  (year, yday / 7 + 1).

(** The wall clock of a civil date and time of day: values out of range
    carry over; the month carries into the year, everything else adds up
    linearly. *)
Definition civil (year month day hour min sec nsec : Z) : Z :=
  let m := month - 1 in
  let year := year + m / 12 in
  let month := m mod 12 + 1 in
  let d := daysBeforeYear year + daysBeforeMonth year month + (day - 1) in
  d * nsPerDay + hour * Hour + min * (60 * Second) + sec * Second + nsec.

(** *** The calendar methods of a time *)

(** The offset in force at [t] in its location, and the wall clock of [t]
    there ([t.abs()]). *)
Definition zoneOffset (t : Time) : Z :=
  zone_offset (lookup (Location_of t) (Unix_of t)).

Definition wall (t : Time) : Z := instant t + zoneOffset t * Second.

(** [t.Date()]. *)
Definition Date_of (t : Time) : Z * Z * Z := wallDate (wall t).

(** [t.Clock()] and [t.Nanosecond()], as one tuple. *)
Definition Clock_of (t : Time) : Z * Z * Z * Z := wallClock (wall t).

(** [t.Weekday()]. *)
Definition Weekday (t : Time) : Z := wallWeekday (wall t).

(** [t.ISOWeek()]. *)
Definition ISOWeek (t : Time) : Z * Z := wallISOWeek (wall t).

(** [time.Date(year, month, day, hour, min, sec, nsec, loc)]: the instant
    at which a clock in [loc] shows the given date and time.  The offset
    is looked up at the wall clock read as UTC; when the instant that
    this offset gives lies outside the span of the offset, the offset in
    force at that instant is taken instead. *)
Definition Date (year month day hour min sec nsec : Z) (loc : Location) : Time :=
  let w := civil year month day hour min sec nsec in
  let unix := w / Second - unixToInternal in
  let span := lookup loc unix in
  let offset :=
    if zone_offset span =? 0 then 0
    else
      let utc := unix - zone_offset span in
      if (utc <? zone_start span) || (zone_end span <=? utc)
      then zone_offset (lookup loc utc)
      else zone_offset span in
  {| instant := w - offset * Second; Location_of := loc |}.

(** [t.AddDate(years, months, days)]. *)
Definition AddDate (t : Time) (years months days : Z) : Time :=
  let '(year, month, day) := Date_of t in
  let '(hour, min, sec, nsec) := Clock_of t in
  Date (year + years) (month + months) (day + days) hour min sec nsec
    (Location_of t).

(** [t.After(u)] and [t.Equal(u)]. *)
Definition After (t u : Time) : bool := instant u <? instant t.
Definition Equal (t u : Time) : bool := instant t =? instant u.

End time.

Arguments time.Hours : simpl never.
Arguments time.Sub : simpl never.
Arguments time.Date : simpl never.
Arguments time.AddDate : simpl never.
Arguments time.Date_of : simpl never.
Arguments time.ISOWeek : simpl never.
Arguments time.civil : simpl never.
Arguments time.wallDate : simpl never.
Arguments time.wallISOWeek : simpl never.


(** ** Go's sorting, formatting and integer conventions *)

(** A Go [int]: the 64-bit two's complement value of [z]. *)
Definition wrap64 (z : Z) : Z := (z + 2 ^ 63) mod 2 ^ 64 - 2 ^ 63.

(** [len(s)] as a Go [int]. *)
Definition len {A} (s : list A) : Z := Z.of_nat (length s).

(** Sorting by a [less] function, as [sort.Slice] and [sort.Float64s] do.
    The library's algorithm is not stable and not specified further; the
    model is insertion sort, which agrees with every sorting algorithm up
    to the order of elements that [less] does not tell apart. *)
Fixpoint sort_insert {A} (less : A -> A -> bool) (x : A) (s : list A) : list A :=
  match s with
  | [] => [x]
  | y :: s' => if less x y then x :: y :: s' else y :: sort_insert less x s'
  end.

Definition sort_Slice {A} (less : A -> A -> bool) (s : list A) : list A :=
  foldr (sort_insert less) [] s.

(** [ascending less a b]: [b] may follow [a] in a slice sorted by [less]. *)
Definition ascending {A} (less : A -> A -> bool) (a b : A) : Prop :=
  less b a = false.

Definition isNaN (x : float) : bool := negb (x =? x)%float.

(** The order of [sort.Float64s]: ascending, not-a-number values first. *)
Definition float64_less (x y : float) : bool :=
  (x <? y)%float || (isNaN x && negb (isNaN y)).

Definition sort_Float64s (s : list float) : list float :=
  sort_Slice float64_less s.

(** [s[i]] for a slice of floats; the program only reads within bounds. *)
Definition index (s : list float) (i : Z) : float := nth (Z.to_nat i) s 0%float.

(** [fmt.Sprintf("%d", z)]. *)
Definition fmt_d (z : Z) : string := NilZero.string_of_int (Z.to_int z).

(** [fmt.Sprintf("%02d", z)]: padded with a zero to two characters. *)
Definition fmt_02d (z : Z) : string :=
  if (0 <=? z) && (z <? 10) then ("0" ++ fmt_d z)%string else fmt_d z.

(** The number a decimal numeral denotes, -1 when the string is none. *)
Definition read_02d (s : string) : Z :=
  match NilZero.int_of_string s with Some d => Z.of_int d | None => -1 end.

(** [n] zero characters. *)
Fixpoint zeros (n : nat) : string :=
  match n with O => EmptyString | S n' => String "0" (zeros n') end.

(** [appendInt] of package [time]: the decimal digits of [x], padded with
    zeros to [width] digits, after a minus sign when [x] is negative. *)
Definition appendInt (x : Z) (width : nat) : string :=
  let ds := fmt_d (Z.abs x) in
  let padded := (zeros (width - String.length ds) ++ ds)%string in
  if x <? 0 then String "-" padded else padded.

(** [t.Format("2006-01-02")]. *)
Definition Format_date (t : time.Time) : string :=
  let '(year, month, day) := time.Date_of t in
  (appendInt year 4 ++ "-" ++ appendInt month 2 ++ "-" ++ appendInt day 2)%string.

(** The zone of [time.RFC3339]: [Z] for the offset zero, otherwise the
    sign, the hours and the minutes of the offset. *)
Definition Format_zone (offset : Z) : string :=
  if offset =? 0 then "Z"
  else
    let zone := Z.quot offset 60 in
    let sign := if zone <? 0 then "-" else "+" in
    let zone := if zone <? 0 then - zone else zone in
    (sign ++ appendInt (Z.quot zone 60) 2 ++ ":" ++ appendInt (Z.rem zone 60) 2)%string.

(** [t.Format(time.RFC3339)]: the date, the clock to the second and the
    zone. *)
Definition Format_RFC3339 (t : time.Time) : string :=
  let '(hour, min, sec, _) := time.Clock_of t in
  (Format_date t ++ "T" ++ appendInt hour 2 ++ ":" ++ appendInt min 2 ++ ":"
   ++ appendInt sec 2 ++ Format_zone (time.zoneOffset t))%string.

(** ** Package [api]: the records of [models.go] *)

Module api.

Record PRMetrics := {
  Number : Z;
  Title : string;
  Author : string;
  Milestone : string;
  CreatedAt : time.Time;
  MergedAt : time.Time;
  State : string;
  CommitCount : Z;
  FirstCommitAt : time.Time;
  LastCommitAt : time.Time;
  FirstCommitToCreateHours : float;
  CreateToLastCommitHours : float;
  CommitCountDuringPR : Z;
  FirstCommitToMergeHours : float;
  LastCommitToMergeHours : float;
  CommentCount : Z;
  FirstCommentAt : time.Time;
  CreatedToFirstCommentHours : float;
  ReviewCount : Z;
  Additions : Z;
  Deletions : Z;
  ChangedFiles : Z;
  ApprovalCount : Z;
  TimeToApprovalHours : float;
  TotalPRLifetimeHours : float;
  MaxNoCommentPeriodHours : float;
  MaxNoCommitPeriodHours : float;
  MaxNoActivityPeriodHours : float
}.

Record AggregatedMetrics := {
  Period : string;
  StartDate : time.Time;
  EndDate : time.Time;
  PRCount : Z;
  AvgCommitCount : float;
  AvgCommentCount : float;
  AvgReviewCount : float;
  AvgApprovalCount : float;
  AvgAdditions : float;
  AvgDeletions : float;
  AvgChangedFiles : float;
  AvgFirstCommitToCreateHours : float;
  AvgCreateToLastCommitHours : float;
  AvgCommitCountDuringPR : float;
  AvgFirstCommitToMergeHours : float;
  AvgLastCommitToMergeHours : float;
  AvgCreatedToFirstCommentHours : float;
  AvgTimeToApprovalHours : float;
  AvgTotalPRLifetimeHours : float;
  AvgMaxNoCommentPeriodHours : float;
  AvgMaxNoCommitPeriodHours : float;
  AvgMaxNoActivityPeriodHours : float;
  MedianCommitCount : float;
  MedianCommentCount : float;
  MedianReviewCount : float;
  MedianApprovalCount : float;
  MedianAdditions : float;
  MedianDeletions : float;
  MedianChangedFiles : float;
  MedianFirstCommitToCreateHours : float;
  MedianCreateToLastCommitHours : float;
  MedianCommitCountDuringPR : float;
  MedianFirstCommitToMergeHours : float;
  MedianLastCommitToMergeHours : float;
  MedianCreatedToFirstCommentHours : float;
  MedianTimeToApprovalHours : float;
  MedianTotalPRLifetimeHours : float;
  MedianMaxNoCommentPeriodHours : float;
  MedianMaxNoCommitPeriodHours : float;
  MedianMaxNoActivityPeriodHours : float
}.

End api.

(** ** The data-retrieval collaborator: go-github's entities, the API
    client and the logger *)

Module github.

(** Modelled from the spec: a pull request as the retrieval layer returns
    it (number, title, author login, optional milestone title, creation
    timestamp, optional merge timestamp, state, change counts).  Fields
    behind a Go pointer are options; the getters below return the zero
    value for an absent one. *)
Record PullRequest := {
  pr_Number : Z;
  pr_Title : string;
  pr_UserLogin : string;
  pr_Milestone : option string;
  pr_CreatedAt : option time.Time;
  pr_MergedAt : option time.Time;
  pr_State : string;
  pr_Additions : Z;
  pr_Deletions : Z;
  pr_ChangedFiles : Z
}.

(** Modelled from the spec: a commit exposing an author timestamp, behind
    the three pointers [Commit], [Author] and [Date] the program tests. *)
Record CommitAuthor := { author_Date : option time.Time }.

(** Modelled from the spec: the git commit of a repository commit. *)
Record Commit := { commit_Author : option CommitAuthor }.

(** Modelled from the spec: an element of a PR's commit list. *)
Record RepositoryCommit := { rc_Commit : option Commit }.

(** Modelled from the spec: a review comment exposing a creation
    timestamp. *)
Record PullRequestComment := { comment_CreatedAt : option time.Time }.

(** Modelled from the spec: a review exposing a state string and a
    submission timestamp. *)
Record PullRequestReview := {
  review_State : string;
  review_SubmittedAt : option time.Time
}.

Definition GetCreatedAt (pr : PullRequest) : time.Time :=
  default time.zeroTime (pr_CreatedAt pr).
Definition GetMergedAt (pr : PullRequest) : time.Time :=
  default time.zeroTime (pr_MergedAt pr).
Definition comment_GetCreatedAt (c : PullRequestComment) : time.Time :=
  default time.zeroTime (comment_CreatedAt c).
Definition GetSubmittedAt (r : PullRequestReview) : time.Time :=
  default time.zeroTime (review_SubmittedAt r).

(** The author date of a commit when [commit.Commit], [commit.Commit.Author]
    and [commit.Commit.Author.Date] are all non-nil. *)
Definition authorDate (c : RepositoryCommit) : option time.Time :=
  match rc_Commit c with
  | Some co => match commit_Author co with Some a => author_Date a | None => None end
  | None => None
  end.

End github.

Module utils.

Inductive Level := DEBUG | INFO | WARN | ERROR.

Inductive Arg := ArgInt (z : Z) | ArgStr (s : string).

(** One call of the logger: its level, format string and arguments. *)
Record LogEntry := { level : Level; format : string; args : list Arg }.

End utils.

Definition error : Type := string.

(** A computation that logs: the entries it wrote, in order, and its
    result. *)
Record Logged (A : Type) := logged { logs : list utils.LogEntry; value : A }.
Arguments logged {A} _ _.
Arguments logs {A} _.
Arguments value {A} _.

#[global] Instance Logged_ret : MRet Logged := fun A x => logged [] x.
#[global] Instance Logged_bind : MBind Logged :=
  fun A B f m => let r := f (value m) in logged (logs m ++ logs r) (value r).

Definition log (l : utils.Level) (fmt : string) (a : list utils.Arg) : Logged unit :=
  logged [{| utils.level := l; utils.format := fmt; utils.args := a |}] tt.

(** [api.Client] of [client.go], seen from its callers: each request
    returns its data or an error (and no data, [nil], with the error). *)
Record Client := {
  GetPRDetails : string -> string -> Z -> error + github.PullRequest;
  GetPRCommits : string -> string -> Z -> error + list github.RepositoryCommit;
  GetPRComments : string -> string -> Z -> error + list github.PullRequestComment;
  GetPRReviews : string -> string -> Z -> error + list github.PullRequestReview
}.

(** ** Package [metrics] *)

Module metrics.
Import api github.

(** *** Statistics utilities *)

(** [calculateMedianFloat]: the median, and the contents of the caller's
    slice [values] when the call returns ([sort.Float64s] sorts it in
    place). *)
Definition calculateMedianFloat (values : list float) : float * list float :=
  if len values =? 0 then (0%float, values)
  else
    let values := sort_Float64s values in
    let length := len values in
    if Z.rem length 2 =? 0 then
      (((index values (Z.quot length 2 - 1) + index values (Z.quot length 2)) / 2)%float,
       values)
    else (index values (Z.quot length 2), values).

(** [calculateMedianInt]: the median, and the contents of the caller's
    slice when the call returns (the sort runs on [floatValues], a fresh
    slice). *)
Definition calculateMedianInt (values : list Z) : float * list Z :=
  if len values =? 0 then (0%float, values)
  else
    let floatValues := map time.float64_of_int values in
    (fst (calculateMedianFloat floatValues), values).

Definition getStartOfISOWeek (date : time.Time) : time.Time :=
  let weekday := time.Weekday date in
  let isoWeekday := if weekday =? 0 then 7 else weekday in
  let daysToSubtract := isoWeekday - 1 in
  let '(year, month, day) := time.Date_of date in
  let startOfDay := time.Date year month day 0 0 0 0 (time.Location_of date) in
  time.AddDate startOfDay 0 0 (- daysToSubtract).

(** *** The per-PR calculator *)

Record CommitMetricsResult := {
  cm_CommitCount : Z;
  cm_FirstCommitAt : time.Time;
  cm_LastCommitAt : time.Time;
  cm_CommitCountDuringPR : Z
}.

(** The counting loop of [calculateCommitMetrics]. *)
Fixpoint countCommitsDuringPR (commits : list RepositoryCommit)
    (createdAt : time.Time) (commitsDuringPR : Z) : Z :=
  match commits with
  | [] => commitsDuringPR
  | c :: rest =>
      countCommitsDuringPR rest createdAt
        (match authorDate c with
         | Some commitTime =>
             if negb (time.Before commitTime createdAt) then commitsDuringPR + 1
             else commitsDuringPR
         | None => commitsDuringPR
         end)
  end.

Definition calculateCommitMetrics (commits : list RepositoryCommit)
    (createdAt : time.Time) : CommitMetricsResult :=
  match commits with
  | [] =>
      {| cm_CommitCount := len commits; cm_FirstCommitAt := time.zeroTime;
         cm_LastCommitAt := time.zeroTime; cm_CommitCountDuringPR := 0 |}
  | firstCommit :: _ =>
      let lastCommit := List.last commits firstCommit in
      {| cm_CommitCount := len commits;
         cm_FirstCommitAt := default time.zeroTime (authorDate firstCommit);
         cm_LastCommitAt := default time.zeroTime (authorDate lastCommit);
         cm_CommitCountDuringPR := countCommitsDuringPR commits createdAt 0 |}
  end.

Record CommentMetricsResult := {
  co_CommentCount : Z;
  co_FirstCommentAt : time.Time
}.

Definition calculateCommentMetrics (comments : list PullRequestComment)
    : CommentMetricsResult :=
  {| co_CommentCount := len comments;
     co_FirstCommentAt :=
       match comments with
       | c :: _ => comment_GetCreatedAt c
       | [] => time.zeroTime
       end |}.

Record ReviewMetricsResult := {
  rv_ReviewCount : Z;
  rv_ApprovalCount : Z;
  rv_FirstApprovalAt : time.Time
}.

(** The loop of [calculateReviewMetrics] over the reviews: the running
    [approvalCount] and [firstApprovalAt]. *)
Fixpoint scanReviews (reviews : list PullRequestReview)
    (approvalCount : Z) (firstApprovalAt : time.Time) : Z * time.Time :=
  match reviews with
  | [] => (approvalCount, firstApprovalAt)
  | review :: rest =>
      if String.eqb (review_State review) "APPROVED" then
        scanReviews rest (approvalCount + 1)
          (if time.IsZero firstApprovalAt
              || time.Before (GetSubmittedAt review) firstApprovalAt
           then GetSubmittedAt review else firstApprovalAt)
      else scanReviews rest approvalCount firstApprovalAt
  end.

Definition calculateReviewMetrics (c : Client) (owner repo : string) (number : Z)
    : error + ReviewMetricsResult :=
  match GetPRReviews c owner repo number with
  | inl err => inl err
  | inr reviews =>
      let '(approvalCount, firstApprovalAt) := scanReviews reviews 0 time.zeroTime in
      inr {| rv_ReviewCount := len reviews;
             rv_ApprovalCount := approvalCount;
             rv_FirstApprovalAt := firstApprovalAt |}
  end.

Record TimeMetricsResult := {
  tm_FirstCommitToCreateHours : float;
  tm_CreateToLastCommitHours : float;
  tm_FirstCommitToMergeHours : float;
  tm_LastCommitToMergeHours : float;
  tm_TotalPRLifetimeHours : float;
  tm_CreatedToFirstCommentHours : float
}.

Definition calculateTimeMetrics
    (createdAt mergedAt firstCommitAt lastCommitAt firstCommentAt : time.Time)
    : TimeMetricsResult :=
  {| tm_FirstCommitToCreateHours :=
       if negb (time.IsZero firstCommitAt)
       then time.Hours (time.Sub createdAt firstCommitAt) else 0%float;
     tm_CreateToLastCommitHours :=
       if negb (time.IsZero lastCommitAt)
       then time.Hours (time.Sub lastCommitAt createdAt) else 0%float;
     tm_FirstCommitToMergeHours :=
       if negb (time.IsZero mergedAt) && negb (time.IsZero firstCommitAt)
       then time.Hours (time.Sub mergedAt firstCommitAt) else 0%float;
     tm_LastCommitToMergeHours :=
       if negb (time.IsZero mergedAt) && negb (time.IsZero lastCommitAt)
       then time.Hours (time.Sub mergedAt lastCommitAt) else 0%float;
     tm_TotalPRLifetimeHours :=
       if negb (time.IsZero mergedAt)
       then time.Hours (time.Sub mergedAt createdAt) else 0%float;
     tm_CreatedToFirstCommentHours :=
       if negb (time.IsZero firstCommentAt)
       then time.Hours (time.Sub firstCommentAt createdAt) else 0%float |}.

Record WaitingPeriodsResult := {
  wp_MaxNoActivityPeriodHours : float;
  wp_MaxNoCommentPeriodHours : float;
  wp_MaxNoCommitPeriodHours : float
}.

(** [for i := 0; i < len(events)-1; i++]: the largest gap between
    neighbours, starting from the running maximum [max]. *)
Fixpoint maxGap (events : list time.Time) (max : float) : float :=
  match events with
  | a :: (b :: _) as rest =>
      let gap := time.Hours (time.Sub b a) in
      maxGap rest (if (max <? gap)%float then gap else max)
  | _ => max
  end.

(** The commits' author dates, for the commits that have one. *)
Definition commitTimesOf (commits : list RepositoryCommit) : list time.Time :=
  omap authorDate commits.

Definition calculateWaitingPeriods (commits : list RepositoryCommit)
    (comments : list PullRequestComment) : WaitingPeriodsResult :=
  let allEvents := commitTimesOf commits ++ map comment_GetCreatedAt comments in
  let allEvents := sort_Slice time.Before allEvents in
  let commitTimes := sort_Slice time.Before (commitTimesOf commits) in
  let commentTimes := sort_Slice time.Before (map comment_GetCreatedAt comments) in
  {| wp_MaxNoActivityPeriodHours := maxGap allEvents 0;
     wp_MaxNoCommentPeriodHours := maxGap commentTimes 0;
     wp_MaxNoCommitPeriodHours := maxGap commitTimes 0 |}.

Definition calculatePRDetails (c : Client) (owner repo : string) (number : Z)
    : error + (Z * Z * Z) :=
  match GetPRDetails c owner repo number with
  | inl err => inl err
  | inr prDetails =>
      inr (pr_Additions prDetails, pr_Deletions prDetails, pr_ChangedFiles prDetails)
  end.

Definition CalculatePRMetrics (c : Client) (owner repo : string) (pr : PullRequest)
    : Logged (error + PRMetrics) :=
  log utils.DEBUG "Calculating metrics for PR #%d: %s"
    [utils.ArgInt (pr_Number pr); utils.ArgStr (pr_Title pr)];;
  let createdAt := GetCreatedAt pr in
  let mergedAt := GetMergedAt pr in
  let milestone := default ""%string (pr_Milestone pr) in
  match calculatePRDetails c owner repo (pr_Number pr) with
  | inl err => mret (inl err)
  | inr (additions, deletions, changedFiles) =>
  match GetPRCommits c owner repo (pr_Number pr) with
  | inl err => mret (inl err)
  | inr commits =>
  let commitMetrics := calculateCommitMetrics commits createdAt in
  '(comments, commentCount, firstCommentAt) ←
    match GetPRComments c owner repo (pr_Number pr) with
    | inl err =>
        log utils.WARN "Failed to get comments for PR #%d: %v"
          [utils.ArgInt (pr_Number pr); utils.ArgStr err];;
        mret ([], 0, time.zeroTime)
    | inr comments =>
        let commentMetrics := calculateCommentMetrics comments in
        mret (comments, co_CommentCount commentMetrics, co_FirstCommentAt commentMetrics)
    end;
  '(reviewCount, approvalCount, timeToApprovalHours) ←
    match calculateReviewMetrics c owner repo (pr_Number pr) with
    | inl err =>
        log utils.WARN "Failed to get reviews for PR #%d: %v"
          [utils.ArgInt (pr_Number pr); utils.ArgStr err];;
        mret (0, 0, 0%float)
    | inr reviewMetrics =>
        mret (rv_ReviewCount reviewMetrics, rv_ApprovalCount reviewMetrics,
              if negb (time.IsZero (rv_FirstApprovalAt reviewMetrics))
              then time.Hours (time.Sub (rv_FirstApprovalAt reviewMetrics) createdAt)
              else 0%float)
    end;
  let timeMetrics :=
    calculateTimeMetrics createdAt mergedAt (cm_FirstCommitAt commitMetrics)
      (cm_LastCommitAt commitMetrics) firstCommentAt in
  let waitingPeriods :=
    if (0 <? len commits) && (0 <? len comments)
    then calculateWaitingPeriods commits comments
    else {| wp_MaxNoActivityPeriodHours := 0; wp_MaxNoCommentPeriodHours := 0;
            wp_MaxNoCommitPeriodHours := 0 |} in
  log utils.DEBUG
    "Calculated metrics for PR #%d: %d commits, %d comments, %d reviews, %d approvals"
    [utils.ArgInt (pr_Number pr); utils.ArgInt (cm_CommitCount commitMetrics);
     utils.ArgInt commentCount; utils.ArgInt reviewCount; utils.ArgInt approvalCount];;
  mret (inr
    {| Number := pr_Number pr;
       Title := pr_Title pr;
       Author := pr_UserLogin pr;
       Milestone := milestone;
       CreatedAt := createdAt;
       MergedAt := mergedAt;
       State := pr_State pr;
       CommitCount := cm_CommitCount commitMetrics;
       FirstCommitAt := cm_FirstCommitAt commitMetrics;
       LastCommitAt := cm_LastCommitAt commitMetrics;
       FirstCommitToCreateHours := tm_FirstCommitToCreateHours timeMetrics;
       CreateToLastCommitHours := tm_CreateToLastCommitHours timeMetrics;
       CommitCountDuringPR := cm_CommitCountDuringPR commitMetrics;
       FirstCommitToMergeHours := tm_FirstCommitToMergeHours timeMetrics;
       LastCommitToMergeHours := tm_LastCommitToMergeHours timeMetrics;
       CommentCount := commentCount;
       FirstCommentAt := firstCommentAt;
       CreatedToFirstCommentHours := tm_CreatedToFirstCommentHours timeMetrics;
       ReviewCount := reviewCount;
       Additions := additions;
       Deletions := deletions;
       ChangedFiles := changedFiles;
       ApprovalCount := approvalCount;
       TimeToApprovalHours := timeToApprovalHours;
       TotalPRLifetimeHours := tm_TotalPRLifetimeHours timeMetrics;
       MaxNoCommentPeriodHours := wp_MaxNoCommentPeriodHours waitingPeriods;
       MaxNoCommitPeriodHours := wp_MaxNoCommitPeriodHours waitingPeriods;
       MaxNoActivityPeriodHours := wp_MaxNoActivityPeriodHours waitingPeriods |})
  end end.

(** The loop of [CalculateAllPRMetrics]: [i] is the index of the next PR,
    [total] is [len(prs)] and [allMetrics] the records appended so far. *)
Fixpoint processPRs (c : Client) (owner repo : string) (prs : list PullRequest)
    (i total : Z) (allMetrics : list PRMetrics) : Logged (list PRMetrics) :=
  match prs with
  | [] => mret allMetrics
  | pr :: rest =>
      log utils.DEBUG "Processing PR #%d (%d/%d)"
        [utils.ArgInt (pr_Number pr); utils.ArgInt (i + 1); utils.ArgInt total];;
      r ← CalculatePRMetrics c owner repo pr;
      match r with
      | inl err =>
          log utils.ERROR "Failed to calculate metrics for PR #%d: %v"
            [utils.ArgInt (pr_Number pr); utils.ArgStr err];;
          processPRs c owner repo rest (i + 1) total allMetrics
      | inr metrics =>
          processPRs c owner repo rest (i + 1) total (allMetrics ++ [metrics])
      end
  end.

Definition CalculateAllPRMetrics (c : Client) (owner repo : string)
    (prs : list PullRequest) : Logged (error + list PRMetrics) :=
  log utils.INFO "Calculating metrics for %d pull requests" [utils.ArgInt (len prs)];;
  allMetrics ← processPRs c owner repo prs 0 (len prs) [];
  log utils.INFO "Successfully calculated metrics for %d/%d pull requests"
    [utils.ArgInt (len allMetrics); utils.ArgInt (len prs)];;
  mret (inr allMetrics).

(** *** The aggregated calculator *)

(** The running [sumX] and the slice [xs] of a count field. *)
Record intAcc := { isum : Z; ivalues : list Z }.

(** The running [sumXHours], [countX] and the slice [xHours] of a
    duration or gap field. *)
Record durAcc := { dsum : float; dcount : Z; dvalues : list float }.

Definition intAcc0 : intAcc := {| isum := 0; ivalues := [] |}.
Definition durAcc0 : durAcc := {| dsum := 0; dcount := 0; dvalues := [] |}.

(** [sumX += v; xs = append(xs, v)]. *)
Definition addInt (a : intAcc) (v : Z) : intAcc :=
  {| isum := wrap64 (isum a + v); ivalues := ivalues a ++ [v] |}.

(** [if v > 0 { sumX += v; countX++; xs = append(xs, v) }]. *)
Definition addDur (a : durAcc) (v : float) : durAcc :=
  if (0 <? v)%float then
    {| dsum := (dsum a + v)%float; dcount := dcount a + 1; dvalues := dvalues a ++ [v] |}
  else a.

(** The local variables of [calculateAggregatedMetrics]. *)
Record accumulators := {
  aCommitCount : intAcc;
  aCommentCount : intAcc;
  aReviewCount : intAcc;
  aApprovalCount : intAcc;
  aAdditions : intAcc;
  aDeletions : intAcc;
  aChangedFiles : intAcc;
  aCommitCountDuringPR : intAcc;
  aFirstCommitToCreate : durAcc;
  aCreateToLastCommit : durAcc;
  aFirstCommitToMerge : durAcc;
  aLastCommitToMerge : durAcc;
  aCreatedToFirstComment : durAcc;
  aTimeToApproval : durAcc;
  aTotalPRLifetime : durAcc;
  aMaxNoCommentPeriod : durAcc;
  aMaxNoCommitPeriod : durAcc;
  aMaxNoActivityPeriod : durAcc
}.

Definition accumulators0 : accumulators :=
  {| aCommitCount := intAcc0; aCommentCount := intAcc0; aReviewCount := intAcc0;
     aApprovalCount := intAcc0; aAdditions := intAcc0; aDeletions := intAcc0;
     aChangedFiles := intAcc0; aCommitCountDuringPR := intAcc0;
     aFirstCommitToCreate := durAcc0; aCreateToLastCommit := durAcc0;
     aFirstCommitToMerge := durAcc0; aLastCommitToMerge := durAcc0;
     aCreatedToFirstComment := durAcc0; aTimeToApproval := durAcc0;
     aTotalPRLifetime := durAcc0; aMaxNoCommentPeriod := durAcc0;
     aMaxNoCommitPeriod := durAcc0; aMaxNoActivityPeriod := durAcc0 |}.

(** The body of the loop over the bucket's PRs. *)
Definition accumulate (a : accumulators) (pr : PRMetrics) : accumulators :=
  {| aCommitCount := addInt (aCommitCount a) (CommitCount pr);
     aCommentCount := addInt (aCommentCount a) (CommentCount pr);
     aReviewCount := addInt (aReviewCount a) (ReviewCount pr);
     aApprovalCount := addInt (aApprovalCount a) (ApprovalCount pr);
     aAdditions := addInt (aAdditions a) (Additions pr);
     aDeletions := addInt (aDeletions a) (Deletions pr);
     aChangedFiles := addInt (aChangedFiles a) (ChangedFiles pr);
     aCommitCountDuringPR := addInt (aCommitCountDuringPR a) (CommitCountDuringPR pr);
     aFirstCommitToCreate := addDur (aFirstCommitToCreate a) (FirstCommitToCreateHours pr);
     aCreateToLastCommit := addDur (aCreateToLastCommit a) (CreateToLastCommitHours pr);
     aFirstCommitToMerge := addDur (aFirstCommitToMerge a) (FirstCommitToMergeHours pr);
     aLastCommitToMerge := addDur (aLastCommitToMerge a) (LastCommitToMergeHours pr);
     aCreatedToFirstComment :=
       addDur (aCreatedToFirstComment a) (CreatedToFirstCommentHours pr);
     aTimeToApproval := addDur (aTimeToApproval a) (TimeToApprovalHours pr);
     aTotalPRLifetime := addDur (aTotalPRLifetime a) (TotalPRLifetimeHours pr);
     aMaxNoCommentPeriod := addDur (aMaxNoCommentPeriod a) (MaxNoCommentPeriodHours pr);
     aMaxNoCommitPeriod := addDur (aMaxNoCommitPeriod a) (MaxNoCommitPeriodHours pr);
     aMaxNoActivityPeriod :=
       addDur (aMaxNoActivityPeriod a) (MaxNoActivityPeriodHours pr) |}.

(** [float64(sumX) / float64(prCount)]. *)
Definition avgInt (a : intAcc) (prCount : Z) : float :=
  (time.float64_of_int (isum a) / time.float64_of_int prCount)%float.

(** The average a duration field ends with: set under [if countX > 0],
    zero otherwise. *)
Definition avgDur (a : durAcc) : float :=
  if 0 <? dcount a then (dsum a / time.float64_of_int (dcount a))%float else 0%float.

(** The median a duration field ends with, set under the same test. *)
Definition medianDur (a : durAcc) : float :=
  if 0 <? dcount a then fst (calculateMedianFloat (dvalues a)) else 0%float.

Definition emptyAggregatedMetrics (period : string) (startDate endDate : time.Time)
    : AggregatedMetrics :=
  Build_AggregatedMetrics period startDate endDate 0
    0 0 0 0 0 0 0 0 0 0 0 0 0 0 0 0 0 0
    0 0 0 0 0 0 0 0 0 0 0 0 0 0 0 0 0 0.

Definition calculateAggregatedMetrics (period : string)
    (startDate endDate : time.Time) (prs : list PRMetrics) : AggregatedMetrics :=
  let prCount := len prs in
  if prCount =? 0 then emptyAggregatedMetrics period startDate endDate
  else
    let a := fold_left accumulate prs accumulators0 in
    {| Period := period;
       StartDate := startDate;
       EndDate := endDate;
       PRCount := prCount;
       AvgCommitCount := avgInt (aCommitCount a) prCount;
       AvgCommentCount := avgInt (aCommentCount a) prCount;
       AvgReviewCount := avgInt (aReviewCount a) prCount;
       AvgApprovalCount := avgInt (aApprovalCount a) prCount;
       AvgAdditions := avgInt (aAdditions a) prCount;
       AvgDeletions := avgInt (aDeletions a) prCount;
       AvgChangedFiles := avgInt (aChangedFiles a) prCount;
       AvgCommitCountDuringPR := avgInt (aCommitCountDuringPR a) prCount;
       MedianCommitCount := fst (calculateMedianInt (ivalues (aCommitCount a)));
       MedianCommentCount := fst (calculateMedianInt (ivalues (aCommentCount a)));
       MedianReviewCount := fst (calculateMedianInt (ivalues (aReviewCount a)));
       MedianApprovalCount := fst (calculateMedianInt (ivalues (aApprovalCount a)));
       MedianAdditions := fst (calculateMedianInt (ivalues (aAdditions a)));
       MedianDeletions := fst (calculateMedianInt (ivalues (aDeletions a)));
       MedianChangedFiles := fst (calculateMedianInt (ivalues (aChangedFiles a)));
       MedianCommitCountDuringPR :=
         fst (calculateMedianInt (ivalues (aCommitCountDuringPR a)));
       AvgFirstCommitToCreateHours := avgDur (aFirstCommitToCreate a);
       MedianFirstCommitToCreateHours := medianDur (aFirstCommitToCreate a);
       AvgCreateToLastCommitHours := avgDur (aCreateToLastCommit a);
       MedianCreateToLastCommitHours := medianDur (aCreateToLastCommit a);
       AvgFirstCommitToMergeHours := avgDur (aFirstCommitToMerge a);
       MedianFirstCommitToMergeHours := medianDur (aFirstCommitToMerge a);
       AvgLastCommitToMergeHours := avgDur (aLastCommitToMerge a);
       MedianLastCommitToMergeHours := medianDur (aLastCommitToMerge a);
       AvgCreatedToFirstCommentHours := avgDur (aCreatedToFirstComment a);
       MedianCreatedToFirstCommentHours := medianDur (aCreatedToFirstComment a);
       AvgTimeToApprovalHours := avgDur (aTimeToApproval a);
       MedianTimeToApprovalHours := medianDur (aTimeToApproval a);
       AvgTotalPRLifetimeHours := avgDur (aTotalPRLifetime a);
       MedianTotalPRLifetimeHours := medianDur (aTotalPRLifetime a);
       AvgMaxNoCommentPeriodHours := avgDur (aMaxNoCommentPeriod a);
       MedianMaxNoCommentPeriodHours := medianDur (aMaxNoCommentPeriod a);
       AvgMaxNoCommitPeriodHours := avgDur (aMaxNoCommitPeriod a);
       MedianMaxNoCommitPeriodHours := medianDur (aMaxNoCommitPeriod a);
       AvgMaxNoActivityPeriodHours := avgDur (aMaxNoActivityPeriod a);
       MedianMaxNoActivityPeriodHours := medianDur (aMaxNoActivityPeriod a) |}.

(** The three maps of a grouping loop: the bucket's PRs, start and end,
    by period key. *)
Record groups := {
  PRs : gmap string (list PRMetrics);
  StartDates : gmap string time.Time;
  EndDates : gmap string time.Time
}.

Definition groups0 : groups := {| PRs := ∅; StartDates := ∅; EndDates := ∅ |}.

(** The end of a loop body shared by the two groupings: create the
    bucket of [key] when it is new, then append [pr] to it. *)
Definition addToGroup (g : groups) (key : string) (startDate endDate : time.Time)
    (pr : PRMetrics) : groups :=
  let g :=
    match PRs g !! key with
    | None =>
        {| PRs := <[key := []]> (PRs g);
           StartDates := <[key := startDate]> (StartDates g);
           EndDates := <[key := endDate]> (EndDates g) |}
    | Some _ => g
    end in
  {| PRs := <[key := default [] (PRs g !! key) ++ [pr]]> (PRs g);
     StartDates := StartDates g;
     EndDates := EndDates g |}.

Definition weekKeyOf (mergedAt : time.Time) : string :=
  let '(year, week) := time.ISOWeek mergedAt in
  (fmt_d year ++ "-W" ++ fmt_02d week)%string.

Definition monthKeyOf (mergedAt : time.Time) : string :=
  let '(year, month, _) := time.Date_of mergedAt in
  (fmt_d year ++ "-" ++ fmt_02d month)%string.

(** The body of the weekly grouping loop. *)
Definition groupWeekly (g : groups) (pr : PRMetrics) : groups :=
  if time.IsZero (MergedAt pr) then g
  else
    let weekKey := weekKeyOf (MergedAt pr) in
    let startOfWeek := getStartOfISOWeek (MergedAt pr) in
    let endOfWeek := time.AddDate startOfWeek 0 0 6 in
    addToGroup g weekKey startOfWeek endOfWeek pr.

(** The body of the monthly grouping loop. *)
Definition groupMonthly (g : groups) (pr : PRMetrics) : groups :=
  if time.IsZero (MergedAt pr) then g
  else
    let '(year, month, _) := time.Date_of (MergedAt pr) in
    let monthKey := monthKeyOf (MergedAt pr) in
    let startOfMonth :=
      time.Date year month 1 0 0 0 0 (time.Location_of (MergedAt pr)) in
    let endOfMonth := time.AddDate startOfMonth 0 1 (-1) in
    addToGroup g monthKey startOfMonth endOfMonth pr.

Definition weeklyGroups (prMetrics : list PRMetrics) : groups :=
  fold_left groupWeekly prMetrics groups0.

Definition monthlyGroups (prMetrics : list PRMetrics) : groups :=
  fold_left groupMonthly prMetrics groups0.

(** The second loop, over the map of buckets (in the map's order), and
    the sort by period that fixes the order of the result. *)
Definition summarize (g : groups) : list AggregatedMetrics :=
  sort_Slice (fun a b => String.ltb (Period a) (Period b))
    (map (fun '(key, prs) =>
            calculateAggregatedMetrics key
              (default time.zeroTime (StartDates g !! key))
              (default time.zeroTime (EndDates g !! key)) prs)
       (map_to_list (PRs g))).

Definition CalculateWeeklyAggregatedMetrics (prMetrics : list PRMetrics)
    : Logged (error + list AggregatedMetrics) :=
  log utils.INFO "Calculating weekly aggregated metrics" [];;
  let weeklyMetrics := summarize (weeklyGroups prMetrics) in
  log utils.INFO "Successfully calculated weekly aggregated metrics for %d weeks"
    [utils.ArgInt (len weeklyMetrics)];;
  mret (inr weeklyMetrics).

Definition CalculateMonthlyAggregatedMetrics (prMetrics : list PRMetrics)
    : Logged (error + list AggregatedMetrics) :=
  log utils.INFO "Calculating monthly aggregated metrics" [];;
  let monthlyMetrics := summarize (monthlyGroups prMetrics) in
  log utils.INFO "Successfully calculated monthly aggregated metrics for %d months"
    [utils.ArgInt (len monthlyMetrics)];;
  mret (inr monthlyMetrics).

End metrics.

(** ** Package [api]: the requests of [client.go] *)

Module api_client.
Import github.

(** Modelled from the spec: the page and page size of a go-github
    listing request. *)
Record ListOptions := { Page : Z; PerPage : Z }.

(** Modelled from the spec: go-github's response to a listing request, of
    which the client reads the number of the next page, 0 after the last
    one. *)
Record Response := { NextPage : Z }.

(** Modelled from the spec: the remote API behind go-github's
    [PullRequests] service; every request returns its data or an error.
    [PullRequests_List] also takes the state filter of its options. *)
Record Service := {
  PullRequests_List : string -> string -> string -> ListOptions
      -> error + (list PullRequest * Response);
  PullRequests_Get : string -> string -> Z -> error + PullRequest;
  PullRequests_ListCommits : string -> string -> Z -> ListOptions
      -> error + (list RepositoryCommit * Response);
  PullRequests_ListComments : string -> string -> Z -> ListOptions
      -> error + (list PullRequestComment * Response);
  PullRequests_ListReviews : string -> string -> Z -> ListOptions
      -> error + (list PullRequestReview * Response)
}.

(** The date filter of [GetPullRequests]: a creation timestamp that is
    neither before [startDate] nor after [endDate]. *)
Definition createdWithin (startDate endDate : time.Time) (pr : PullRequest) : bool :=
  match pr_CreatedAt pr with
  | Some createdAt =>
      (time.After createdAt startDate || time.Equal createdAt startDate)
      && (time.Before createdAt endDate || time.Equal createdAt endDate)
  | None => false
  end.

(** The loop of [GetPullRequests]; [fuel] bounds the number of requests,
    and [None] is a loop still running when the fuel is spent. *)
Fixpoint pullRequestPages (fuel : nat) (s : Service) (owner repo : string)
    (startDate endDate : time.Time) (opts : ListOptions)
    (allPRs : list PullRequest) : option (Logged (error + list PullRequest)) :=
  match fuel with
  | O => None
  | S fuel' =>
      match PullRequests_List s owner repo "all" opts with
      | inl err => Some (mret (inl err))
      | inr (prs, resp) =>
          let allPRs := allPRs ++ List.filter (createdWithin startDate endDate) prs in
          let entry :=
            log utils.DEBUG "Fetched page %d of pull requests (%d total so far)"
              [utils.ArgInt (Page opts); utils.ArgInt (len allPRs)] in
          if NextPage resp =? 0 then Some (entry;; mret (inr allPRs))
          else
            match pullRequestPages fuel' s owner repo startDate endDate
                    {| Page := NextPage resp; PerPage := PerPage opts |} allPRs with
            | Some r => Some (entry;; r)
            | None => None
            end
      end
  end.

Definition GetPullRequests (fuel : nat) (s : Service) (owner repo : string)
    (startDate endDate : time.Time) : option (Logged (error + list PullRequest)) :=
  match pullRequestPages fuel s owner repo startDate endDate
          {| Page := 0; PerPage := 100 |} [] with
  | None => None
  | Some r =>
      Some (log utils.DEBUG "Fetching pull requests for %s/%s from %s to %s"
              [utils.ArgStr owner; utils.ArgStr repo;
               utils.ArgStr (Format_date startDate); utils.ArgStr (Format_date endDate)];;
            x ← r;
            match x with
            | inl err => mret (inl err)
            | inr allPRs =>
                log utils.DEBUG "Fetched %d pull requests in total"
                  [utils.ArgInt (len allPRs)];;
                mret (inr allPRs)
            end)
  end.

Definition GetPRDetails (s : Service) (owner repo : string) (number : Z)
    : Logged (error + PullRequest) :=
  log utils.DEBUG "Fetching details for PR #%d" [utils.ArgInt number];;
  match PullRequests_Get s owner repo number with
  | inl err => mret (inl err)
  | inr pr => mret (inr pr)
  end.

(** The loop shared by [GetPRCommits], [GetPRComments] and
    [GetPRReviews]: request a page, append it, follow [NextPage]. *)
Fixpoint allPages {A} (fuel : nat)
    (request : ListOptions -> error + (list A * Response))
    (opts : ListOptions) (all : list A) : option (error + list A) :=
  match fuel with
  | O => None
  | S fuel' =>
      match request opts with
      | inl err => Some (inl err)
      | inr (page, resp) =>
          let all := all ++ page in
          if NextPage resp =? 0 then Some (inr all)
          else
            allPages fuel' request
              {| Page := NextPage resp; PerPage := PerPage opts |} all
      end
  end.

(** A call of one of the three: the entry log, the loop, and the exit log
    with the number of entities. *)
Definition fetchAll {A} (fetching fetched : string) (fuel : nat)
    (request : ListOptions -> error + (list A * Response)) (number : Z)
    : option (Logged (error + list A)) :=
  match allPages fuel request {| Page := 0; PerPage := 100 |} [] with
  | None => None
  | Some (inl err) =>
      Some (log utils.DEBUG fetching [utils.ArgInt number];; mret (inl err))
  | Some (inr all) =>
      Some (log utils.DEBUG fetching [utils.ArgInt number];;
            log utils.DEBUG fetched [utils.ArgInt (len all); utils.ArgInt number];;
            mret (inr all))
  end.

Definition GetPRCommits (fuel : nat) (s : Service) (owner repo : string) (number : Z)
    : option (Logged (error + list RepositoryCommit)) :=
  fetchAll "Fetching commits for PR #%d" "Fetched %d commits for PR #%d" fuel
    (PullRequests_ListCommits s owner repo number) number.

Definition GetPRComments (fuel : nat) (s : Service) (owner repo : string) (number : Z)
    : option (Logged (error + list PullRequestComment)) :=
  fetchAll "Fetching comments for PR #%d" "Fetched %d comments for PR #%d" fuel
    (PullRequests_ListComments s owner repo number) number.

Definition GetPRReviews (fuel : nat) (s : Service) (owner repo : string) (number : Z)
    : option (Logged (error + list PullRequestReview)) :=
  fetchAll "Fetching reviews for PR #%d" "Fetched %d reviews for PR #%d" fuel
    (PullRequests_ListReviews s owner repo number) number.

End api_client.

(** ** Package [output]: the cells of the CSV files *)

Module output.

(** [formatTime]: the RFC 3339 form of a time, or the empty string for
    the zero time. *)
Definition formatTime (t : time.Time) : string :=
  if time.IsZero t then "" else Format_RFC3339 t.

End output.

(** ** Command [github-pr-metrics] *)

(** The piece of [s] before the first [sep] and the pieces after it. *)
Fixpoint pieces (s : string) (sep : ascii) : string * list string :=
  match s with
  | EmptyString => (EmptyString, [])
  | String c s' =>
      let '(p, ps) := pieces s' sep in
      if Ascii.eqb c sep then (EmptyString, p :: ps) else (String c p, ps)
  end.

(** [strings.Split(s, sep)] for a separator [sep] of one byte: the pieces
    of [s] between the occurrences of [sep]. *)
Definition strings_Split (s : string) (sep : ascii) : list string :=
  let '(p, ps) := pieces s sep in p :: ps.

Module cmd.

(** The repository argument in [main]: the owner and the name that
    [main] goes on with, [None] where it calls [logger.Fatal]. *)
Definition repository (repo : string) : option (string * string) :=
  if String.eqb repo "" then None
  else
    match strings_Split repo "/" with
    | [owner; repoName] => Some (owner, repoName)
    | _ => None
    end.

End cmd.

(** ** The vocabulary of the properties *)

Module spec.
Import api metrics.

(** The values of field [f] that a bucket's statistics include: the
    strictly positive ones, in the order of the bucket's PRs. *)
Definition included (f : PRMetrics -> float) (prs : list PRMetrics) : list float :=
  List.filter (fun v => (0 <? v)%float) (map f prs).

(** The sum of a slice of floats, added from the left starting at zero. *)
Definition total (values : list float) : float :=
  fold_left PrimFloat.add values 0%float.

(** The average of the included values, zero when there is none. *)
Definition average (values : list float) : float :=
  if len values =? 0 then 0%float
  else (total values / time.float64_of_int (len values))%float.

(** [avg] and [med] are the average and the median of the included values
    of field [f]. *)
Definition summarizes (avg med : float) (f : PRMetrics -> float)
    (prs : list PRMetrics) : Prop :=
  avg = average (included f prs) /\
  med = fst (calculateMedianFloat (included f prs)).

(** The middle of a sorted slice: its middle element when the length is
    odd, the mean of the two central elements when it is even. *)
Definition middle (sorted : list float) : float :=
  let n := length sorted in
  if Nat.odd n then nth (n / 2) sorted 0%float
  else ((nth (n / 2 - 1) sorted 0 + nth (n / 2) sorted 0) / 2)%float.

(** Midnight of the day of [t]: [time.Date(year, month, day, 0, 0, 0, 0,
    t.Location())] for [t.Date()]. *)
Definition startOfDay (t : time.Time) : time.Time :=
  let '(year, month, day) := time.Date_of t in
  time.Date year month day 0 0 0 0 (time.Location_of t).

(** The merged PRs of a collection: those with a non-zero merge
    timestamp. *)
Definition merged (prMetrics : list PRMetrics) : list PRMetrics :=
  List.filter (fun pr => negb (time.IsZero (MergedAt pr))) prMetrics.

(** The sum of [PRCount] over a result. *)
Definition sumPRCount (result : list AggregatedMetrics) : Z :=
  foldr (fun a acc => PRCount a + acc) 0 result.

(** The number of PRs in the buckets of a grouping. *)
Definition bucketSizes (g : groups) : nat :=
  sum_list_with (fun kv => length (snd kv)) (map_to_list (PRs g)).

(** [a] is the record the second loop computes for the bucket of PRs
    [prs] of the grouping [g]. *)
Definition bucket (g : groups) (a : AggregatedMetrics) (prs : list PRMetrics) : Prop :=
  exists key : string,
    PRs g !! key = Some prs /\
    a = calculateAggregatedMetrics key
          (default time.zeroTime (StartDates g !! key))
          (default time.zeroTime (EndDates g !! key)) prs.

(** The buckets of [g] are non-empty and hold merged PRs of their key,
    and the start and end recorded for a bucket are those of one of its
    PRs. *)
Definition grouped (key : PRMetrics -> string) (start stop : PRMetrics -> time.Time)
    (g : groups) : Prop :=
  forall (k : string) (prs : list PRMetrics),
    PRs g !! k = Some prs ->
    prs <> [] /\
    (forall pr, In pr prs -> time.IsZero (MergedAt pr) = false /\ key pr = k) /\
    exists pr0, In pr0 prs /\
      StartDates g !! k = Some (start pr0) /\ EndDates g !! k = Some (stop pr0).

(** The commits that carry an author date not before [createdAt]. *)
Definition duringPR (createdAt : time.Time) (commits : list github.RepositoryCommit)
    : list github.RepositoryCommit :=
  List.filter
    (fun c => match github.authorDate c with
              | Some t => negb (time.Before t createdAt)
              | None => false
              end) commits.

(** The metrics of a PR when its computation succeeds. *)
Definition succeeded (r : error + PRMetrics) : option PRMetrics :=
  match r with inr m => Some m | inl _ => None end.

(** The ERROR entry the batch writes for a PR whose computation fails. *)
Definition failureEntry (pr : github.PullRequest) (r : error + PRMetrics)
    : option utils.LogEntry :=
  match r with
  | inl err =>
      Some {| utils.level := utils.ERROR;
              utils.format := "Failed to calculate metrics for PR #%d: %v";
              utils.args := [utils.ArgInt (github.pr_Number pr); utils.ArgStr err] |}
  | inr _ => None
  end.

Definition isError (e : utils.LogEntry) : bool :=
  match utils.level e with utils.ERROR => true | _ => false end.

(** The gap in hours between two instants, from the earlier to the later
    one, zero when it is not positive. *)
Definition gapBetween (t u : time.Time) : float :=
  let gap :=
    if time.Before t u then time.Hours (time.Sub u t)
    else time.Hours (time.Sub t u) in
  if (0 <? gap)%float then gap else 0%float.

(** A commit with an author date, a comment and an approval with a
    timestamp. *)
Definition commitAt (t : time.Time) : github.RepositoryCommit :=
  {| github.rc_Commit :=
       Some {| github.commit_Author := Some {| github.author_Date := Some t |} |} |}.
Definition commentAt (t : time.Time) : github.PullRequestComment :=
  {| github.comment_CreatedAt := Some t |}.
Definition approvalAt (t : time.Time) : github.PullRequestReview :=
  {| github.review_State := "APPROVED"; github.review_SubmittedAt := Some t |}.

(** A pull request created on 15 January 2023 at 10:00 and merged on the
    18th at 15:45, in UTC. *)
Definition examplePull (number : Z) : github.PullRequest :=
  {| github.pr_Number := number;
     github.pr_Title := "Add user authentication feature";
     github.pr_UserLogin := "alice";
     github.pr_Milestone := None;
     github.pr_CreatedAt := Some (time.Date 2023 1 15 10 0 0 0 time.UTC);
     github.pr_MergedAt := Some (time.Date 2023 1 18 15 45 0 0 time.UTC);
     github.pr_State := "closed";
     github.pr_Additions := 245;
     github.pr_Deletions := 37;
     github.pr_ChangedFiles := 8 |}.

(** A client that serves one commit (09:00), one comment (11:00) and one
    approval (12:00) for every PR, but fails to fetch the commits of PR 2,
    the comments of PR 3, the details of PR 4 and the reviews of PR 5. *)
Definition exampleClient : Client :=
  {| GetPRDetails := fun _ _ n =>
       if n =? 4 then inl "details unavailable"%string else inr (examplePull n);
     GetPRCommits := fun _ _ n =>
       if n =? 2 then inl "commits unavailable"%string
       else inr [commitAt (time.Date 2023 1 15 9 0 0 0 time.UTC)];
     GetPRComments := fun _ _ n =>
       if n =? 3 then inl "comments unavailable"%string
       else inr [commentAt (time.Date 2023 1 15 11 0 0 0 time.UTC)];
     GetPRReviews := fun _ _ n =>
       if n =? 5 then inl "reviews unavailable"%string
       else inr [approvalAt (time.Date 2023 1 15 12 0 0 0 time.UTC)] |}.

(** The key, start and end the weekly loop computes for a PR. *)
Definition weekKey (pr : PRMetrics) : string := weekKeyOf (MergedAt pr).
Definition weekStart (pr : PRMetrics) : time.Time := getStartOfISOWeek (MergedAt pr).
Definition weekEnd (pr : PRMetrics) : time.Time := time.AddDate (weekStart pr) 0 0 6.

(** The key, start and end the monthly loop computes for a PR. *)
Definition monthKey (pr : PRMetrics) : string := monthKeyOf (MergedAt pr).
Definition monthStart (pr : PRMetrics) : time.Time :=
  let '(year, month, _) := time.Date_of (MergedAt pr) in
  time.Date year month 1 0 0 0 0 (time.Location_of (MergedAt pr)).
Definition monthEnd (pr : PRMetrics) : time.Time :=
  time.AddDate (monthStart pr) 0 1 (-1).

(** A PR record with a number, a merge timestamp and a total lifetime,
    zero everywhere else. *)
Definition examplePR (number : Z) (mergedAt : time.Time) (hours : float) : PRMetrics :=
  Build_PRMetrics number "" "" "" time.zeroTime mergedAt "" 0 time.zeroTime
    time.zeroTime 0 0 0 0 0 0 time.zeroTime 0 0 0 0 0 0 0 hours 0 0 0.

(** A PR record with a merge timestamp and a commit count, zero
    everywhere else. *)
Definition prWithCommits (mergedAt : time.Time) (commitCount : Z) : PRMetrics :=
  Build_PRMetrics 0 "" "" "" time.zeroTime mergedAt "" commitCount time.zeroTime
    time.zeroTime 0 0 0 0 0 0 time.zeroTime 0 0 0 0 0 0 0 0 0 0 0.

(** The order of the result: by period, as strings. *)
Definition periodLess (a b : AggregatedMetrics) : bool :=
  String.ltb (Period a) (Period b).

(** A PR record that is zero everywhere but in its total lifetime. *)
Definition prWithLifetime (hours : float) : PRMetrics :=
  examplePR 0 time.zeroTime hours.

(** Three PRs: merged on Sunday 15 January 2023 at 12:00 UTC, merged on
    Tuesday 10 January 2023 at 09:00 UTC, and not merged. *)
Definition examplePRs : list PRMetrics :=
  [examplePR 1 (time.Date 2023 1 15 12 0 0 0 time.UTC) 30;
   examplePR 2 (time.Date 2023 1 10 9 0 0 0 time.UTC) 20;
   examplePR 3 time.zeroTime 0].

(** The merged PRs of a collection whose period key is [k], in the order
    of the collection. *)
Definition withKey (key : PRMetrics -> string) (k : string)
    (prMetrics : list PRMetrics) : list PRMetrics :=
  List.filter (fun pr => negb (time.IsZero (MergedAt pr)) && String.eqb (key pr) k)
    prMetrics.

(** What a map of buckets holds under a key: nothing for an empty
    bucket. *)
Definition nonEmpty (prs : list PRMetrics) : option (list PRMetrics) :=
  match prs with [] => None | _ :: _ => Some prs end.

(** The reviews whose state is "APPROVED". *)
Definition approvals (reviews : list github.PullRequestReview)
    : list github.PullRequestReview :=
  List.filter (fun r => String.eqb (github.review_State r) "APPROVED") reviews.

(** The earliest of a list of instants, the zero instant for none. *)
Definition earliest (ts : list Z) : Z :=
  match ts with
  | [] => 0
  | t :: rest => fold_left Z.min rest t
  end.

(** The sum of a list of integers. *)
Definition sumZ (values : list Z) : Z := foldr Z.add 0 values.

(** [avg] and [med] are the average and the median of field [f] over all
    the PRs of a bucket. *)
Definition summarizesCount (avg med : float) (f : PRMetrics -> Z)
    (prs : list PRMetrics) : Prop :=
  avg = (time.float64_of_int (wrap64 (sumZ (map f prs)))
         / time.float64_of_int (len prs))%float /\
  med = fst (calculateMedianInt (map f prs)).

(** The options of the first request of a listing. *)
Definition firstPage : api_client.ListOptions :=
  {| api_client.Page := 0; api_client.PerPage := 100 |}.

(** An API that serves the pages [ps] the way GitHub does: page [i],
    counted from 1 (page 0 is the first page too), comes with the next
    page number [i + 1], and the last page with 0. *)
Definition served {A} (ps : list (list A)) (opts : api_client.ListOptions)
    : error + (list A * api_client.Response) :=
  let i := if api_client.Page opts =? 0 then 1 else api_client.Page opts in
  inr (nth (Z.to_nat (i - 1)) ps [],
       {| api_client.NextPage := if i <? len ps then i + 1 else 0 |}).

(** An API that serves the pages [ps] and fails with [err] on the page
    after them. *)
Definition servedThenFails {A} (ps : list (list A)) (err : error)
    (opts : api_client.ListOptions) : error + (list A * api_client.Response) :=
  let i := if api_client.Page opts =? 0 then 1 else api_client.Page opts in
  if i <=? len ps
  then inr (nth (Z.to_nat (i - 1)) ps [], {| api_client.NextPage := i + 1 |})
  else inl err.

(** What [GetPullRequests] keeps of the pull requests the API lists. *)
Definition keepWithin (startDate endDate : time.Time)
    (r : option (error + list github.PullRequest))
    : option (error + list github.PullRequest) :=
  match r with
  | Some (inr prs) =>
      Some (inr (List.filter (api_client.createdWithin startDate endDate) prs))
  | other => other
  end.

(** [occurs c s]: the byte [c] is in [s]. *)
Fixpoint occurs (c : ascii) (s : string) : bool :=
  match s with
  | EmptyString => false
  | String x s' => Ascii.eqb x c || occurs c s'
  end.

(** The PRs whose merge timestamp is in the location [l]. *)
Definition mergedIn (l : time.Location) (pr : PRMetrics) : Prop :=
  time.Location_of (MergedAt pr) = l.

(** The offset of a location at the Unix time 0. *)
Definition offsetOf (l : time.Location) : Z := time.zone_offset (time.lookup l 0).

(** The locations that keep one offset from UTC at all times: UTC, in
    which the timestamps of the GitHub API are decoded, and the fixed
    zones. *)
Definition fixedOffset (l : time.Location) : Prop :=
  forall unix, time.zone_offset (time.lookup l unix) = offsetOf l.

(** The location Asia/Tehran from September 2020 to March 2022: three and
    a half hours east of UTC, and four and a half from 22 March 2021,
    00:00 (21 March, 20:30 UTC) to 22 September 2021, 00:00 (21 September,
    19:30 UTC). *)
Definition tehran : time.Location :=
  {| time.lookup := fun unix =>
       if unix <? 1616358600 then
         {| time.zone_offset := 12600; time.zone_start := 1600630200;
            time.zone_end := 1616358600 |}
       else if unix <? 1632252600 then
         {| time.zone_offset := 16200; time.zone_start := 1616358600;
            time.zone_end := 1632252600 |}
       else
         {| time.zone_offset := 12600; time.zone_start := 1632252600;
            time.zone_end := 1647894600 |} |}.

(** A service that lists the pull requests [ps], page by page. *)
Definition listing (ps : list (list github.PullRequest)) : api_client.Service :=
  {| api_client.PullRequests_List := fun _ _ _ => served ps;
     api_client.PullRequests_Get := fun _ _ n => inr (examplePull n);
     api_client.PullRequests_ListCommits := fun _ _ _ => served [];
     api_client.PullRequests_ListComments := fun _ _ _ => served [];
     api_client.PullRequests_ListReviews := fun _ _ _ => served [] |}.

End spec.

(** * Properties *)

(** ** The calendar of package [time] *)

Section Calendar.
Import time.

Lemma daysBeforeYear_succ (y : Z) :
  daysBeforeYear (y + 1) = daysBeforeYear y + daysInYear y.
Proof.
  unfold daysBeforeYear, daysInYear, isLeap. cbv zeta.
  destruct (_ && _) eqn:E.
  - rewrite andb_true_iff, orb_true_iff, negb_true_iff, Z.eqb_neq, !Z.eqb_eq in E.
    Z.to_euclidean_division_equations; lia.
  - rewrite andb_false_iff, orb_false_iff, negb_false_iff, !Z.eqb_neq, Z.eqb_eq in E.
    Z.to_euclidean_division_equations; lia.
Qed.

Lemma absDate_spec (d y yd : Z) :
  absDate d = (y, yd) ->
  daysBeforeYear y + yd = d /\ 0 <= yd < daysInYear y.
Proof.
  unfold absDate, daysBeforeYear, daysInYear, isLeap. cbv zeta.
  intros [= <- <-]. split.
  - Z.to_euclidean_division_equations; lia.
  - destruct (_ && _) eqn:E.
    + Z.to_euclidean_division_equations; lia.
    + rewrite andb_false_iff, orb_false_iff, negb_false_iff, !Z.eqb_neq, Z.eqb_eq in E.
      Z.to_euclidean_division_equations; lia.
Qed.

Ltac by_cases12 q lo :=
  let H := fresh in
  assert (H : q = lo \/ q = lo + 1 \/ q = lo + 2 \/ q = lo + 3 \/ q = lo + 4 \/
              q = lo + 5 \/ q = lo + 6 \/ q = lo + 7 \/ q = lo + 8 \/ q = lo + 9 \/
              q = lo + 10 \/ q = lo + 11) by lia;
  repeat (destruct H as [H | H]); subst q.

(** The month estimate [day / 31] and its adjustment, outside leap days. *)
Lemma month_estimate (day m dd : Z) :
  0 <= day < 365 ->
  (let month := day / 31 in
   let e := daysBefore (month + 1) in
   if e <=? day then (month + 2, day - e + 1)
   else (month + 1, day - daysBefore month + 1)) = (m, dd) ->
  1 <= m <= 12 /\ daysBefore (m - 1) + (dd - 1) = day /\
  1 <= dd <= daysBefore m - daysBefore (m - 1).
Proof.
  intros Hday. cbv zeta.
  pose proof (Z.div_mod day 31 ltac:(lia)) as Hdm.
  pose proof (Z.mod_pos_bound day 31 ltac:(lia)) as Hmod.
  remember (day / 31) as q eqn:Hq. clear Hq.
  by_cases12 q 0; simpl;
    match goal with |- context [?a <=? ?b] => destruct (Z.leb_spec a b) end;
    intros [= <- <-]; simpl; lia.
Qed.

Lemma monthDay_spec (y yd m dd : Z) :
  0 <= yd < daysInYear y ->
  monthDay y yd = (m, dd) ->
  1 <= m <= 12 /\ 1 <= dd <= daysIn y m /\ daysBeforeMonth y m + (dd - 1) = yd.
Proof.
  unfold monthDay, daysInYear, daysIn, daysBeforeMonth. intros Hyd.
  destruct (isLeap y); simpl andb; rewrite ?andb_false_r.
  - destruct (Z.eqb_spec yd (31 + 29 - 1)) as [-> | Hne].
    { intros [= <- <-]. simpl. lia. }
    destruct (Z.ltb_spec (31 + 29 - 1) yd) as [Hlt | Hge]; intros E;
      (apply month_estimate in E; [| lia]); destruct E as (Hm & Hd & Hdd);
      by_cases12 m 1; simpl in *; lia.
  - intros E. apply month_estimate in E; [| lia]. destruct E as (Hm & Hd & Hdd).
    by_cases12 m 1; simpl in *; lia.
Qed.

Lemma wallDate_spec (t : Z) (y m dd : Z) :
  wallDate t = (y, m, dd) ->
  1 <= m <= 12 /\ 1 <= dd <= daysIn y m /\
  daysBeforeYear y + daysBeforeMonth y m + (dd - 1) = absDays t.
Proof.
  unfold wallDate. destruct (absDate (absDays t)) as [y' yd] eqn:Ea.
  apply absDate_spec in Ea. destruct Ea as [Hsum Hyd].
  destruct (monthDay y' yd) as [m' dd'] eqn:Em. intros [= <- <- <-].
  apply monthDay_spec in Em; [| exact Hyd]. lia.
Qed.

Lemma civil_in_range (y m d h mi s ns : Z) :
  1 <= m <= 12 ->
  civil y m d h mi s ns =
  (daysBeforeYear y + daysBeforeMonth y m + (d - 1)) * nsPerDay
  + h * Hour + mi * (60 * Second) + s * Second + ns.
Proof.
  intros Hm. unfold civil. cbv zeta.
  replace ((m - 1) / 12) with 0 by (Z.to_euclidean_division_equations; lia).
  replace ((m - 1) mod 12 + 1) with m by (Z.to_euclidean_division_equations; lia).
  rewrite Z.add_0_r. reflexivity.
Qed.

Lemma absDays_midnight (k : Z) : absDays (k * nsPerDay) = k.
Proof. unfold absDays. apply Z.div_mul. discriminate. Qed.

Lemma wallClock_midnight (k : Z) : wallClock (k * nsPerDay) = (0, 0, 0, 0).
Proof. unfold wallClock, nsOfDay. rewrite Z.mod_mul by discriminate. reflexivity. Qed.

(** Midnight of the day of [t]. *)
Lemma startOfDay_eq (t : Z) (y m dd : Z) :
  wallDate t = (y, m, dd) -> civil y m dd 0 0 0 0 = absDays t * nsPerDay.
Proof.
  intros E. apply wallDate_spec in E. destruct E as (Hm & _ & Hd).
  rewrite civil_in_range by exact Hm. rewrite Hd. lia.
Qed.

(** Adding days to the date of a midnight moves it by whole days. *)
Lemma civil_add_days (k n y m dd : Z) :
  wallDate (k * nsPerDay) = (y, m, dd) ->
  civil (y + 0) (m + 0) (dd + n) 0 0 0 0 = (k + n) * nsPerDay.
Proof.
  intros E. apply wallDate_spec in E.
  destruct E as (Hm & _ & Hd). rewrite absDays_midnight in Hd.
  rewrite !Z.add_0_r, civil_in_range by exact Hm. lia.
Qed.

Lemma daysBeforeYear_mono (y y' : Z) :
  y <= y' -> daysBeforeYear y <= daysBeforeYear y'.
Proof.
  unfold daysBeforeYear. cbv zeta. intros H.
  Z.to_euclidean_division_equations; lia.
Qed.

Lemma civilDays_year_bounds (y m d : Z) :
  validDate y m d ->
  daysBeforeYear y <= civilDays y m d < daysBeforeYear (y + 1).
Proof.
  intros [Hm Hd]. rewrite daysBeforeYear_succ.
  unfold civilDays, daysInYear, daysBeforeMonth, daysIn in *.
  destruct (isLeap y); by_cases12 m 1; simpl in *; lia.
Qed.

Lemma civilDays_inj (y m d y' m' d' : Z) :
  validDate y m d -> validDate y' m' d' ->
  civilDays y m d = civilDays y' m' d' -> y = y' /\ m = m' /\ d = d'.
Proof.
  intros Hv Hv' E.
  pose proof (civilDays_year_bounds _ _ _ Hv) as Hb.
  pose proof (civilDays_year_bounds _ _ _ Hv') as Hb'.
  assert (Hy : y = y').
  { destruct (Z.lt_trichotomy y y') as [Hlt | [Heq | Hgt]]; [| exact Heq |]; exfalso.
    - pose proof (daysBeforeYear_mono (y + 1) y' ltac:(lia)). lia.
    - pose proof (daysBeforeYear_mono (y' + 1) y ltac:(lia)). lia. }
  subst y'. split; [reflexivity |].
  destruct Hv as [Hm Hd], Hv' as [Hm' Hd'].
  unfold civilDays, daysBeforeMonth, daysIn in *.
  destruct (isLeap y); by_cases12 m 1; by_cases12 m' 1; simpl in *; lia.
Qed.

Lemma wallDate_civil (y m d : Z) :
  validDate y m d -> wallDate (civilDays y m d * nsPerDay) = (y, m, d).
Proof.
  intros Hv. destruct (wallDate _) as [[y' m'] d'] eqn:E.
  apply wallDate_spec in E. destruct E as (Hm' & Hd' & Hs).
  rewrite absDays_midnight in Hs.
  destruct (civilDays_inj y' m' d' y m d) as (-> & -> & ->);
    [split; assumption | exact Hv | exact Hs | reflexivity].
Qed.

(** The first of a month is a midnight. *)
Lemma startOfMonth_eq (y m : Z) :
  1 <= m <= 12 -> civil y m 1 0 0 0 0 = civilDays y m 1 * nsPerDay.
Proof. intros Hm. rewrite civil_in_range by exact Hm. unfold civilDays. lia. Qed.

Lemma validDate_first (y m : Z) : 1 <= m <= 12 -> validDate y m 1.
Proof.
  intros Hm. split; [exact Hm |]. unfold daysIn.
  destruct (isLeap y); by_cases12 m 1; simpl; lia.
Qed.

(** The end of a month: the first of the month, plus one month, minus one
    day, is the midnight of the month's last day. *)
Lemma endOfMonth_eq (y m : Z) :
  1 <= m <= 12 ->
  civil (y + 0) (m + 1) (1 + -1) 0 0 0 0 = civilDays y m (daysIn y m) * nsPerDay.
Proof.
  intros Hm. unfold civil, civilDays. cbv zeta.
  destruct (Z.eq_dec m 12) as [-> | Hne].
  - change ((12 + 1 - 1) / 12) with 1. change ((12 + 1 - 1) mod 12 + 1) with 1.
    replace (y + 0 + 1) with (y + 1) by lia.
    rewrite daysBeforeYear_succ.
    unfold daysInYear, daysBeforeMonth, daysIn.
    destruct (isLeap y), (isLeap (y + 1)); simpl; lia.
  - replace ((m + 1 - 1) / 12) with 0 by (Z.to_euclidean_division_equations; lia).
    replace ((m + 1 - 1) mod 12 + 1) with (m + 1)
      by (Z.to_euclidean_division_equations; lia).
    replace (y + 0 + 0) with y by lia. unfold daysBeforeMonth, daysIn.
    destruct (isLeap y); by_cases12 m 1; simpl; lia.
Qed.

End Calendar.

(** ** Times in a location of fixed offset *)

Section Zones.
Import time spec.

Lemma fixedOffset_FixedZone (offset : Z) : fixedOffset (FixedZone offset).
Proof. intros unix. reflexivity. Qed.

Lemma wall_fixed (t : Time) :
  fixedOffset (Location_of t) ->
  wall t = instant t + offsetOf (Location_of t) * Second.
Proof. intros H. unfold wall, zoneOffset. rewrite H. reflexivity. Qed.

(** In a location of fixed offset, [time.Date] is the wall clock less the
    offset. *)
Lemma Date_fixed (y m d h mi s ns : Z) (l : Location) :
  fixedOffset l ->
  Date y m d h mi s ns l
  = {| instant := civil y m d h mi s ns - offsetOf l * Second; Location_of := l |}.
Proof.
  intros H. unfold Date. cbv zeta. rewrite !H.
  destruct (offsetOf l =? 0) eqn:E.
  - apply Z.eqb_eq in E. rewrite E. reflexivity.
  - destruct (_ || _); reflexivity.
Qed.

Lemma wall_mk (w : Z) (l : Location) :
  fixedOffset l ->
  wall {| instant := w - offsetOf l * Second; Location_of := l |} = w.
Proof.
  intros H. rewrite wall_fixed by exact H. cbn [instant Location_of]. lia.
Qed.

Lemma AddDate_mk (w : Z) (l : Location) (years months days : Z) :
  fixedOffset l ->
  AddDate {| instant := w - offsetOf l * Second; Location_of := l |} years months days =
  let '(y, m, d) := wallDate w in
  let '(h, mi, s, ns) := wallClock w in
  {| instant := civil (y + years) (m + months) (d + days) h mi s ns
                - offsetOf l * Second;
     Location_of := l |}.
Proof.
  intros H. unfold AddDate, Date_of, Clock_of. rewrite (wall_mk w l H).
  destruct (wallDate w) as [[y m] d], (wallClock w) as [[[h mi] s] ns].
  cbn [Location_of]. apply Date_fixed, H.
Qed.

(** Adding days to a midnight moves it by whole days. *)
Lemma AddDate_days_midnight (k n : Z) (l : Location) :
  fixedOffset l ->
  AddDate {| instant := k * nsPerDay - offsetOf l * Second; Location_of := l |} 0 0 n
  = {| instant := (k + n) * nsPerDay - offsetOf l * Second; Location_of := l |}.
Proof.
  intros H. rewrite (AddDate_mk _ _ _ _ _ H).
  destruct (wallDate (k * nsPerDay)) as [[y m] dd] eqn:E.
  rewrite wallClock_midnight, (civil_add_days _ _ _ _ _ E). reflexivity.
Qed.

End Zones.

(** ** ISO weeks *)

Section Weeks.
Import time metrics spec.

(** Day 0 is a Monday, so the Monday of a day's week is the day number
    rounded down to a multiple of seven. *)
Lemma getStartOfISOWeek_eq (t : Time) :
  fixedOffset (Location_of t) ->
  getStartOfISOWeek t
  = {| instant := 7 * (absDays (wall t) / 7) * nsPerDay
                  - offsetOf (Location_of t) * Second;
       Location_of := Location_of t |}.
Proof.
  intros H. unfold getStartOfISOWeek. cbv zeta. unfold Date_of.
  destruct (wallDate (wall t)) as [[y m] dd] eqn:E.
  rewrite (Date_fixed _ _ _ _ _ _ _ _ H), (startOfDay_eq _ _ _ _ E).
  rewrite (AddDate_days_midnight _ _ _ H).
  f_equal. f_equal. f_equal. unfold Weekday, wallWeekday.
  destruct (Z.eqb_spec ((absDays (wall t) + 1) mod 7) 0);
    Z.to_euclidean_division_equations; lia.
Qed.

(** The Thursday that decides the ISO year and week is three days after
    that Monday. *)
Lemma wallISOWeek_eq (t : Z) :
  wallISOWeek t =
  let '(year, yday) := absDate (7 * (absDays t / 7) + 3) in (year, yday / 7 + 1).
Proof.
  unfold wallISOWeek, wallWeekday. cbv zeta.
  replace (absDays t + _) with (7 * (absDays t / 7) + 3); [reflexivity |].
  destruct (Z.eqb_spec (4 - (absDays t + 1) mod 7) 4);
    Z.to_euclidean_division_equations; lia.
Qed.

Lemma wallISOWeek_inj (t u : Z) :
  wallISOWeek t = wallISOWeek u -> absDays t / 7 = absDays u / 7.
Proof.
  rewrite !wallISOWeek_eq.
  destruct (absDate (7 * (absDays t / 7) + 3)) as [y yd] eqn:Et.
  destruct (absDate (7 * (absDays u / 7) + 3)) as [y' yd'] eqn:Eu.
  apply absDate_spec in Et, Eu. intros [= <- Hw].
  destruct Et as [Et _], Eu as [Eu _].
  Z.to_euclidean_division_equations; lia.
Qed.

Lemma ISOWeek_range (t : Time) (year week : Z) :
  ISOWeek t = (year, week) -> 1 <= week <= 53.
Proof.
  unfold ISOWeek. rewrite wallISOWeek_eq.
  destruct (absDate _) as [y yd] eqn:Et. apply absDate_spec in Et.
  intros [= <- <-]. destruct Et as [_ Hyd].
  unfold daysInYear in Hyd. destruct (isLeap y);
    Z.to_euclidean_division_equations; lia.
Qed.

Lemma getStartOfISOWeek_same_week (t u : Time) :
  fixedOffset (Location_of t) -> Location_of u = Location_of t ->
  ISOWeek t = ISOWeek u -> getStartOfISOWeek t = getStartOfISOWeek u.
Proof.
  intros H Hl E. rewrite !getStartOfISOWeek_eq by (rewrite ?Hl; exact H).
  rewrite Hl, (wallISOWeek_inj _ _ E). reflexivity.
Qed.

Lemma getStartOfISOWeek_bounds (t : Time) :
  fixedOffset (Location_of t) ->
  instant (getStartOfISOWeek t) <= instant t
  < instant (getStartOfISOWeek t) + 7 * nsPerDay.
Proof.
  intros H. rewrite (getStartOfISOWeek_eq _ H). cbn [instant].
  rewrite (wall_fixed _ H). unfold absDays, nsPerDay, Hour, Second.
  Z.to_euclidean_division_equations; lia.
Qed.

(** C6, as stated for every date, fails: in the location Asia/Tehran the
    clocks went from 00:00 to 01:00 on Monday 22 March 2021, and for
    Wednesday 24 March 2021, 12:00 there, [getStartOfISOWeek] returns that
    Monday at 01:00:00. *)
Lemma getStartOfISOWeek_tehran :
  let d := Date 2021 3 24 12 0 0 0 tehran in
  let s := getStartOfISOWeek d in
  Date_of d = (2021, 3, 24) /\ Weekday d = 3 /\
  Date_of s = (2021, 3, 22) /\ Weekday s = 1 /\
  Clock_of s = (1, 0, 0, 0).
Proof. vm_compute. repeat split. Qed.

(** C6, amended: for a date [d] in a location of fixed offset,
    [getStartOfISOWeek d] is a Monday at 00:00:00 in the location of [d],
    it starts the seven days that contain [d] and lies in the ISO week of
    [d]; every date of the same ISO week in that location gives the same
    instant; and for a Sunday it is the midnight six days before that
    Sunday's. *)
Theorem getStartOfISOWeek_monday (d : Time) :
  fixedOffset (Location_of d) ->
  let s := getStartOfISOWeek d in
  Location_of s = Location_of d /\
  Weekday s = 1 /\
  Clock_of s = (0, 0, 0, 0) /\
  instant s <= instant d < instant s + 7 * nsPerDay /\
  ISOWeek s = ISOWeek d /\
  (forall d' : Time,
     Location_of d' = Location_of d -> ISOWeek d' = ISOWeek d ->
     getStartOfISOWeek d' = s) /\
  (Weekday d = 0 -> s = AddDate (spec.startOfDay d) 0 0 (-6)).
Proof.
  intros H. cbv zeta.
  assert (Hw : wall (getStartOfISOWeek d) = 7 * (absDays (wall d) / 7) * nsPerDay).
  { rewrite (getStartOfISOWeek_eq _ H). apply wall_mk, H. }
  assert (Hs : absDays (wall (getStartOfISOWeek d)) = 7 * (absDays (wall d) / 7)).
  { rewrite Hw. apply absDays_midnight. }
  split.
  { rewrite (getStartOfISOWeek_eq _ H). reflexivity. }
  split.
  { unfold Weekday, wallWeekday. rewrite Hs. Z.to_euclidean_division_equations; lia. }
  split.
  { unfold Clock_of. rewrite Hw. apply wallClock_midnight. }
  split; [apply getStartOfISOWeek_bounds, H |].
  split.
  { unfold ISOWeek. rewrite !wallISOWeek_eq, Hs.
    replace (7 * (absDays (wall d) / 7) / 7) with (absDays (wall d) / 7)
      by (Z.to_euclidean_division_equations; lia).
    reflexivity. }
  split.
  { intros d' Hl E. apply getStartOfISOWeek_same_week;
      [rewrite Hl; exact H | symmetry; exact Hl | exact E]. }
  intros Hsun. unfold spec.startOfDay, Date_of.
  destruct (wallDate (wall d)) as [[y m] dd] eqn:E.
  rewrite (Date_fixed _ _ _ _ _ _ _ _ H), (startOfDay_eq _ _ _ _ E).
  rewrite (AddDate_days_midnight _ _ _ H), (getStartOfISOWeek_eq _ H).
  f_equal. f_equal. f_equal.
  unfold Weekday, wallWeekday in Hsun. Z.to_euclidean_division_equations; lia.
Qed.

(** C6, amended, nine hours east of UTC: Monday 16 January 2023, 08:30
    there (Sunday 15 January, 23:30 UTC) lies in the week that starts on
    16 January, as Sunday 22 January does. *)
Lemma getStartOfISOWeek_monday_witness :
  let tokyo := FixedZone 32400 in
  fixedOffset tokyo /\
  Weekday (Date 2023 1 22 12 0 0 0 tokyo) = 0 /\
  ISOWeek (Date 2023 1 16 8 30 0 0 tokyo) = ISOWeek (Date 2023 1 22 12 0 0 0 tokyo) /\
  getStartOfISOWeek (Date 2023 1 16 8 30 0 0 tokyo) = Date 2023 1 16 0 0 0 0 tokyo /\
  getStartOfISOWeek (Date 2023 1 22 12 0 0 0 tokyo) = Date 2023 1 16 0 0 0 0 tokyo.
Proof.
  intros tokyo.
  pose proof (getStartOfISOWeek_monday (Date 2023 1 22 12 0 0 0 tokyo)
                (fixedOffset_FixedZone 32400)) as H.
  cbv zeta in H. destruct H as (_ & _ & _ & _ & _ & Hsame & Hsun).
  split; [exact (fixedOffset_FixedZone 32400) |].
  split; [vm_compute; reflexivity |]. split; [vm_compute; reflexivity |].
  split.
  - rewrite (Hsame (Date 2023 1 16 8 30 0 0 tokyo));
      [| reflexivity | vm_compute; reflexivity].
    rewrite Hsun by (vm_compute; reflexivity). vm_compute. reflexivity.
  - rewrite Hsun by (vm_compute; reflexivity). vm_compute. reflexivity.
Defined.

End Weeks.

(** ** Sorting *)

Section Sorting.
Context {A : Type} (less : A -> A -> bool).

Lemma sort_insert_perm (x : A) (s : list A) : sort_insert less x s ≡ₚ x :: s.
Proof.
  induction s as [| y s IH]; simpl; [reflexivity |].
  destruct (less x y); [reflexivity |].
  rewrite IH. apply Permutation_swap.
Qed.

Lemma sort_Slice_perm (s : list A) : sort_Slice less s ≡ₚ s.
Proof.
  induction s as [| x s IH]; simpl; [reflexivity |].
  rewrite sort_insert_perm, IH. reflexivity.
Qed.

Lemma sort_Slice_length (s : list A) : length (sort_Slice less s) = length s.
Proof. apply Permutation_length, sort_Slice_perm. Qed.

Hypothesis less_asym : forall x y, less x y = true -> less y x = false.

Lemma sort_insert_sorted (x : A) (s : list A) :
  Sorted (ascending less) s -> Sorted (ascending less) (sort_insert less x s).
Proof.
  induction s as [| y s IH]; simpl; intros Hs.
  - repeat constructor.
  - destruct (less x y) eqn:E.
    + constructor; [exact Hs |]. constructor. apply less_asym, E.
    + inversion Hs as [| ? ? Hs' Hhd]; subst.
      constructor; [apply IH, Hs' |].
      destruct s as [| z s]; simpl.
      * constructor. exact E.
      * destruct (less x z); constructor; [exact E |].
        inversion Hhd; subst. assumption.
Qed.

Lemma sort_Slice_sorted (s : list A) : Sorted (ascending less) (sort_Slice less s).
Proof.
  induction s as [| x s IH]; simpl; [constructor |].
  apply sort_insert_sorted, IH.
Qed.

End Sorting.

(** ** The order of floats *)

Lemma SFltb_asym (x y : spec_float) : SFltb x y = true -> SFltb y x = false.
Proof.
  unfold SFltb, SFcompare.
  destruct x as [sx | sx | | sx mx ex], y as [sy | sy | | sy my ey];
    try discriminate; try reflexivity;
    try (destruct sx; discriminate || reflexivity);
    try (destruct sy; discriminate || reflexivity);
    try (destruct sx, sy; discriminate || reflexivity).
  assert (Hc : PosDef.Pos.compare_cont Eq my mx
               = CompOpp (PosDef.Pos.compare_cont Eq mx my)) by apply ZC4.
  destruct sx, sy; try discriminate; try reflexivity;
    rewrite (Z.compare_antisym ex ey), Hc;
    destruct (ex ?= ey)%Z, (PosDef.Pos.compare_cont Eq mx my); simpl;
    discriminate || reflexivity.
Qed.

Lemma ltb_asym (x y : float) : (x <? y)%float = true -> (y <? x)%float = false.
Proof. rewrite !FloatAxioms.ltb_spec. apply SFltb_asym. Qed.

Lemma SFeqb_finite_refl (s : bool) (m : positive) (e : Z) :
  SFeqb (S754_finite s m e) (S754_finite s m e) = true.
Proof.
  unfold SFeqb, SFcompare. rewrite Z.compare_refl.
  assert (Hc : PosDef.Pos.compare_cont Eq m m = Eq) by apply Pos.compare_cont_refl.
  rewrite Hc. destruct s; reflexivity.
Qed.

Lemma SFltb_not_nan (x y : spec_float) :
  SFltb x y = true -> SFeqb x x = true /\ SFeqb y y = true.
Proof.
  destruct x as [sx | sx | | sx mx ex], y as [sy | sy | | sy my ey];
    try discriminate; intros _; split;
    try apply SFeqb_finite_refl;
    repeat match goal with b : bool |- _ => destruct b end; reflexivity.
Qed.

Lemma ltb_not_nan (x y : float) :
  (x <? y)%float = true -> isNaN x = false /\ isNaN y = false.
Proof.
  unfold isNaN. rewrite FloatAxioms.ltb_spec, !FloatAxioms.eqb_spec. intros H.
  apply SFltb_not_nan in H. destruct H as [-> ->]. split; reflexivity.
Qed.

Lemma float64_less_asym (x y : float) :
  float64_less x y = true -> float64_less y x = false.
Proof.
  unfold float64_less. intros H. apply orb_true_iff in H. destruct H as [H | H].
  - pose proof (ltb_not_nan _ _ H) as [Hx Hy].
    rewrite (ltb_asym _ _ H), Hx, Hy. reflexivity.
  - apply andb_true_iff in H. destruct H as [Hx Hy].
    apply negb_true_iff in Hy. rewrite Hx, Hy, andb_false_r, orb_false_r.
    destruct (y <? x)%float eqn:E; [| reflexivity].
    apply ltb_not_nan in E. destruct E as [_ E]. congruence.
Qed.

(** ** The median *)

Section Median.
Import metrics spec.

Lemma len_eq_0 {A} (s : list A) : (len s =? 0) = true <-> s = [].
Proof.
  unfold len. destruct s; simpl; [tauto |]. split; discriminate.
Qed.

Lemma sort_Float64s_perm (values : list float) : sort_Float64s values ≡ₚ values.
Proof. apply sort_Slice_perm. Qed.

Lemma sort_Float64s_sorted (values : list float) :
  Sorted (ascending float64_less) (sort_Float64s values).
Proof. apply sort_Slice_sorted, float64_less_asym. Qed.

(** The index arithmetic of [calculateMedianFloat] on the length of the
    slice, in natural numbers. *)
Lemma median_of_sorted (sorted : list float) :
  sorted <> [] ->
  (let length := len sorted in
   if Z.rem length 2 =? 0 then
     ((index sorted (Z.quot length 2 - 1) + index sorted (Z.quot length 2)) / 2)%float
   else index sorted (Z.quot length 2)) = middle sorted.
Proof.
  intros Hne. unfold middle, index, len. cbv zeta.
  set (n := length sorted).
  assert (Hn : (0 < n)%nat) by (destruct sorted; [congruence | simpl in n; lia]).
  rewrite Z.rem_mod_nonneg, Z.quot_div_nonneg by lia.
  change 2 with (Z.of_nat 2). rewrite <- Nat2Z.inj_mod, <- Nat2Z.inj_div.
  rewrite Nat2Z.id.
  destruct (Nat.odd n) eqn:Eo.
  - apply Nat.odd_spec in Eo. destruct Eo as [k Hk].
    replace (Z.of_nat (n mod 2) =? 0) with false; [reflexivity |].
    symmetry. apply Z.eqb_neq. rewrite Hk.
    replace ((2 * k + 1) mod 2)%nat with 1%nat; [discriminate |].
    rewrite Nat.add_comm, Nat.mul_comm, Nat.Div0.mod_add. reflexivity.
  - assert (He : Nat.even n = true) by (rewrite <- Nat.negb_odd, Eo; reflexivity).
    apply Nat.even_spec in He. destruct He as [k Hk].
    replace (Z.of_nat (n mod 2) =? 0) with true.
    + replace (Z.to_nat (Z.of_nat (n / 2) - 1)) with (n / 2 - 1)%nat by lia.
      reflexivity.
    + symmetry. apply Z.eqb_eq. rewrite Hk.
      rewrite Nat.mul_comm, Nat.Div0.mod_mul. reflexivity.
Qed.

Lemma calculateMedianFloat_nonempty (values : list float) :
  values <> [] ->
  calculateMedianFloat values =
  (middle (sort_Float64s values), sort_Float64s values).
Proof.
  intros Hne. unfold calculateMedianFloat.
  destruct (len values =? 0) eqn:E.
  { apply len_eq_0 in E. contradiction. }
  assert (Hs : sort_Float64s values <> []).
  { intros H. apply Hne. apply Permutation_nil_r. rewrite <- H.
    symmetry. apply sort_Float64s_perm. }
  pose proof (median_of_sorted _ Hs) as Hm. cbv zeta in Hm |- *.
  destruct (Z.rem (len (sort_Float64s values)) 2 =? 0); rewrite Hm; reflexivity.
Qed.

(** C5: the median of an empty collection is 0; the median of a non-empty
    collection is the middle of its ascending sort (the middle element for
    an odd length, the mean of the two central elements for an even one);
    the integer median is the float median of the converted values; and
    median([x]) = x, median([1,3]) = 2, median([1,2,3]) = 2,
    median([1,2,3,4]) = 2.5, for floats and for integers. *)
Theorem calculateMedian_middle_of_sort :
  fst (calculateMedianFloat []) = 0%float /\
  fst (calculateMedianInt []) = 0%float /\
  (forall (x : float) (rest : list float),
     let values := x :: rest in
     let sorted := sort_Float64s values in
     sorted ≡ₚ values /\
     Sorted (ascending float64_less) sorted /\
     fst (calculateMedianFloat values) = middle sorted) /\
  (forall ints : list Z,
     fst (calculateMedianInt ints)
     = fst (calculateMedianFloat (map time.float64_of_int ints))) /\
  (forall x : float, fst (calculateMedianFloat [x]) = x) /\
  (forall n : Z, fst (calculateMedianInt [n]) = time.float64_of_int n) /\
  fst (calculateMedianFloat [1; 3]%float) = 2%float /\
  fst (calculateMedianFloat [1; 2; 3]%float) = 2%float /\
  fst (calculateMedianFloat [1; 2; 3; 4]%float) = 2.5%float /\
  fst (calculateMedianInt [1; 3]) = 2%float /\
  fst (calculateMedianInt [1; 2; 3]) = 2%float /\
  fst (calculateMedianInt [1; 2; 3; 4]) = 2.5%float.
Proof.
  split; [reflexivity |]. split; [reflexivity |]. split.
  { intros x rest values sorted. subst sorted.
    split; [apply sort_Float64s_perm |].
    split; [apply sort_Float64s_sorted |].
    subst values. rewrite calculateMedianFloat_nonempty by discriminate.
    reflexivity. }
  split.
  { intros ints. unfold calculateMedianInt.
    destruct (len ints =? 0) eqn:E; [| reflexivity].
    apply len_eq_0 in E. subst ints. reflexivity. }
  split; [intros x; reflexivity |].
  split; [intros n; reflexivity |].
  repeat split; vm_compute; reflexivity.
Qed.

(** C4, as stated, fails for the float median: the slice [3, 1, 2] of the
    caller holds [1, 2, 3] when [calculateMedianFloat] returns. *)
Lemma calculateMedianFloat_sorts_callers_slice :
  let values := [3; 1; 2]%float in
  snd (calculateMedianFloat values) = [1; 2; 3]%float /\
  snd (calculateMedianFloat values) <> values.
Proof.
  split; [vm_compute; reflexivity |].
  intros H.
  apply (f_equal (fun s => match s with x :: _ => (x =? 1)%float | [] => false end)) in H.
  vm_compute in H. discriminate.
Qed.

(** C4, amended: the integer median leaves the caller's collection as it
    was (it sorts a converted copy); the float median sorts the caller's
    collection in place, which holds the same elements in ascending order
    when the call returns. *)
Theorem calculateMedian_effect_on_input :
  (forall ints : list Z, snd (calculateMedianInt ints) = ints) /\
  (forall values : list float,
     snd (calculateMedianFloat values) = sort_Float64s values /\
     snd (calculateMedianFloat values) ≡ₚ values /\
     Sorted (ascending float64_less) (snd (calculateMedianFloat values))).
Proof.
  split.
  - intros ints. unfold calculateMedianInt. destruct (len ints =? 0); reflexivity.
  - intros values.
    assert (E : snd (calculateMedianFloat values) = sort_Float64s values).
    { destruct values as [| x rest]; [reflexivity |].
      rewrite calculateMedianFloat_nonempty by discriminate. reflexivity. }
    rewrite E. split; [reflexivity |].
    split; [apply sort_Float64s_perm | apply sort_Float64s_sorted].
Qed.

End Median.

(** ** The statistics of a bucket *)

Section Summarizing.
Import api metrics spec.

(** What the inclusion test of a duration field accumulates over a list
    of values. *)
Lemma fold_addDur (values : list float) (a : durAcc) :
  let inc := List.filter (fun v => (0 <? v)%float) values in
  fold_left addDur values a =
  {| dsum := fold_left PrimFloat.add inc (dsum a);
     dcount := dcount a + len inc;
     dvalues := dvalues a ++ inc |}.
Proof.
  revert a. induction values as [| v values IH]; intros a; simpl.
  - unfold len. simpl. rewrite Z.add_0_r, app_nil_r. destruct a; reflexivity.
  - rewrite IH. unfold addDur. destruct (0 <? v)%float; simpl; [| reflexivity].
    unfold len. simpl length. rewrite <- app_assoc. simpl. f_equal. lia.
Qed.

(** Each accumulator of the loop sees only the values of its own field. *)
Lemma fold_accumulate (prs : list PRMetrics) (a : accumulators) :
  let r := fold_left accumulate prs a in
  aFirstCommitToCreate r
    = fold_left addDur (map FirstCommitToCreateHours prs) (aFirstCommitToCreate a) /\
  aCreateToLastCommit r
    = fold_left addDur (map CreateToLastCommitHours prs) (aCreateToLastCommit a) /\
  aFirstCommitToMerge r
    = fold_left addDur (map FirstCommitToMergeHours prs) (aFirstCommitToMerge a) /\
  aLastCommitToMerge r
    = fold_left addDur (map LastCommitToMergeHours prs) (aLastCommitToMerge a) /\
  aCreatedToFirstComment r
    = fold_left addDur (map CreatedToFirstCommentHours prs) (aCreatedToFirstComment a) /\
  aTimeToApproval r
    = fold_left addDur (map TimeToApprovalHours prs) (aTimeToApproval a) /\
  aTotalPRLifetime r
    = fold_left addDur (map TotalPRLifetimeHours prs) (aTotalPRLifetime a) /\
  aMaxNoCommentPeriod r
    = fold_left addDur (map MaxNoCommentPeriodHours prs) (aMaxNoCommentPeriod a) /\
  aMaxNoCommitPeriod r
    = fold_left addDur (map MaxNoCommitPeriodHours prs) (aMaxNoCommitPeriod a) /\
  aMaxNoActivityPeriod r
    = fold_left addDur (map MaxNoActivityPeriodHours prs) (aMaxNoActivityPeriod a).
Proof.
  revert a. induction prs as [| pr prs IH]; intros a; simpl.
  - repeat split; reflexivity.
  - apply (IH (accumulate a pr)).
Qed.

(** The average and median a duration field ends with, from the values
    the field has over the bucket's PRs. *)
Lemma durAcc_summarizes (f : PRMetrics -> float) (prs : list PRMetrics) :
  let a := fold_left addDur (map f prs) durAcc0 in
  summarizes (avgDur a) (medianDur a) f prs.
Proof.
  cbv zeta. rewrite fold_addDur. cbv zeta. fold (included f prs).
  unfold summarizes, avgDur, medianDur, average, total. simpl.
  destruct (included f prs) as [| v inc] eqn:E; [split; reflexivity |].
  rewrite !Z.add_0_l.
  assert (H : (0 <? len (v :: inc)) = true) by (apply Z.ltb_lt; unfold len; simpl; lia).
  assert (H0 : (len (v :: inc) =? 0) = false) by (apply Z.eqb_neq; unfold len; simpl; lia).
  rewrite H, H0. split; reflexivity.
Qed.

Lemma PRCount_calculateAggregatedMetrics (period : string)
    (startDate endDate : time.Time) (prs : list PRMetrics) :
  PRCount (calculateAggregatedMetrics period startDate endDate prs) = len prs /\
  Period (calculateAggregatedMetrics period startDate endDate prs) = period /\
  StartDate (calculateAggregatedMetrics period startDate endDate prs) = startDate /\
  EndDate (calculateAggregatedMetrics period startDate endDate prs) = endDate.
Proof.
  unfold calculateAggregatedMetrics. cbv zeta.
  destruct (len prs =? 0) eqn:E; simpl; [| repeat split; reflexivity].
  apply Z.eqb_eq in E. rewrite E. repeat split; reflexivity.
Qed.

(** The ten duration and gap fields of a bucket's record. *)
Lemma durations_summarize (period : string) (startDate endDate : time.Time)
    (prs : list PRMetrics) :
  let a := calculateAggregatedMetrics period startDate endDate prs in
  summarizes (AvgFirstCommitToCreateHours a) (MedianFirstCommitToCreateHours a)
    FirstCommitToCreateHours prs /\
  summarizes (AvgCreateToLastCommitHours a) (MedianCreateToLastCommitHours a)
    CreateToLastCommitHours prs /\
  summarizes (AvgFirstCommitToMergeHours a) (MedianFirstCommitToMergeHours a)
    FirstCommitToMergeHours prs /\
  summarizes (AvgLastCommitToMergeHours a) (MedianLastCommitToMergeHours a)
    LastCommitToMergeHours prs /\
  summarizes (AvgCreatedToFirstCommentHours a) (MedianCreatedToFirstCommentHours a)
    CreatedToFirstCommentHours prs /\
  summarizes (AvgTimeToApprovalHours a) (MedianTimeToApprovalHours a)
    TimeToApprovalHours prs /\
  summarizes (AvgTotalPRLifetimeHours a) (MedianTotalPRLifetimeHours a)
    TotalPRLifetimeHours prs /\
  summarizes (AvgMaxNoCommentPeriodHours a) (MedianMaxNoCommentPeriodHours a)
    MaxNoCommentPeriodHours prs /\
  summarizes (AvgMaxNoCommitPeriodHours a) (MedianMaxNoCommitPeriodHours a)
    MaxNoCommitPeriodHours prs /\
  summarizes (AvgMaxNoActivityPeriodHours a) (MedianMaxNoActivityPeriodHours a)
    MaxNoActivityPeriodHours prs.
Proof.
  cbv zeta. unfold calculateAggregatedMetrics. cbv zeta.
  destruct (len prs =? 0) eqn:E.
  - apply len_eq_0 in E. subst prs. repeat split; reflexivity.
  - simpl.
    pose proof (fold_accumulate prs accumulators0) as H. cbv zeta in H. simpl in H.
    destruct H as (H1 & H2 & H3 & H4 & H5 & H6 & H7 & H8 & H9 & H10).
    rewrite H1, H2, H3, H4, H5, H6, H7, H8, H9, H10.
    repeat (split; [apply durAcc_summarizes |]). apply durAcc_summarizes.
Qed.

(** C3: in every bucket, each duration or gap field's average and median
    are taken over the values that are strictly greater than zero:
    average = sum / count and median = median(collection) over that same
    inclusion set, both 0 when nothing is included; the bucket's PRCount
    counts every PR.  Total lifetimes [0, 20, 30] give average 25, median
    25 and PRCount 3. *)
Theorem calculateAggregatedMetrics_includes_positive
    (period : string) (startDate endDate : time.Time) (prs : list PRMetrics) :
  let a := calculateAggregatedMetrics period startDate endDate prs in
  PRCount a = len prs /\
  summarizes (AvgFirstCommitToCreateHours a) (MedianFirstCommitToCreateHours a)
    FirstCommitToCreateHours prs /\
  summarizes (AvgCreateToLastCommitHours a) (MedianCreateToLastCommitHours a)
    CreateToLastCommitHours prs /\
  summarizes (AvgFirstCommitToMergeHours a) (MedianFirstCommitToMergeHours a)
    FirstCommitToMergeHours prs /\
  summarizes (AvgLastCommitToMergeHours a) (MedianLastCommitToMergeHours a)
    LastCommitToMergeHours prs /\
  summarizes (AvgCreatedToFirstCommentHours a) (MedianCreatedToFirstCommentHours a)
    CreatedToFirstCommentHours prs /\
  summarizes (AvgTimeToApprovalHours a) (MedianTimeToApprovalHours a)
    TimeToApprovalHours prs /\
  summarizes (AvgTotalPRLifetimeHours a) (MedianTotalPRLifetimeHours a)
    TotalPRLifetimeHours prs /\
  summarizes (AvgMaxNoCommentPeriodHours a) (MedianMaxNoCommentPeriodHours a)
    MaxNoCommentPeriodHours prs /\
  summarizes (AvgMaxNoCommitPeriodHours a) (MedianMaxNoCommitPeriodHours a)
    MaxNoCommitPeriodHours prs /\
  summarizes (AvgMaxNoActivityPeriodHours a) (MedianMaxNoActivityPeriodHours a)
    MaxNoActivityPeriodHours prs /\
  average [] = 0%float /\
  fst (calculateMedianFloat []) = 0%float /\
  (let b := calculateAggregatedMetrics period startDate endDate
              [prWithLifetime 0; prWithLifetime 20; prWithLifetime 30] in
   included TotalPRLifetimeHours
     [prWithLifetime 0; prWithLifetime 20; prWithLifetime 30] = [20; 30]%float /\
   AvgTotalPRLifetimeHours b = 25%float /\
   MedianTotalPRLifetimeHours b = 25%float /\
   PRCount b = 3).
Proof.
  cbv zeta.
  split; [apply PRCount_calculateAggregatedMetrics |].
  pose proof (durations_summarize period startDate endDate prs) as Hgen.
  cbv zeta in Hgen.
  destruct Hgen as (H1 & H2 & H3 & H4 & H5 & H6 & H7 & H8 & H9 & H10).
  repeat (split; [assumption |]).
  split; [reflexivity |]. split; [reflexivity |].
  repeat split; vm_compute; reflexivity.
Qed.

End Summarizing.

(** ** Period keys *)

Section Keys.
Import time metrics.

Lemma fmt_d_inj (a b : Z) : fmt_d a = fmt_d b -> a = b.
Proof.
  unfold fmt_d. intros E.
  assert (Hn : forall z, NilZero.int_of_string (NilZero.string_of_int (Z.to_int z))
                         = Some (Z.to_int z)).
  { intros z. apply NilZero.isi; destruct z; simpl; try discriminate;
      intros [= H]; exact (Unsigned.to_uint_nonnil _ H). }
  apply (f_equal NilZero.int_of_string) in E. rewrite !Hn in E.
  injection E as E. apply (f_equal Z.of_int) in E.
  rewrite !DecimalZ.of_to in E. exact E.
Qed.

Lemma string_length_app (s t : string) :
  String.length (s ++ t) = (String.length s + String.length t)%nat.
Proof. induction s as [| c s IH]; simpl; [reflexivity |]. rewrite IH. reflexivity. Qed.

(** Two strings that end in suffixes of one length split alike. *)
Lemma string_app_inj (s1 s2 t1 t2 : string) :
  String.length t1 = String.length t2 ->
  (s1 ++ t1 = s2 ++ t2)%string -> s1 = s2 /\ t1 = t2.
Proof.
  revert s2. induction s1 as [| c s1 IH]; intros [| c' s2] Hlen E; simpl in E.
  - split; [reflexivity | exact E].
  - apply (f_equal String.length) in E.
    rewrite ?string_length_app in E. simpl in E. rewrite ?string_length_app in E. lia.
  - apply (f_equal String.length) in E.
    rewrite ?string_length_app in E. simpl in E. rewrite ?string_length_app in E. lia.
  - injection E as -> E. destruct (IH _ Hlen E) as [-> ->]. split; reflexivity.
Qed.

(** Below 100, [%02d] writes exactly two characters, from which the
    number can be read back. *)
Lemma fmt_02d_below_100 (z : Z) :
  0 <= z < 100 -> String.length (fmt_02d z) = 2%nat /\ read_02d (fmt_02d z) = z.
Proof.
  intros Hz.
  assert (Hall : forallb (fun n => (String.length (fmt_02d (Z.of_nat n)) =? 2)%nat
                                   && (read_02d (fmt_02d (Z.of_nat n)) =? Z.of_nat n))
                   (seq 0 100) = true) by (vm_compute; reflexivity).
  rewrite forallb_forall in Hall.
  specialize (Hall (Z.to_nat z)). rewrite Z2Nat.id in Hall by lia.
  destruct (andb_prop _ _ (Hall ltac:(apply in_seq; lia))) as [H1 H2].
  split; [apply Nat.eqb_eq, H1 | apply Z.eqb_eq, H2].
Qed.

Lemma period_key_inj (sep : string) (y y' n n' : Z) :
  0 <= n < 100 -> 0 <= n' < 100 ->
  (fmt_d y ++ sep ++ fmt_02d n = fmt_d y' ++ sep ++ fmt_02d n')%string ->
  y = y' /\ n = n'.
Proof.
  intros Hn Hn' E.
  destruct (fmt_02d_below_100 _ Hn) as [Hl Hr].
  destruct (fmt_02d_below_100 _ Hn') as [Hl' Hr'].
  apply string_app_inj in E; [| rewrite !string_length_app; congruence].
  destruct E as [Ey E]. apply fmt_d_inj in Ey.
  apply (string_app_inj sep sep) in E; [| congruence].
  destruct E as [_ E]. split; [exact Ey |]. rewrite <- Hr, <- Hr', E. reflexivity.
Qed.

Lemma weekKeyOf_inj (t u : Time) : weekKeyOf t = weekKeyOf u -> ISOWeek t = ISOWeek u.
Proof.
  unfold weekKeyOf.
  destruct (ISOWeek t) as [y w] eqn:Et, (ISOWeek u) as [y' w'] eqn:Eu.
  apply ISOWeek_range in Et, Eu. intros E.
  apply period_key_inj in E; [| lia | lia]. destruct E as [-> ->]. reflexivity.
Qed.

Lemma monthKeyOf_inj (t u : Time) (y m dd y' m' dd' : Z) :
  Date_of t = (y, m, dd) -> Date_of u = (y', m', dd') ->
  monthKeyOf t = monthKeyOf u -> y = y' /\ m = m'.
Proof.
  unfold monthKeyOf. intros Et Eu. rewrite Et, Eu.
  apply wallDate_spec in Et, Eu. intros E.
  apply period_key_inj in E; [exact E | lia | lia].
Qed.

End Keys.

(** ** Grouping into buckets *)

Section Grouping.
Import api metrics spec.

Lemma PRs_addToGroup (g : groups) (key : string) (s e : time.Time) (pr : PRMetrics) :
  PRs (addToGroup g key s e pr) = <[key := default [] (PRs g !! key) ++ [pr]]> (PRs g).
Proof.
  unfold addToGroup. destruct (PRs g !! key) eqn:E; simpl.
  - rewrite E. reflexivity.
  - rewrite lookup_insert_eq, insert_insert_eq. reflexivity.
Qed.

Lemma dates_addToGroup_old (g : groups) (key : string) (s e : time.Time)
    (pr : PRMetrics) (old : list PRMetrics) :
  PRs g !! key = Some old ->
  StartDates (addToGroup g key s e pr) = StartDates g /\
  EndDates (addToGroup g key s e pr) = EndDates g.
Proof. unfold addToGroup. intros ->. split; reflexivity. Qed.

Lemma dates_addToGroup_new (g : groups) (key : string) (s e : time.Time)
    (pr : PRMetrics) :
  PRs g !! key = None ->
  StartDates (addToGroup g key s e pr) = <[key := s]> (StartDates g) /\
  EndDates (addToGroup g key s e pr) = <[key := e]> (EndDates g).
Proof. unfold addToGroup. intros ->. split; reflexivity. Qed.

Lemma sizes_insert (m : gmap string (list PRMetrics)) (key : string)
    (prs : list PRMetrics) :
  sum_list_with (fun kv => length (snd kv)) (map_to_list (<[key := prs]> m)) =
  (length prs + sum_list_with (fun kv => length (snd kv)) (map_to_list (delete key m)))%nat.
Proof.
  rewrite <- insert_delete_eq.
  rewrite (sum_list_with_Permutation_proper _ _ _
             (map_to_list_insert (delete key m) key prs (lookup_delete_eq m key))).
  reflexivity.
Qed.

Lemma bucketSizes_addToGroup (g : groups) (key : string) (s e : time.Time)
    (pr : PRMetrics) :
  bucketSizes (addToGroup g key s e pr) = S (bucketSizes g).
Proof.
  unfold bucketSizes. rewrite PRs_addToGroup, sizes_insert.
  destruct (PRs g !! key) as [old |] eqn:E; simpl.
  - rewrite <- (insert_delete_id (PRs g) key old E) at 2.
    rewrite sizes_insert, delete_delete_eq, length_app. simpl. lia.
  - rewrite delete_id by exact E. reflexivity.
Qed.

Variables (step : groups -> PRMetrics -> groups) (key : PRMetrics -> string)
  (start stop : PRMetrics -> time.Time).

Hypothesis step_eq : forall g pr,
  step g pr =
  if time.IsZero (MergedAt pr) then g
  else addToGroup g (key pr) (start pr) (stop pr) pr.

Lemma grouped_step (g : groups) (pr : PRMetrics) :
  grouped key start stop g -> grouped key start stop (step g pr).
Proof.
  intros Hg. rewrite step_eq. destruct (time.IsZero (MergedAt pr)) eqn:Ez; [exact Hg |].
  intros k prs. rewrite PRs_addToGroup.
  destruct (decide (key pr = k)) as [<- | Hne].
  - rewrite lookup_insert_eq. intros [= <-].
    destruct (PRs g !! key pr) as [old |] eqn:E.
    + destruct (dates_addToGroup_old g _ (start pr) (stop pr) pr _ E) as [-> ->].
      destruct (Hg _ _ E) as (Hnil & Hin & pr0 & Hin0 & Hs & He). simpl.
      split; [destruct old; discriminate |].
      split.
      * intros pr' Hpr'. apply in_app_or in Hpr'. destruct Hpr' as [Hpr' | [<- | []]];
          [apply Hin, Hpr' | split; [exact Ez | reflexivity]].
      * exists pr0. split; [apply in_or_app; left; exact Hin0 |]. split; assumption.
    + destruct (dates_addToGroup_new g _ (start pr) (stop pr) pr E) as [-> ->]. simpl.
      split; [discriminate |]. split.
      * intros pr' [<- | []]. split; [exact Ez | reflexivity].
      * exists pr. split; [left; reflexivity |]. rewrite !lookup_insert_eq.
        split; reflexivity.
  - rewrite lookup_insert_ne by exact Hne. intros E.
    destruct (Hg _ _ E) as (Hnil & Hin & pr0 & Hin0 & Hs & He).
    split; [exact Hnil |]. split; [exact Hin |]. exists pr0. split; [exact Hin0 |].
    destruct (PRs g !! key pr) as [old |] eqn:E'.
    + destruct (dates_addToGroup_old g _ (start pr) (stop pr) pr _ E') as [-> ->].
      split; assumption.
    + destruct (dates_addToGroup_new g _ (start pr) (stop pr) pr E') as [-> ->].
      rewrite !lookup_insert_ne by exact Hne. split; assumption.
Qed.

Lemma grouped_fold (prMetrics : list PRMetrics) (g : groups) :
  grouped key start stop g -> grouped key start stop (fold_left step prMetrics g).
Proof.
  revert g. induction prMetrics as [| pr rest IH]; intros g Hg; simpl; [exact Hg |].
  apply IH, grouped_step, Hg.
Qed.

Lemma bucketSizes_fold (prMetrics : list PRMetrics) (g : groups) :
  bucketSizes (fold_left step prMetrics g)
  = (bucketSizes g + length (merged prMetrics))%nat.
Proof.
  revert g. induction prMetrics as [| pr rest IH]; intros g; simpl; [lia |].
  rewrite IH, step_eq. destruct (time.IsZero (MergedAt pr)); simpl; [lia |].
  rewrite bucketSizes_addToGroup. lia.
Qed.

(** The PRs of the buckets are PRs of the input. *)
Lemma members_fold (prMetrics : list PRMetrics) (g : groups) :
  forall k prs pr, PRs (fold_left step prMetrics g) !! k = Some prs -> In pr prs ->
    In pr prMetrics \/ exists prs0, PRs g !! k = Some prs0 /\ In pr prs0.
Proof.
  revert g. induction prMetrics as [| p rest IH]; intros g k prs pr E Hin; simpl in *.
  - right. exists prs. split; assumption.
  - destruct (IH _ _ _ _ E Hin) as [H | (prs0 & E0 & Hin0)]; [left; right; exact H |].
    rewrite step_eq in E0. destruct (time.IsZero (MergedAt p)).
    { right. exists prs0. split; assumption. }
    rewrite PRs_addToGroup in E0. destruct (decide (key p = k)) as [<- | Hne].
    + rewrite lookup_insert_eq in E0. injection E0 as <-.
      apply in_app_or in Hin0. destruct Hin0 as [Hin0 | [<- | []]].
      * right. destruct (PRs g !! key p) as [old |]; simpl in Hin0; [| contradiction].
        exists old. split; [reflexivity | exact Hin0].
      * left. left. reflexivity.
    + rewrite lookup_insert_ne in E0 by exact Hne.
      right. exists prs0. split; assumption.
Qed.

End Grouping.

(** ** The weekly and the monthly aggregation *)

Section Rollups.
Import api metrics spec.

Lemma groupWeekly_eq (g : groups) (pr : PRMetrics) :
  groupWeekly g pr =
  if time.IsZero (MergedAt pr) then g
  else addToGroup g (weekKey pr) (weekStart pr) (weekEnd pr) pr.
Proof. unfold groupWeekly, weekKey, weekEnd, weekStart. reflexivity. Qed.

Lemma groupMonthly_eq (g : groups) (pr : PRMetrics) :
  groupMonthly g pr =
  if time.IsZero (MergedAt pr) then g
  else addToGroup g (monthKey pr) (monthStart pr) (monthEnd pr) pr.
Proof.
  unfold groupMonthly, monthKey, monthStart, monthEnd, monthStart.
  destruct (time.Date_of (MergedAt pr)) as [[y m] dd]. reflexivity.
Qed.

Lemma grouped_empty key start stop : grouped key start stop groups0.
Proof. intros k prs E. simpl in E. rewrite lookup_empty in E. discriminate. Qed.

Lemma weeklyGroups_grouped (prMetrics : list PRMetrics) :
  grouped weekKey weekStart weekEnd (weeklyGroups prMetrics).
Proof. apply (grouped_fold _ _ _ _ groupWeekly_eq), grouped_empty. Qed.

Lemma monthlyGroups_grouped (prMetrics : list PRMetrics) :
  grouped monthKey monthStart monthEnd (monthlyGroups prMetrics).
Proof. apply (grouped_fold _ _ _ _ groupMonthly_eq), grouped_empty. Qed.

Lemma bucketSizes_empty : bucketSizes groups0 = 0%nat.
Proof. unfold bucketSizes. simpl. rewrite map_to_list_empty. reflexivity. Qed.

(** The start and the end of the week of a PR merged in a location of
    fixed offset. *)
Lemma week_start_end (pr : PRMetrics) :
  fixedOffset (time.Location_of (MergedAt pr)) ->
  let l := time.Location_of (MergedAt pr) in
  let monday := 7 * (time.absDays (time.wall (MergedAt pr)) / 7) in
  weekStart pr
  = {| time.instant := monday * time.nsPerDay - offsetOf l * time.Second;
       time.Location_of := l |} /\
  weekEnd pr
  = {| time.instant := (monday + 6) * time.nsPerDay - offsetOf l * time.Second;
       time.Location_of := l |}.
Proof.
  intros H. cbv zeta. unfold weekEnd, weekStart.
  rewrite (getStartOfISOWeek_eq _ H), (AddDate_days_midnight _ _ _ H).
  split; reflexivity.
Qed.

(** A PR lies within the days of its week. *)
Lemma week_days (pr : PRMetrics) :
  fixedOffset (time.Location_of (MergedAt pr)) ->
  time.instant (weekStart pr) <= time.instant (MergedAt pr)
  < time.instant (weekEnd pr) + time.nsPerDay.
Proof.
  intros H. destruct (week_start_end pr H) as [-> ->]. cbn [time.instant].
  pose proof (getStartOfISOWeek_bounds _ H) as Hb.
  rewrite (getStartOfISOWeek_eq _ H) in Hb. cbn [time.instant] in Hb. lia.
Qed.

Lemma month_start_end (t : time.Time) (y m dd : Z) :
  fixedOffset (time.Location_of t) ->
  time.Date_of t = (y, m, dd) ->
  let l := time.Location_of t in
  time.Date y m 1 0 0 0 0 l
  = {| time.instant := time.civilDays y m 1 * time.nsPerDay - offsetOf l * time.Second;
       time.Location_of := l |} /\
  time.AddDate (time.Date y m 1 0 0 0 0 l) 0 1 (-1)
  = {| time.instant := time.civilDays y m (time.daysIn y m) * time.nsPerDay
                       - offsetOf l * time.Second;
       time.Location_of := l |} /\
  time.civilDays y m 1 * time.nsPerDay <= time.wall t
  < time.civilDays y m (time.daysIn y m) * time.nsPerDay + time.nsPerDay.
Proof.
  intros H E. cbv zeta. pose proof (wallDate_spec _ _ _ _ E) as (Hm & Hd & Hs).
  assert (Hstart : time.Date y m 1 0 0 0 0 (time.Location_of t)
                   = {| time.instant := time.civilDays y m 1 * time.nsPerDay
                                        - offsetOf (time.Location_of t) * time.Second;
                        time.Location_of := time.Location_of t |}).
  { rewrite (Date_fixed _ _ _ _ _ _ _ _ H), (startOfMonth_eq _ _ Hm). reflexivity. }
  split; [exact Hstart |]. split.
  { rewrite Hstart, (AddDate_mk _ _ _ _ _ H).
    rewrite (wallDate_civil _ _ _ (validDate_first y m Hm)), wallClock_midnight.
    rewrite (endOfMonth_eq _ _ Hm). reflexivity. }
  unfold time.civilDays. unfold time.absDays in Hs.
  assert (Hns : time.nsPerDay = 86400000000000) by reflexivity.
  rewrite Hns in *. Z.to_euclidean_division_equations; lia.
Qed.

(** A PR lies within the days of its month. *)
Lemma month_days (pr : PRMetrics) :
  fixedOffset (time.Location_of (MergedAt pr)) ->
  time.instant (monthStart pr) <= time.instant (MergedAt pr)
  < time.instant (monthEnd pr) + time.nsPerDay.
Proof.
  intros H. unfold monthEnd, monthStart.
  destruct (time.Date_of (MergedAt pr)) as [[y m] dd] eqn:E.
  destruct (month_start_end _ _ _ _ H E) as (-> & -> & Hb). cbn [time.instant].
  rewrite (wall_fixed _ H) in Hb. lia.
Qed.

Lemma weekStart_same_key (l : time.Location) (pr pr0 : PRMetrics) :
  fixedOffset l -> mergedIn l pr -> mergedIn l pr0 ->
  weekKey pr = weekKey pr0 -> weekStart pr = weekStart pr0 /\ weekEnd pr = weekEnd pr0.
Proof.
  unfold mergedIn, weekKey, weekEnd, weekStart. intros H Hl Hl0 E.
  apply weekKeyOf_inj in E.
  rewrite (getStartOfISOWeek_same_week (MergedAt pr) (MergedAt pr0));
    [split; reflexivity | rewrite Hl; exact H | congruence | exact E].
Qed.

Lemma monthStart_same_key (l : time.Location) (pr pr0 : PRMetrics) :
  mergedIn l pr -> mergedIn l pr0 ->
  monthKey pr = monthKey pr0 ->
  monthStart pr = monthStart pr0 /\ monthEnd pr = monthEnd pr0.
Proof.
  unfold mergedIn, monthKey, monthEnd, monthStart. intros Hl Hl0 E.
  destruct (time.Date_of (MergedAt pr)) as [[y m] dd] eqn:E1.
  destruct (time.Date_of (MergedAt pr0)) as [[y' m'] dd'] eqn:E2.
  destruct (monthKeyOf_inj _ _ _ _ _ _ _ _ E1 E2 E) as [-> ->].
  rewrite Hl, Hl0. split; reflexivity.
Qed.

Lemma sumPRCount_perm (l1 l2 : list AggregatedMetrics) :
  l1 ≡ₚ l2 -> sumPRCount l1 = sumPRCount l2.
Proof.
  unfold sumPRCount. induction 1 as [| x l l' _ IH | x y l | l l' l'' _ IH1 _ IH2];
    simpl; [reflexivity | rewrite IH; reflexivity | lia | congruence].
Qed.

(** The records of a result are those of the buckets of its grouping. *)
Lemma summarize_perm (g : groups) :
  summarize g ≡ₚ
  map (fun kv : string * list PRMetrics =>
         calculateAggregatedMetrics (fst kv)
           (default time.zeroTime (StartDates g !! fst kv))
           (default time.zeroTime (EndDates g !! fst kv))
           (snd kv))
    (map_to_list (PRs g)).
Proof.
  unfold summarize. rewrite sort_Slice_perm.
  erewrite map_ext; [reflexivity |]. intros [k prs]. reflexivity.
Qed.

Lemma In_summarize (g : groups) (a : AggregatedMetrics) :
  In a (summarize g) <-> exists prs, bucket g a prs.
Proof.
  rewrite <- list_elem_of_In, summarize_perm, list_elem_of_In, in_map_iff.
  unfold bucket. split.
  - intros ([k prs] & <- & Hin). exists prs, k.
    apply list_elem_of_In, elem_of_map_to_list in Hin. split; [exact Hin | reflexivity].
  - intros (prs & k & E & ->). exists (k, prs).
    split; [reflexivity |]. apply list_elem_of_In, elem_of_map_to_list, E.
Qed.

Lemma sumPRCount_summarize (g : groups) :
  sumPRCount (summarize g) = Z.of_nat (bucketSizes g).
Proof.
  rewrite (sumPRCount_perm _ _ (summarize_perm g)). unfold bucketSizes, sumPRCount.
  induction (map_to_list (PRs g)) as [| [k prs] l IH]; [reflexivity |].
  cbn [map foldr sum_list_with fst snd]. rewrite IH.
  destruct (PRCount_calculateAggregatedMetrics k
              (default time.zeroTime (StartDates g !! k))
              (default time.zeroTime (EndDates g !! k)) prs)
    as [-> _].
  unfold len. lia.
Qed.

(** The PRs of a bucket are merged PRs. *)
Lemma bucket_merged (key : PRMetrics -> string) (start stop : PRMetrics -> time.Time)
    (g : groups) (a : AggregatedMetrics) (prs : list PRMetrics) (pr : PRMetrics) :
  grouped key start stop g -> bucket g a prs -> In pr prs ->
  time.IsZero (MergedAt pr) = false.
Proof.
  intros Hg (k & E & _) Hin. destruct (Hg _ _ E) as (_ & Hmem & _).
  apply (Hmem _ Hin).
Qed.

(** The start and the end of a bucket's record are those of one of its
    PRs. *)
Lemma bucket_ends (key : PRMetrics -> string) (start stop : PRMetrics -> time.Time)
    (g : groups) (a : AggregatedMetrics) (prs : list PRMetrics) :
  grouped key start stop g -> bucket g a prs ->
  exists pr0, In pr0 prs /\ StartDate a = start pr0 /\ EndDate a = stop pr0.
Proof.
  intros Hg (k & E & ->).
  destruct (Hg _ _ E) as (_ & _ & pr0 & Hin0 & Hs & He).
  destruct (PRCount_calculateAggregatedMetrics k
              (default time.zeroTime (StartDates g !! k))
              (default time.zeroTime (EndDates g !! k)) prs)
    as (_ & _ & -> & ->).
  rewrite Hs, He. exists pr0. repeat split. exact Hin0.
Qed.

(** In a grouping whose keys determine start and end among the PRs that
    satisfy [ok], a bucket's record spans the days of each of its PRs. *)
Lemma bucket_days (key : PRMetrics -> string) (start stop : PRMetrics -> time.Time)
    (ok : PRMetrics -> Prop)
    (g : groups) (a : AggregatedMetrics) (prs : list PRMetrics) (pr : PRMetrics) :
  grouped key start stop g ->
  (forall p p0, ok p -> ok p0 -> key p = key p0 ->
     start p = start p0 /\ stop p = stop p0) ->
  (forall p, ok p ->
     time.instant (start p) <= time.instant (MergedAt p)
     < time.instant (stop p) + time.nsPerDay) ->
  (forall p, In p prs -> ok p) ->
  bucket g a prs -> In pr prs ->
  time.instant (StartDate a) <= time.instant (MergedAt pr)
  < time.instant (EndDate a) + time.nsPerDay.
Proof.
  intros Hg Hsame Hdays Hok (k & E & ->) Hin.
  destruct (Hg _ _ E) as (_ & Hmem & pr0 & Hin0 & Hs & He).
  destruct (Hmem _ Hin) as [Hz Hk]. destruct (Hmem _ Hin0) as [_ Hk0].
  destruct (PRCount_calculateAggregatedMetrics k
              (default time.zeroTime (StartDates g !! k))
              (default time.zeroTime (EndDates g !! k)) prs)
    as (_ & _ & -> & ->).
  rewrite Hs, He. cbn [default from_option id].
  destruct (Hsame pr pr0 (Hok _ Hin) (Hok _ Hin0) ltac:(congruence)) as [<- <-].
  apply Hdays, Hok, Hin.
Qed.

(** The PRs of the buckets are PRs of the input. *)
Lemma bucket_members (prMetrics : list PRMetrics) (g : groups)
    (a : AggregatedMetrics) (prs : list PRMetrics) (pr : PRMetrics) :
  g = weeklyGroups prMetrics \/ g = monthlyGroups prMetrics ->
  bucket g a prs -> In pr prs -> In pr prMetrics.
Proof.
  intros Hg (k & E & _) Hin. destruct Hg as [-> | ->].
  - destruct (members_fold _ _ _ _ groupWeekly_eq _ _ _ _ _ E Hin)
      as [H | (prs0 & E0 & _)]; [exact H |].
    simpl in E0. rewrite lookup_empty in E0. discriminate.
  - destruct (members_fold _ _ _ _ groupMonthly_eq _ _ _ _ _ E Hin)
      as [H | (prs0 & E0 & _)]; [exact H |].
    simpl in E0. rewrite lookup_empty in E0. discriminate.
Qed.

Lemma bucket_grouped_merged (prMetrics : list PRMetrics) (g : groups)
    (a : AggregatedMetrics) (prs : list PRMetrics) (pr : PRMetrics) :
  g = weeklyGroups prMetrics \/ g = monthlyGroups prMetrics ->
  bucket g a prs -> In pr prs -> time.IsZero (MergedAt pr) = false.
Proof.
  intros [-> | ->] Hb Hin.
  - exact (bucket_merged _ _ _ _ _ _ _ (weeklyGroups_grouped prMetrics) Hb Hin).
  - exact (bucket_merged _ _ _ _ _ _ _ (monthlyGroups_grouped prMetrics) Hb Hin).
Qed.

(** C1, as stated, fails: a PR merged on Sunday 15 January 2023 at 12:00
    UTC is in the weekly bucket 2023-W02, whose EndDate is that Sunday's
    midnight, twelve hours before the merge. *)
Lemma weekly_bucket_ends_before_merge :
  exists (a : AggregatedMetrics) (prs : list PRMetrics) (pr : PRMetrics),
    bucket (weeklyGroups examplePRs) a prs /\
    In pr prs /\
    Period a = "2023-W02"%string /\
    MergedAt pr = time.Date 2023 1 15 12 0 0 0 time.UTC /\
    EndDate a = time.Date 2023 1 15 0 0 0 0 time.UTC /\
    time.Before (EndDate a) (MergedAt pr) = true.
Proof.
  exists (calculateAggregatedMetrics "2023-W02"
            (time.Date 2023 1 9 0 0 0 0 time.UTC) (time.Date 2023 1 15 0 0 0 0 time.UTC)
            [examplePR 1 (time.Date 2023 1 15 12 0 0 0 time.UTC) 30;
             examplePR 2 (time.Date 2023 1 10 9 0 0 0 time.UTC) 20]),
    [examplePR 1 (time.Date 2023 1 15 12 0 0 0 time.UTC) 30;
     examplePR 2 (time.Date 2023 1 10 9 0 0 0 time.UTC) 20],
    (examplePR 1 (time.Date 2023 1 15 12 0 0 0 time.UTC) 30).
  split.
  { exists "2023-W02"%string. split; vm_compute; reflexivity. }
  split; [left; reflexivity |].
  repeat split; vm_compute; reflexivity.
Qed.

(** C1, amended: every bucket of the weekly and of the monthly aggregation
    holds only PRs of the input with a non-zero merge timestamp; and when
    the merge timestamps of the input are all in one location of fixed
    offset [l], the PRs of a bucket are merged on a day from the bucket's
    StartDate to its EndDate: not before StartDate and less than a day
    after EndDate, the midnight in [l] that begins the bucket's last day.
    The records of the result are those of the buckets. *)
Theorem buckets_hold_merged_PRs_of_their_days
    (prMetrics : list PRMetrics) (g : groups) :
  g = weeklyGroups prMetrics \/ g = monthlyGroups prMetrics ->
  (forall a, In a (summarize g) <-> exists prs, bucket g a prs) /\
  (forall a prs pr, bucket g a prs -> In pr prs ->
     In pr prMetrics /\ time.IsZero (MergedAt pr) = false) /\
  (forall l : time.Location,
     fixedOffset l ->
     (forall pr, In pr prMetrics -> time.IsZero (MergedAt pr) = false ->
        time.Location_of (MergedAt pr) = l) ->
     forall a prs pr, bucket g a prs -> In pr prs ->
       time.Location_of (StartDate a) = l /\
       time.Location_of (EndDate a) = l /\
       time.instant (StartDate a) <= time.instant (MergedAt pr)
       < time.instant (EndDate a) + time.nsPerDay).
Proof.
  intros Hg. split; [intros a; apply In_summarize |].
  split.
  { intros a prs pr Hb Hin.
    split; [exact (bucket_members _ _ _ _ _ Hg Hb Hin) |].
    exact (bucket_grouped_merged _ _ _ _ _ Hg Hb Hin). }
  intros l Hl Hloc a prs pr Hb Hin.
  assert (Hok : forall p, In p prs -> mergedIn l p).
  { intros p Hp. apply Hloc.
    - exact (bucket_members _ _ _ _ _ Hg Hb Hp).
    - exact (bucket_grouped_merged _ _ _ _ _ Hg Hb Hp). }
  assert (H1 : forall p, mergedIn l p -> fixedOffset (time.Location_of (MergedAt p))).
  { intros p Hp. unfold mergedIn in Hp. rewrite Hp. exact Hl. }
  split; [| split].
  - destruct Hg as [-> | ->].
    + destruct (bucket_ends _ _ _ _ _ _ (weeklyGroups_grouped prMetrics) Hb)
        as (p0 & Hp0 & -> & _).
      destruct (week_start_end p0 (H1 _ (Hok _ Hp0))) as [-> _].
      apply (Hok _ Hp0).
    + destruct (bucket_ends _ _ _ _ _ _ (monthlyGroups_grouped prMetrics) Hb)
        as (p0 & Hp0 & -> & _).
      unfold monthStart.
      destruct (time.Date_of (MergedAt p0)) as [[y m] dd] eqn:E.
      destruct (month_start_end _ _ _ _ (H1 _ (Hok _ Hp0)) E) as (-> & _).
      apply (Hok _ Hp0).
  - destruct Hg as [-> | ->].
    + destruct (bucket_ends _ _ _ _ _ _ (weeklyGroups_grouped prMetrics) Hb)
        as (p0 & Hp0 & _ & ->).
      destruct (week_start_end p0 (H1 _ (Hok _ Hp0))) as [_ ->].
      apply (Hok _ Hp0).
    + destruct (bucket_ends _ _ _ _ _ _ (monthlyGroups_grouped prMetrics) Hb)
        as (p0 & Hp0 & _ & ->).
      unfold monthEnd, monthStart.
      destruct (time.Date_of (MergedAt p0)) as [[y m] dd] eqn:E.
      destruct (month_start_end _ _ _ _ (H1 _ (Hok _ Hp0)) E) as (_ & -> & _).
      apply (Hok _ Hp0).
  - destruct Hg as [-> | ->].
    + exact (bucket_days _ _ _ (mergedIn l) _ _ _ _ (weeklyGroups_grouped prMetrics)
               (fun p p0 => weekStart_same_key l p p0 Hl)
               (fun p Hp => week_days p (H1 p Hp)) Hok Hb Hin).
    + exact (bucket_days _ _ _ (mergedIn l) _ _ _ _ (monthlyGroups_grouped prMetrics)
               (monthStart_same_key l)
               (fun p Hp => month_days p (H1 p Hp)) Hok Hb Hin).
Qed.

(** C1 at [examplePRs], monthly: the bucket 2023-01 holds the two merged
    PRs, from 1 January to 31 January. *)
Lemma buckets_hold_merged_PRs_of_their_days_witness :
  let pr := examplePR 1 (time.Date 2023 1 15 12 0 0 0 time.UTC) 30 in
  let prs := [pr; examplePR 2 (time.Date 2023 1 10 9 0 0 0 time.UTC) 20] in
  let a := calculateAggregatedMetrics "2023-01"
             (time.Date 2023 1 1 0 0 0 0 time.UTC)
             (time.Date 2023 1 31 0 0 0 0 time.UTC) prs in
  In a (summarize (monthlyGroups examplePRs)) /\
  In pr examplePRs /\
  time.IsZero (MergedAt pr) = false /\
  time.instant (StartDate a) <= time.instant (MergedAt pr)
  < time.instant (EndDate a) + time.nsPerDay.
Proof.
  intros pr prs a.
  assert (Hb : bucket (monthlyGroups examplePRs) a prs).
  { exists "2023-01"%string. split; vm_compute; reflexivity. }
  pose proof (buckets_hold_merged_PRs_of_their_days examplePRs
                (monthlyGroups examplePRs) (or_intror eq_refl)) as (Hout & Hin & Hdays).
  assert (Hutc : forall p, In p examplePRs -> time.IsZero (MergedAt p) = false ->
                   time.Location_of (MergedAt p) = time.UTC).
  { intros p [<- | [<- | [<- | []]]] _; reflexivity. }
  exact (conj (proj2 (Hout a) (ex_intro _ prs Hb))
           (conj (proj1 (Hin a prs pr Hb (or_introl eq_refl)))
              (conj (proj2 (Hin a prs pr Hb (or_introl eq_refl)))
                 (proj2 (proj2 (Hdays time.UTC (fixedOffset_FixedZone 0) Hutc
                                  a prs pr Hb (or_introl eq_refl))))))).
Defined.

(** The hypothesis of one location is needed: of two PRs of the week
    2023-W02, merged on Monday 9 January 2023 at 00:30 in UTC and at 08:30
    nine hours east of UTC, the bucket takes its StartDate from the first,
    the Monday midnight of UTC, half an hour after the merge of the
    second. *)
Lemma weekly_bucket_of_two_locations :
  let pr1 := examplePR 1 (time.Date 2023 1 9 0 30 0 0 time.UTC) 30 in
  let pr2 := examplePR 2 (time.Date 2023 1 9 8 30 0 0 (time.FixedZone 32400)) 20 in
  exists a,
    bucket (weeklyGroups [pr1; pr2]) a [pr1; pr2] /\
    Period a = "2023-W02"%string /\
    StartDate a = time.Date 2023 1 9 0 0 0 0 time.UTC /\
    time.Before (MergedAt pr2) (StartDate a) = true.
Proof.
  intros pr1 pr2.
  exists (calculateAggregatedMetrics "2023-W02"
            (time.Date 2023 1 9 0 0 0 0 time.UTC)
            (time.Date 2023 1 15 0 0 0 0 time.UTC) [pr1; pr2]).
  split.
  { exists "2023-W02"%string. split; vm_compute; reflexivity. }
  repeat split; vm_compute; reflexivity.
Qed.

(** C7: the PRCounts of the weekly result and those of the monthly result
    add up to the same number, the number of input PRs with a non-zero
    merge timestamp. *)
Theorem weekly_and_monthly_PRCount_sums (prMetrics : list PRMetrics) :
  let weekly := summarize (weeklyGroups prMetrics) in
  let monthly := summarize (monthlyGroups prMetrics) in
  value (CalculateWeeklyAggregatedMetrics prMetrics) = inr weekly /\
  value (CalculateMonthlyAggregatedMetrics prMetrics) = inr monthly /\
  sumPRCount weekly = sumPRCount monthly /\
  sumPRCount weekly = len (merged prMetrics).
Proof.
  cbv zeta. split; [reflexivity |]. split; [reflexivity |].
  rewrite !sumPRCount_summarize. unfold weeklyGroups, monthlyGroups.
  rewrite (bucketSizes_fold _ _ _ _ groupWeekly_eq),
    (bucketSizes_fold _ _ _ _ groupMonthly_eq), bucketSizes_empty.
  split; reflexivity.
Qed.

(** C10: every record the weekly and the monthly aggregation return has
    PRCount at least 1; the buckets handed to the per-bucket summarizer
    are never empty, so its PRCount = 0 branch is not taken. *)
Theorem no_empty_bucket (prMetrics : list PRMetrics) :
  let weekly := summarize (weeklyGroups prMetrics) in
  let monthly := summarize (monthlyGroups prMetrics) in
  value (CalculateWeeklyAggregatedMetrics prMetrics) = inr weekly /\
  value (CalculateMonthlyAggregatedMetrics prMetrics) = inr monthly /\
  Forall (fun a => 1 <= PRCount a) weekly /\
  Forall (fun a => 1 <= PRCount a) monthly /\
  (forall a prs,
     bucket (weeklyGroups prMetrics) a prs \/ bucket (monthlyGroups prMetrics) a prs ->
     (len prs =? 0) = false /\ PRCount a = len prs).
Proof.
  cbv zeta. split; [reflexivity |]. split; [reflexivity |].
  assert (Hb : forall a prs,
     bucket (weeklyGroups prMetrics) a prs \/ bucket (monthlyGroups prMetrics) a prs ->
     (len prs =? 0) = false /\ PRCount a = len prs).
  { intros a prs H.
    assert (Hne : prs <> []).
    { destruct H as [(k & E & _) | (k & E & _)].
      - apply (weeklyGroups_grouped prMetrics _ _ E).
      - apply (monthlyGroups_grouped prMetrics _ _ E). }
    split.
    - destruct (len prs =? 0) eqn:E0; [| reflexivity].
      apply len_eq_0 in E0. contradiction.
    - destruct H as [(k & _ & ->) | (k & _ & ->)];
        apply PRCount_calculateAggregatedMetrics. }
  assert (Hpos : forall a prs,
     bucket (weeklyGroups prMetrics) a prs \/ bucket (monthlyGroups prMetrics) a prs ->
     1 <= PRCount a).
  { intros a prs H. destruct (Hb a prs H) as [H0 ->].
    apply Z.eqb_neq in H0. unfold len in *. lia. }
  split; [| split; [| exact Hb]]; apply List.Forall_forall; intros a Ha;
    apply In_summarize in Ha; destruct Ha as [prs Ha]; apply (Hpos a prs); tauto.
Qed.

Lemma periodLess_asym (a b : AggregatedMetrics) :
  periodLess a b = true -> periodLess b a = false.
Proof.
  unfold periodLess, String.ltb. rewrite (String.compare_antisym (Period b)).
  destruct (Period a ?= Period b)%string; simpl; discriminate || reflexivity.
Qed.

(** X1: the result of an aggregation is in ascending order of its period
    keys, each of which occurs once; an empty input gives an empty
    result. *)
Theorem result_sorted_by_period (g : groups) :
  Sorted (ascending periodLess) (summarize g) /\
  NoDup (map Period (summarize g)) /\
  summarize (weeklyGroups []) = [] /\ summarize (monthlyGroups []) = [].
Proof.
  split.
  { apply sort_Slice_sorted. exact periodLess_asym. }
  split; [| split; reflexivity].
  rewrite (Permutation_map Period (summarize_perm g)), map_map.
  assert (E : map (fun kv : string * list PRMetrics =>
                     Period (calculateAggregatedMetrics (fst kv)
                               (default time.zeroTime (StartDates g !! fst kv))
                               (default time.zeroTime (EndDates g !! fst kv)) (snd kv)))
                (map_to_list (PRs g))
              = fst <$> map_to_list (PRs g)).
  { induction (map_to_list (PRs g)) as [| [k prs] l IH]; [reflexivity |].
    cbn [map fmap list_fmap fst snd]. f_equal; [| exact IH].
    apply PRCount_calculateAggregatedMetrics. }
  rewrite E. apply NoDup_fst_map_to_list.
Qed.

(** An example: three PRs merged in one ISO week (Monday 9, Tuesday 10
    and Sunday 15 January 2023) with commit counts 5, 3 and 1 give one
    weekly bucket with PRCount 3, average commit count 3 and median commit
    count 3. *)
Theorem three_PRs_in_one_week :
  let prs := [prWithCommits (time.Date 2023 1 9 8 0 0 0 time.UTC) 5;
              prWithCommits (time.Date 2023 1 10 9 30 0 0 time.UTC) 3;
              prWithCommits (time.Date 2023 1 15 23 59 59 0 time.UTC) 1] in
  exists a,
    summarize (weeklyGroups prs) = [a] /\
    Period a = "2023-W02"%string /\
    PRCount a = 3 /\
    AvgCommitCount a = 3%float /\
    MedianCommitCount a = 3%float.
Proof.
  cbv zeta. eexists. split; [vm_compute; reflexivity |].
  repeat split; vm_compute; reflexivity.
Qed.

End Rollups.

(** ** The per-PR calculator *)

Section PerPR.
Import api github metrics spec.

Lemma countCommitsDuringPR_bounds (commits : list RepositoryCommit)
    (createdAt : time.Time) (n : Z) :
  n <= countCommitsDuringPR commits createdAt n <= n + len commits.
Proof.
  revert n. induction commits as [| c rest IH]; intros n; simpl.
  - unfold len. simpl. lia.
  - match goal with |- context [countCommitsDuringPR rest createdAt ?m] =>
      specialize (IH m); assert (Hm : n <= m <= n + 1)
    end.
    { destruct (authorDate c) as [t |]; [| lia].
      destruct (negb (time.Before t createdAt)); lia. }
    unfold len in *. simpl length. lia.
Qed.

Lemma CommitCountDuringPR_le (commits : list RepositoryCommit) (createdAt : time.Time) :
  0 <= cm_CommitCountDuringPR (calculateCommitMetrics commits createdAt)
    <= cm_CommitCount (calculateCommitMetrics commits createdAt) /\
  cm_CommitCount (calculateCommitMetrics commits createdAt) = len commits.
Proof.
  unfold calculateCommitMetrics. destruct commits as [| c rest].
  - simpl. unfold len. simpl. lia.
  - cbn [cm_CommitCountDuringPR cm_CommitCount].
    pose proof (countCommitsDuringPR_bounds (c :: rest) createdAt 0). lia.
Qed.

(** The logger calls of the sequencing operations, reduced. *)
Ltac run_logged :=
  cbn [value logs mbind mret Logged_bind Logged_ret log app].

(** The result of [CalculatePRMetrics] when the details and the commits
    arrive: a record whose commit fields are those of
    [calculateCommitMetrics]. *)
Lemma CalculatePRMetrics_commits (c : Client) (owner repo : string) (pr : PullRequest)
    (d : PullRequest) (commits : list RepositoryCommit) :
  GetPRDetails c owner repo (pr_Number pr) = inr d ->
  GetPRCommits c owner repo (pr_Number pr) = inr commits ->
  exists m, value (CalculatePRMetrics c owner repo pr) = inr m /\
    CommitCount m = cm_CommitCount (calculateCommitMetrics commits (GetCreatedAt pr)) /\
    CommitCountDuringPR m
    = cm_CommitCountDuringPR (calculateCommitMetrics commits (GetCreatedAt pr)) /\
    CreatedAt m = GetCreatedAt pr.
Proof.
  intros Hd Hc. unfold CalculatePRMetrics, calculatePRDetails. rewrite Hd, Hc.
  destruct (GetPRComments c owner repo (pr_Number pr)),
    (calculateReviewMetrics c owner repo (pr_Number pr));
    run_logged; eexists; (split; [reflexivity |]); repeat split; reflexivity.
Qed.

Lemma CalculatePRMetrics_fatal (c : Client) (owner repo : string) (pr : PullRequest) :
  (forall e, GetPRDetails c owner repo (pr_Number pr) = inl e ->
     value (CalculatePRMetrics c owner repo pr) = inl e) /\
  (forall d e, GetPRDetails c owner repo (pr_Number pr) = inr d ->
     GetPRCommits c owner repo (pr_Number pr) = inl e ->
     value (CalculatePRMetrics c owner repo pr) = inl e).
Proof.
  split.
  - intros e Hd. unfold CalculatePRMetrics, calculatePRDetails. rewrite Hd. reflexivity.
  - intros d e Hd Hc. unfold CalculatePRMetrics, calculatePRDetails.
    rewrite Hd, Hc. reflexivity.
Qed.

Lemma countCommitsDuringPR_eq (commits : list RepositoryCommit)
    (createdAt : time.Time) (n : Z) :
  countCommitsDuringPR commits createdAt n = n + len (duringPR createdAt commits).
Proof.
  revert n. induction commits as [| c rest IH]; intros n; simpl.
  - unfold len. simpl. lia.
  - rewrite IH. destruct (authorDate c) as [t |]; [| reflexivity].
    destruct (negb (time.Before t createdAt)); [| reflexivity].
    unfold len. simpl length. lia.
Qed.

(** What [calculateCommitMetrics] counts. *)
Lemma calculateCommitMetrics_counts (commits : list RepositoryCommit)
    (createdAt : time.Time) :
  let r := calculateCommitMetrics commits createdAt in
  cm_CommitCount r = len commits /\
  cm_CommitCountDuringPR r = len (duringPR createdAt commits) /\
  0 <= cm_CommitCountDuringPR r <= cm_CommitCount r.
Proof.
  cbv zeta. split; [apply CommitCountDuringPR_le |].
  split; [| apply CommitCountDuringPR_le].
  destruct commits as [| c0 rest]; [reflexivity |].
  unfold calculateCommitMetrics. cbn [cm_CommitCountDuringPR].
  rewrite countCommitsDuringPR_eq. lia.
Qed.

(** C9: in every computed record, CommitCount is the size of the commit
    list fetched for the PR, CommitCountDuringPR is the number of those
    commits whose timestamp is not before the creation timestamp of the
    PR, and so 0 <= CommitCountDuringPR <= CommitCount; so it is for every
    commit list and every creation timestamp handed to
    [calculateCommitMetrics]. *)
Theorem CommitCountDuringPR_le_CommitCount
    (c : Client) (owner repo : string) (pr : PullRequest) (m : PRMetrics) :
  value (CalculatePRMetrics c owner repo pr) = inr m ->
  (exists commits,
     GetPRCommits c owner repo (pr_Number pr) = inr commits /\
     CreatedAt m = GetCreatedAt pr /\
     CommitCount m = len commits /\
     CommitCountDuringPR m = len (duringPR (CreatedAt m) commits)) /\
  0 <= CommitCountDuringPR m <= CommitCount m /\
  (forall (commits : list RepositoryCommit) (createdAt : time.Time),
     let r := calculateCommitMetrics commits createdAt in
     cm_CommitCount r = len commits /\
     cm_CommitCountDuringPR r = len (duringPR createdAt commits) /\
     0 <= cm_CommitCountDuringPR r <= cm_CommitCount r).
Proof.
  intros Hm.
  destruct (GetPRDetails c owner repo (pr_Number pr)) as [e | d] eqn:Hd.
  { rewrite (proj1 (CalculatePRMetrics_fatal c owner repo pr) e Hd) in Hm.
    discriminate. }
  destruct (GetPRCommits c owner repo (pr_Number pr)) as [e | cs] eqn:Hc.
  { rewrite (proj2 (CalculatePRMetrics_fatal c owner repo pr) d e Hd Hc) in Hm.
    discriminate. }
  destruct (CalculatePRMetrics_commits c owner repo pr d cs Hd Hc)
    as (m' & Hm' & H1 & H2 & H3).
  rewrite Hm in Hm'. injection Hm' as <-.
  destruct (calculateCommitMetrics_counts cs (GetCreatedAt pr)) as (Hn & Hdur & Hle).
  split.
  { exists cs. split; [reflexivity |]. split; [exact H3 |].
    rewrite H1, H2, H3. split; assumption. }
  split; [rewrite H1, H2; exact Hle |].
  exact calculateCommitMetrics_counts.
Qed.

(** C9 at PR 1 of [exampleClient]: one commit, made at 09:00, before the
    PR was opened at 10:00. *)
Lemma CommitCountDuringPR_le_CommitCount_witness :
  exists m,
    value (CalculatePRMetrics exampleClient "owner" "repo" (examplePull 1)) = inr m /\
    CommitCount m = 1 /\ CommitCountDuringPR m = 0 /\
    0 <= CommitCountDuringPR m <= CommitCount m.
Proof.
  destruct (value (CalculatePRMetrics exampleClient "owner" "repo" (examplePull 1)))
    as [e | m] eqn:E.
  - vm_compute in E. discriminate E.
  - exists m. split; [reflexivity |].
    destruct (CommitCountDuringPR_le_CommitCount
                exampleClient "owner" "repo" (examplePull 1) m E)
      as ((commits & Hc & Hcr & Hn & Hd) & Hle & _).
    vm_compute in Hc. injection Hc as <-.
    split; [rewrite Hn; reflexivity |].
    split; [rewrite Hd, Hcr; vm_compute; reflexivity | exact Hle].
Defined.

Lemma sort_two (t u : time.Time) :
  sort_Slice time.Before [t; u] = if time.Before t u then [t; u] else [u; t].
Proof. reflexivity. Qed.

Lemma maxGap_two (t u : time.Time) :
  maxGap [t; u] 0 =
  if (0 <? time.Hours (time.Sub u t))%float then time.Hours (time.Sub u t) else 0%float.
Proof. reflexivity. Qed.

(** The waiting periods of one commit and one comment. *)
Lemma calculateWaitingPeriods_one_each (commit : RepositoryCommit)
    (comment : PullRequestComment) :
  calculateWaitingPeriods [commit] [comment] =
  {| wp_MaxNoActivityPeriodHours :=
       match authorDate commit with
       | Some t => gapBetween t (comment_GetCreatedAt comment)
       | None => 0%float
       end;
     wp_MaxNoCommentPeriodHours := 0;
     wp_MaxNoCommitPeriodHours := 0 |}.
Proof.
  unfold calculateWaitingPeriods, commitTimesOf.
  cbn [omap list_omap map app]. destruct (authorDate commit) as [t |].
  - cbn [app]. rewrite sort_two. unfold gapBetween.
    destruct (time.Before t (comment_GetCreatedAt comment));
      rewrite maxGap_two; reflexivity.
  - reflexivity.
Qed.

(** C2, as stated, fails: PR 1 of [exampleClient] has one commit (09:00)
    and one comment (11:00), and its MaxNoActivityPeriodHours is 2. *)
Lemma one_commit_one_comment_activity_gap :
  exists m,
    value (CalculatePRMetrics exampleClient "owner" "repo" (examplePull 1)) = inr m /\
    CommitCount m = 1 /\ CommentCount m = 1 /\
    MaxNoActivityPeriodHours m = 2%float /\
    (MaxNoActivityPeriodHours m =? 0)%float = false.
Proof.
  eexists. split; [vm_compute; reflexivity |].
  repeat split; vm_compute; reflexivity.
Qed.

(** C2, amended: for a PR with exactly one commit and one comment,
    MaxNoCommentPeriodHours and MaxNoCommitPeriodHours are 0, and
    MaxNoActivityPeriodHours is the gap in hours between the commit and
    the comment, the two events of the combined series (0 when that gap
    is not positive or the commit carries no author date). *)
Theorem one_commit_one_comment_gaps
    (c : Client) (owner repo : string) (pr : PullRequest) (d : PullRequest)
    (commit : RepositoryCommit) (comment : PullRequestComment) :
  GetPRDetails c owner repo (pr_Number pr) = inr d ->
  GetPRCommits c owner repo (pr_Number pr) = inr [commit] ->
  GetPRComments c owner repo (pr_Number pr) = inr [comment] ->
  exists m,
    value (CalculatePRMetrics c owner repo pr) = inr m /\
    CommitCount m = 1 /\ CommentCount m = 1 /\
    MaxNoCommentPeriodHours m = 0%float /\
    MaxNoCommitPeriodHours m = 0%float /\
    MaxNoActivityPeriodHours m =
      match authorDate commit with
      | Some t => gapBetween t (comment_GetCreatedAt comment)
      | None => 0%float
      end.
Proof.
  intros Hd Hc Hm. unfold CalculatePRMetrics, calculatePRDetails.
  rewrite Hd, Hc, Hm.
  destruct (calculateReviewMetrics c owner repo (pr_Number pr));
    run_logged; eexists; (split; [reflexivity |]);
    cbn [CommitCount CommentCount MaxNoCommentPeriodHours MaxNoCommitPeriodHours
         MaxNoActivityPeriodHours];
    change ((0 <? len [commit]) && (0 <? len [comment])) with true; cbv iota;
    rewrite calculateWaitingPeriods_one_each; repeat split; reflexivity.
Qed.

(** C2, amended, at PR 1 of [exampleClient]: the commit of 09:00 and the
    comment of 11:00 are two hours apart. *)
Lemma one_commit_one_comment_gaps_witness :
  exists m,
    value (CalculatePRMetrics exampleClient "owner" "repo" (examplePull 1)) = inr m /\
    MaxNoCommentPeriodHours m = 0%float /\
    MaxNoCommitPeriodHours m = 0%float /\
    MaxNoActivityPeriodHours m = 2%float.
Proof.
  destruct (one_commit_one_comment_gaps exampleClient "owner" "repo" (examplePull 1)
              (examplePull 1) (commitAt (time.Date 2023 1 15 9 0 0 0 time.UTC))
              (commentAt (time.Date 2023 1 15 11 0 0 0 time.UTC))
              eq_refl eq_refl eq_refl)
    as (m & Hm & _ & _ & Hcomment & Hcommit & Hactivity).
  exists m. split; [exact Hm |]. split; [exact Hcomment |]. split; [exact Hcommit |].
  rewrite Hactivity. vm_compute. reflexivity.
Defined.

Lemma calculateReviewMetrics_error (c : Client) (owner repo : string) (number : Z)
    (e : error) :
  GetPRReviews c owner repo number = inl e ->
  calculateReviewMetrics c owner repo number = inl e.
Proof. unfold calculateReviewMetrics. intros ->. reflexivity. Qed.

(** [CalculatePRMetrics] writes DEBUG and WARN entries only. *)
Lemma CalculatePRMetrics_no_error_entry (c : Client) (owner repo : string)
    (pr : PullRequest) :
  List.filter isError (logs (CalculatePRMetrics c owner repo pr)) = [].
Proof.
  unfold CalculatePRMetrics.
  destruct (calculatePRDetails c owner repo (pr_Number pr)) as [e | [[a dl] ch]];
    [reflexivity |].
  destruct (GetPRCommits c owner repo (pr_Number pr)); [reflexivity |].
  destruct (GetPRComments c owner repo (pr_Number pr)),
    (calculateReviewMetrics c owner repo (pr_Number pr)); reflexivity.
Qed.

(** The loop of the batch: the records of the PRs that succeed are
    appended in order, and one ERROR entry is written per PR that fails. *)
Lemma processPRs_spec (c : Client) (owner repo : string) (prs : list PullRequest)
    (i total : Z) (allMetrics : list PRMetrics) :
  value (processPRs c owner repo prs i total allMetrics)
  = allMetrics
    ++ omap (fun p => succeeded (value (CalculatePRMetrics c owner repo p))) prs /\
  List.filter isError (logs (processPRs c owner repo prs i total allMetrics))
  = omap (fun p => failureEntry p (value (CalculatePRMetrics c owner repo p))) prs.
Proof.
  revert i allMetrics. induction prs as [| p rest IH]; intros i allMetrics.
  - split; [symmetry; apply app_nil_r | reflexivity].
  - cbn [processPRs omap list_omap]. run_logged.
    pose proof (CalculatePRMetrics_no_error_entry c owner repo p) as Hn.
    destruct (CalculatePRMetrics c owner repo p) as [l [err | m]];
      cbn [value logs succeeded failureEntry] in Hn |- *.
    + destruct (IH (i + 1) allMetrics) as [IHv IHl]. run_logged.
      split; [exact IHv |].
      cbn [List.filter isError utils.level].
      rewrite List.filter_app, Hn. cbn [List.filter isError utils.level app].
      rewrite IHl. reflexivity.
    + destruct (IH (i + 1) (allMetrics ++ [m])) as [IHv IHl]. run_logged.
      split; [rewrite IHv, <- app_assoc; reflexivity |].
      cbn [List.filter isError utils.level].
      rewrite List.filter_app, Hn. exact IHl.
Qed.

(** C8: a failure to fetch the details or the commits of a PR makes its
    computation return the error; a failure to fetch the comments or the
    reviews is logged as a warning and leaves the PR's comment or review
    fields at zero; the batch always returns, with the records of the PRs
    that succeeded, in order, and one ERROR entry per PR it dropped. *)
Theorem fatal_and_degraded_failures
    (c : Client) (owner repo : string) (pr : PullRequest) (prs : list PullRequest) :
  (forall e, GetPRDetails c owner repo (pr_Number pr) = inl e ->
     value (CalculatePRMetrics c owner repo pr) = inl e) /\
  (forall d e, GetPRDetails c owner repo (pr_Number pr) = inr d ->
     GetPRCommits c owner repo (pr_Number pr) = inl e ->
     value (CalculatePRMetrics c owner repo pr) = inl e) /\
  (forall d commits e, GetPRDetails c owner repo (pr_Number pr) = inr d ->
     GetPRCommits c owner repo (pr_Number pr) = inr commits ->
     GetPRComments c owner repo (pr_Number pr) = inl e ->
     exists m, value (CalculatePRMetrics c owner repo pr) = inr m /\
       CommentCount m = 0 /\ FirstCommentAt m = time.zeroTime /\
       CreatedToFirstCommentHours m = 0%float /\
       In {| utils.level := utils.WARN;
             utils.format := "Failed to get comments for PR #%d: %v";
             utils.args := [utils.ArgInt (pr_Number pr); utils.ArgStr e] |}
          (logs (CalculatePRMetrics c owner repo pr))) /\
  (forall d commits e, GetPRDetails c owner repo (pr_Number pr) = inr d ->
     GetPRCommits c owner repo (pr_Number pr) = inr commits ->
     GetPRReviews c owner repo (pr_Number pr) = inl e ->
     exists m, value (CalculatePRMetrics c owner repo pr) = inr m /\
       ReviewCount m = 0 /\ ApprovalCount m = 0 /\
       TimeToApprovalHours m = 0%float /\
       In {| utils.level := utils.WARN;
             utils.format := "Failed to get reviews for PR #%d: %v";
             utils.args := [utils.ArgInt (pr_Number pr); utils.ArgStr e] |}
          (logs (CalculatePRMetrics c owner repo pr))) /\
  value (CalculateAllPRMetrics c owner repo prs)
  = inr (omap (fun p => succeeded (value (CalculatePRMetrics c owner repo p))) prs) /\
  List.filter isError (logs (CalculateAllPRMetrics c owner repo prs))
  = omap (fun p => failureEntry p (value (CalculatePRMetrics c owner repo p))) prs.
Proof.
  split; [apply CalculatePRMetrics_fatal |].
  split; [apply CalculatePRMetrics_fatal |].
  split.
  { intros d commits e Hd Hc Hm. unfold CalculatePRMetrics, calculatePRDetails.
    rewrite Hd, Hc, Hm.
    destruct (calculateReviewMetrics c owner repo (pr_Number pr));
      run_logged; eexists; (split; [reflexivity |]);
      cbn [CommentCount FirstCommentAt CreatedToFirstCommentHours];
      (split; [reflexivity |]); (split; [reflexivity |]); (split; [reflexivity |]);
      right; left; reflexivity. }
  split.
  { intros d commits e Hd Hc Hr. unfold CalculatePRMetrics, calculatePRDetails.
    rewrite Hd, Hc, (calculateReviewMetrics_error _ _ _ _ _ Hr).
    destruct (GetPRComments c owner repo (pr_Number pr));
      run_logged; eexists; (split; [reflexivity |]);
      cbn [ReviewCount ApprovalCount TimeToApprovalHours];
      (split; [reflexivity |]); (split; [reflexivity |]); (split; [reflexivity |]).
    - right; right; left; reflexivity.
    - right; left; reflexivity. }
  unfold CalculateAllPRMetrics. run_logged.
  destruct (processPRs_spec c owner repo prs 0 (len prs) []) as [Hv Hl].
  destruct (processPRs c owner repo prs 0 (len prs) []) as [l ms].
  cbn [value logs] in *. run_logged. subst ms. split; [reflexivity |].
  cbn [List.filter isError utils.level].
  rewrite List.filter_app. cbn [List.filter isError utils.level app].
  rewrite app_nil_r. exact Hl.
Qed.

(** C8 at [exampleClient]: PR 4 (no details) and PR 2 (no commits) fail,
    PR 3 (no comments) and PR 5 (no reviews) succeed with zero counts, and
    the batch over PRs 1 to 5 returns the records of PRs 1, 3 and 5. *)
Lemma fatal_and_degraded_failures_witness :
  let run := fun n => CalculatePRMetrics exampleClient "owner" "repo" (examplePull n) in
  value (run 4) = inl "details unavailable"%string /\
  value (run 2) = inl "commits unavailable"%string /\
  (exists m, value (run 3) = inr m /\ CommentCount m = 0) /\
  (exists m, value (run 5) = inr m /\ ReviewCount m = 0) /\
  (exists out,
     value (CalculateAllPRMetrics exampleClient "owner" "repo"
              (map examplePull [1; 2; 3; 4; 5])) = inr out /\
     map Number out = [1; 3; 5]).
Proof.
  intros run.
  pose proof (fun n => fatal_and_degraded_failures exampleClient "owner" "repo"
                         (examplePull n) (map examplePull [1; 2; 3; 4; 5])) as H.
  split.
  { exact (proj1 (H 4) _ eq_refl). }
  split.
  { exact (proj1 (proj2 (H 2)) (examplePull 2) _ eq_refl eq_refl). }
  split.
  { destruct (proj1 (proj2 (proj2 (H 3))) (examplePull 3) _ _ eq_refl eq_refl eq_refl)
      as (m & Hm & H0 & _).
    exists m. split; assumption. }
  split.
  { destruct (proj1 (proj2 (proj2 (proj2 (H 5)))) (examplePull 5) _ _
                eq_refl eq_refl eq_refl) as (m & Hm & H0 & _).
    exists m. split; assumption. }
  eexists. split.
  { exact (proj1 (proj2 (proj2 (proj2 (proj2 (H 1)))))). }
  vm_compute. reflexivity.
Defined.

(** X2: a PR without commits has CommitCount and CommitCountDuringPR 0, and
    the durations that depend on commit timestamps, and the three gaps,
    stay 0. *)
Theorem no_commits_no_commit_durations
    (c : Client) (owner repo : string) (pr : PullRequest) (d : PullRequest) :
  GetPRDetails c owner repo (pr_Number pr) = inr d ->
  GetPRCommits c owner repo (pr_Number pr) = inr [] ->
  exists m,
    value (CalculatePRMetrics c owner repo pr) = inr m /\
    CommitCount m = 0 /\ CommitCountDuringPR m = 0 /\
    FirstCommitAt m = time.zeroTime /\ LastCommitAt m = time.zeroTime /\
    FirstCommitToCreateHours m = 0%float /\
    CreateToLastCommitHours m = 0%float /\
    FirstCommitToMergeHours m = 0%float /\
    LastCommitToMergeHours m = 0%float /\
    MaxNoActivityPeriodHours m = 0%float /\
    MaxNoCommentPeriodHours m = 0%float /\
    MaxNoCommitPeriodHours m = 0%float.
Proof.
  intros Hd Hc. unfold CalculatePRMetrics, calculatePRDetails. rewrite Hd, Hc.
  destruct (GetPRComments c owner repo (pr_Number pr)),
    (calculateReviewMetrics c owner repo (pr_Number pr));
    run_logged; eexists; (split; [reflexivity |]);
    cbn [CommitCount CommitCountDuringPR FirstCommitAt LastCommitAt
         FirstCommitToCreateHours CreateToLastCommitHours FirstCommitToMergeHours
         LastCommitToMergeHours MaxNoActivityPeriodHours MaxNoCommentPeriodHours
         MaxNoCommitPeriodHours calculateCommitMetrics cm_CommitCount
         cm_CommitCountDuringPR cm_FirstCommitAt cm_LastCommitAt];
    unfold calculateTimeMetrics;
    cbn [tm_FirstCommitToCreateHours tm_CreateToLastCommitHours
         tm_FirstCommitToMergeHours tm_LastCommitToMergeHours];
    change (time.IsZero time.zeroTime) with true; cbn [negb andb];
    rewrite ?andb_false_r; repeat split; reflexivity.
Qed.

(** X2 at a PR served by a client that returns no commits. *)
Lemma no_commits_no_commit_durations_witness :
  let c := {| GetPRDetails := fun _ _ n => inr (examplePull n);
              GetPRCommits := fun _ _ _ => inr [];
              GetPRComments := GetPRComments exampleClient;
              GetPRReviews := GetPRReviews exampleClient |} in
  exists m,
    value (CalculatePRMetrics c "owner" "repo" (examplePull 1)) = inr m /\
    CommitCountDuringPR m = 0 /\ MaxNoActivityPeriodHours m = 0%float.
Proof.
  intros c.
  destruct (no_commits_no_commit_durations c "owner" "repo" (examplePull 1)
              (examplePull 1) eq_refl eq_refl)
    as (m & Hm & _ & H1 & _ & _ & _ & _ & _ & _ & H2 & _).
  exists m. split; [exact Hm |]. split; assumption.
Defined.

End PerPR.

(** ** What the buckets hold *)

Section Buckets.
Import api metrics spec.

Lemma merged_fold (step : groups -> PRMetrics -> groups)
    (Hskip : forall g pr, time.IsZero (MergedAt pr) = true -> step g pr = g)
    (prMetrics : list PRMetrics) (g : groups) :
  fold_left step prMetrics g = fold_left step (merged prMetrics) g.
Proof.
  revert g. induction prMetrics as [| pr rest IH]; intros g; [reflexivity |].
  cbn [fold_left merged List.filter]. fold (merged rest).
  destruct (time.IsZero (MergedAt pr)) eqn:Ez; cbn [negb fold_left].
  - rewrite (Hskip g pr Ez). apply IH.
  - apply IH.
Qed.

(** X3: PRs without a merge timestamp do not take part in the rollups:
    the weekly and the monthly result of a collection are those of its
    merged PRs alone. *)
Theorem rollups_ignore_unmerged (prMetrics : list PRMetrics) :
  weeklyGroups prMetrics = weeklyGroups (merged prMetrics) /\
  monthlyGroups prMetrics = monthlyGroups (merged prMetrics) /\
  value (CalculateWeeklyAggregatedMetrics prMetrics)
  = value (CalculateWeeklyAggregatedMetrics (merged prMetrics)) /\
  value (CalculateMonthlyAggregatedMetrics prMetrics)
  = value (CalculateMonthlyAggregatedMetrics (merged prMetrics)).
Proof.
  assert (Hw : weeklyGroups prMetrics = weeklyGroups (merged prMetrics)).
  { apply merged_fold. intros g pr Ez. rewrite groupWeekly_eq, Ez. reflexivity. }
  assert (Hm : monthlyGroups prMetrics = monthlyGroups (merged prMetrics)).
  { apply merged_fold. intros g pr Ez. rewrite groupMonthly_eq, Ez. reflexivity. }
  split; [exact Hw |]. split; [exact Hm |].
  unfold CalculateWeeklyAggregatedMetrics, CalculateMonthlyAggregatedMetrics.
  cbn [value logs mbind mret Logged_bind Logged_ret log].
  rewrite <- Hw, <- Hm. split; reflexivity.
Qed.

Variables (step : groups -> PRMetrics -> groups) (key : PRMetrics -> string)
  (start stop : PRMetrics -> time.Time).

Hypothesis step_eq : forall g pr,
  step g pr =
  if time.IsZero (MergedAt pr) then g
  else addToGroup g (key pr) (start pr) (stop pr) pr.

Lemma lookup_fold (prMetrics : list PRMetrics) (g : groups) (k : string) :
  (forall k' prs, PRs g !! k' = Some prs -> prs <> []) ->
  PRs (fold_left step prMetrics g) !! k
  = nonEmpty (default [] (PRs g !! k) ++ withKey key k prMetrics).
Proof.
  revert g. induction prMetrics as [| pr rest IH]; intros g Hg.
  - cbn [fold_left withKey List.filter]. rewrite app_nil_r.
    destruct (PRs g !! k) as [prs |] eqn:E; [| reflexivity].
    cbn [default from_option id]. destruct prs; [| reflexivity].
    exfalso. exact (Hg _ _ E eq_refl).
  - cbn [fold_left withKey List.filter]. fold (withKey key k rest).
    rewrite step_eq. destruct (time.IsZero (MergedAt pr)) eqn:Ez; cbn [negb andb].
    { apply IH, Hg. }
    rewrite IH.
    + rewrite PRs_addToGroup. destruct (String.eqb_spec (key pr) k) as [<- | Hne].
      * rewrite lookup_insert_eq. cbn [default from_option id].
        rewrite <- app_assoc. reflexivity.
      * rewrite lookup_insert_ne by exact Hne. reflexivity.
    + intros k' prs. rewrite PRs_addToGroup.
      destruct (decide (key pr = k')) as [<- | Hne].
      * rewrite lookup_insert_eq. intros [= <-].
        destruct (default [] (PRs g !! key pr)); discriminate.
      * rewrite lookup_insert_ne by exact Hne. apply Hg.
Qed.

End Buckets.

Section Partition.
Import api metrics spec.

(** X4: the buckets partition the merged PRs by period key: the bucket of
    a key holds exactly the merged PRs of the input with that key, in
    the order of the input, and a key has no bucket when no merged PR
    has it; so every merged PR is in the bucket of its own key. *)
Theorem buckets_partition_merged_PRs (prMetrics : list PRMetrics) (k : string) :
  PRs (weeklyGroups prMetrics) !! k = nonEmpty (withKey weekKey k prMetrics) /\
  PRs (monthlyGroups prMetrics) !! k = nonEmpty (withKey monthKey k prMetrics) /\
  (forall pr, In pr prMetrics -> time.IsZero (MergedAt pr) = false ->
     exists week month,
       PRs (weeklyGroups prMetrics) !! weekKey pr = Some week /\ In pr week /\
       PRs (monthlyGroups prMetrics) !! monthKey pr = Some month /\ In pr month).
Proof.
  assert (Hw : forall k, PRs (weeklyGroups prMetrics) !! k
                         = nonEmpty (withKey weekKey k prMetrics)).
  { intros k0. unfold weeklyGroups.
    rewrite (lookup_fold _ _ _ _ groupWeekly_eq); [reflexivity |].
    intros k' prs E. cbn in E. rewrite lookup_empty in E. discriminate. }
  assert (Hm : forall k, PRs (monthlyGroups prMetrics) !! k
                         = nonEmpty (withKey monthKey k prMetrics)).
  { intros k0. unfold monthlyGroups.
    rewrite (lookup_fold _ _ _ _ groupMonthly_eq); [reflexivity |].
    intros k' prs E. cbn in E. rewrite lookup_empty in E. discriminate. }
  split; [apply Hw |]. split; [apply Hm |].
  intros pr Hin Ez.
  assert (Hmem : forall key, In pr (withKey key (key pr) prMetrics)).
  { intros key. unfold withKey. apply filter_In. split; [exact Hin |].
    rewrite Ez, String.eqb_refl. reflexivity. }
  exists (withKey weekKey (weekKey pr) prMetrics),
    (withKey monthKey (monthKey pr) prMetrics).
  rewrite Hw, Hm. pose proof (Hmem weekKey) as H1. pose proof (Hmem monthKey) as H2.
  destruct (withKey weekKey (weekKey pr) prMetrics); [contradiction |].
  destruct (withKey monthKey (monthKey pr) prMetrics); [contradiction |].
  repeat split; assumption.
Qed.

End Partition.

(** ** The period, start and end of a bucket *)

Section BucketDates.
Import api metrics spec.

(** In a grouping whose keys determine start and end among the PRs that
    satisfy [ok], a bucket's record carries the key, start and end of
    each of its PRs. *)
Lemma bucket_record (key : PRMetrics -> string) (start stop : PRMetrics -> time.Time)
    (ok : PRMetrics -> Prop)
    (g : groups) (a : AggregatedMetrics) (prs : list PRMetrics) (pr : PRMetrics) :
  grouped key start stop g ->
  (forall p p0, ok p -> ok p0 -> key p = key p0 ->
     start p = start p0 /\ stop p = stop p0) ->
  (forall p, In p prs -> ok p) ->
  bucket g a prs -> In pr prs ->
  Period a = key pr /\ StartDate a = start pr /\ EndDate a = stop pr /\
  PRCount a = len prs /\ (forall pr', In pr' prs -> key pr' = key pr).
Proof.
  intros Hg Hsame Hok (k & E & ->) Hin.
  destruct (Hg _ _ E) as (_ & Hmem & pr0 & Hin0 & Hs & He).
  destruct (Hmem _ Hin) as [_ Hk]. destruct (Hmem _ Hin0) as [_ Hk0].
  destruct (PRCount_calculateAggregatedMetrics k
              (default time.zeroTime (StartDates g !! k))
              (default time.zeroTime (EndDates g !! k)) prs)
    as (-> & -> & -> & ->).
  rewrite Hs, He. cbn [default from_option id].
  destruct (Hsame pr pr0 (Hok _ Hin) (Hok _ Hin0) ltac:(congruence)) as [-> ->].
  split; [symmetry; exact Hk |]. repeat split.
  intros pr' Hin'. destruct (Hmem _ Hin') as [_ Hk']. congruence.
Qed.

Lemma weekKey_same_week (pr pr0 : PRMetrics) :
  weekKey pr = weekKey pr0 -> time.ISOWeek (MergedAt pr) = time.ISOWeek (MergedAt pr0).
Proof. unfold weekKey. apply weekKeyOf_inj. Qed.

Lemma monthKey_same_month (pr pr0 : PRMetrics) (y m d y0 m0 d0 : Z) :
  time.Date_of (MergedAt pr) = (y, m, d) ->
  time.Date_of (MergedAt pr0) = (y0, m0, d0) ->
  monthKey pr = monthKey pr0 -> y = y0 /\ m = m0.
Proof. unfold monthKey. apply monthKeyOf_inj. Qed.

(** The PRs of a bucket are merged in the location of the merged PRs of
    the input. *)
Lemma bucket_location (prMetrics : list PRMetrics) (g : groups) (l : time.Location)
    (a : AggregatedMetrics) (prs : list PRMetrics) :
  g = weeklyGroups prMetrics \/ g = monthlyGroups prMetrics ->
  (forall p, In p prMetrics -> time.IsZero (MergedAt p) = false ->
     time.Location_of (MergedAt p) = l) ->
  bucket g a prs -> forall p, In p prs -> mergedIn l p.
Proof.
  intros Hg Hloc Hb p Hp. apply Hloc.
  - exact (bucket_members _ _ _ _ _ Hg Hb Hp).
  - exact (bucket_grouped_merged _ _ _ _ _ Hg Hb Hp).
Qed.

(** X5: when the merge timestamps of the input are all in one location of
    fixed offset, a weekly bucket is named by the ISO week of its PRs, all
    of the same ISO week there; its StartDate is the Monday of that week
    at 00:00:00 and its EndDate the Sunday of that week at 00:00:00, six
    days later, both in that location. *)
Theorem weekly_bucket_dates (prMetrics : list PRMetrics) (a : AggregatedMetrics)
    (prs : list PRMetrics) (pr : PRMetrics) (l : time.Location) :
  fixedOffset l ->
  (forall p, In p prMetrics -> time.IsZero (MergedAt p) = false ->
     time.Location_of (MergedAt p) = l) ->
  bucket (weeklyGroups prMetrics) a prs -> In pr prs ->
  Period a = weekKeyOf (MergedAt pr) /\
  StartDate a = getStartOfISOWeek (MergedAt pr) /\
  time.Location_of (StartDate a) = l /\ time.Location_of (EndDate a) = l /\
  time.instant (EndDate a) = time.instant (StartDate a) + 6 * time.nsPerDay /\
  time.Weekday (StartDate a) = 1 /\ time.Clock_of (StartDate a) = (0, 0, 0, 0) /\
  time.Weekday (EndDate a) = 0 /\ time.Clock_of (EndDate a) = (0, 0, 0, 0) /\
  (forall pr', In pr' prs -> time.ISOWeek (MergedAt pr') = time.ISOWeek (MergedAt pr)).
Proof.
  intros Hl Hloc Hb Hin.
  pose proof (bucket_location _ _ _ _ _ (or_introl eq_refl) Hloc Hb) as Hok.
  pose proof (Hok _ Hin) as Hpr. unfold mergedIn in Hpr.
  assert (Hfix : fixedOffset (time.Location_of (MergedAt pr)))
    by (rewrite Hpr; exact Hl).
  destruct (bucket_record _ _ _ (mergedIn l) _ _ _ _ (weeklyGroups_grouped prMetrics)
              (fun p p0 => weekStart_same_key l p p0 Hl) Hok Hb Hin)
    as (Hp & Hs & He & _ & Hk).
  destruct (week_start_end pr Hfix) as [Hws Hwe].
  split; [rewrite Hp; unfold weekKey; reflexivity |].
  split; [rewrite Hs; unfold weekStart; reflexivity |].
  rewrite Hs, He, Hws, Hwe. cbn [time.instant time.Location_of].
  split; [exact Hpr |]. split; [exact Hpr |].
  split; [lia |].
  unfold time.Weekday, time.Clock_of. rewrite !(wall_mk _ _ Hfix).
  unfold time.wallWeekday. rewrite !absDays_midnight, !wallClock_midnight.
  split; [Z.to_euclidean_division_equations; lia |]. split; [reflexivity |].
  split; [Z.to_euclidean_division_equations; lia |]. split; [reflexivity |].
  intros pr' Hin'. apply weekKey_same_week, (Hk pr' Hin').
Qed.

(** X5 at [examplePRs], whose merge timestamps are in UTC: the bucket
    2023-W02, from Monday 9 to Sunday 15 January 2023. *)
Lemma weekly_bucket_dates_witness :
  let pr := examplePR 1 (time.Date 2023 1 15 12 0 0 0 time.UTC) 30 in
  let prs := [pr; examplePR 2 (time.Date 2023 1 10 9 0 0 0 time.UTC) 20] in
  let a := calculateAggregatedMetrics "2023-W02"
             (time.Date 2023 1 9 0 0 0 0 time.UTC)
             (time.Date 2023 1 15 0 0 0 0 time.UTC) prs in
  bucket (weeklyGroups examplePRs) a prs /\
  Period a = weekKeyOf (MergedAt pr) /\
  time.instant (EndDate a) = time.instant (StartDate a) + 6 * time.nsPerDay.
Proof.
  intros pr prs a.
  assert (Hb : bucket (weeklyGroups examplePRs) a prs).
  { exists "2023-W02"%string. split; vm_compute; reflexivity. }
  assert (Hutc : forall p, In p examplePRs -> time.IsZero (MergedAt p) = false ->
                   time.Location_of (MergedAt p) = time.UTC).
  { intros p [<- | [<- | [<- | []]]] _; reflexivity. }
  pose proof (weekly_bucket_dates examplePRs a prs pr time.UTC
                (fixedOffset_FixedZone 0) Hutc Hb (or_introl eq_refl))
    as (Hp & _ & _ & _ & He & _).
  exact (conj Hb (conj Hp He)).
Defined.

(** The week of a PR is the one its location shows: the instant
    2023-01-15T23:30:00Z is in week 2 in UTC, and nine hours east of UTC,
    where it is Monday 16 January, 08:30, it is in week 3, which starts on
    that Monday. *)
Lemma week_depends_on_location :
  let t := time.Date 2023 1 16 8 30 0 0 (time.FixedZone 32400) in
  time.instant t = time.instant (time.Date 2023 1 15 23 30 0 0 time.UTC) /\
  weekKeyOf (time.UTC_of t) = "2023-W02"%string /\
  weekKeyOf t = "2023-W03"%string /\
  getStartOfISOWeek t = time.Date 2023 1 16 0 0 0 0 (time.FixedZone 32400) /\
  getStartOfISOWeek (time.UTC_of t) = time.Date 2023 1 9 0 0 0 0 time.UTC.
Proof. vm_compute. repeat split. Qed.

(** X6: when the merge timestamps of the input are all in one location of
    fixed offset, a monthly bucket is named by the year and month of its
    PRs, all of the same month there; its StartDate is the first day of
    that month at 00:00:00 and its EndDate the last day of that month at
    00:00:00, both in that location. *)
Theorem monthly_bucket_dates (prMetrics : list PRMetrics) (a : AggregatedMetrics)
    (prs : list PRMetrics) (pr : PRMetrics) (y m d : Z) (l : time.Location) :
  fixedOffset l ->
  (forall p, In p prMetrics -> time.IsZero (MergedAt p) = false ->
     time.Location_of (MergedAt p) = l) ->
  bucket (monthlyGroups prMetrics) a prs -> In pr prs ->
  time.Date_of (MergedAt pr) = (y, m, d) ->
  Period a = (fmt_d y ++ "-" ++ fmt_02d m)%string /\
  time.Location_of (StartDate a) = l /\ time.Location_of (EndDate a) = l /\
  time.Date_of (StartDate a) = (y, m, 1) /\
  time.Clock_of (StartDate a) = (0, 0, 0, 0) /\
  time.Date_of (EndDate a) = (y, m, time.daysIn y m) /\
  time.Clock_of (EndDate a) = (0, 0, 0, 0) /\
  (forall pr', In pr' prs ->
     exists d', time.Date_of (MergedAt pr') = (y, m, d')).
Proof.
  intros Hl Hloc Hb Hin Ed.
  pose proof (bucket_location _ _ _ _ _ (or_intror eq_refl) Hloc Hb) as Hok.
  pose proof (Hok _ Hin) as Hpr. unfold mergedIn in Hpr.
  assert (Hfix : fixedOffset (time.Location_of (MergedAt pr)))
    by (rewrite Hpr; exact Hl).
  destruct (bucket_record _ _ _ (mergedIn l) _ _ _ _ (monthlyGroups_grouped prMetrics)
              (monthStart_same_key l) Hok Hb Hin) as (Hp & Hs & He & _ & Hk).
  pose proof (wallDate_spec _ _ _ _ Ed) as (Hm & Hd & _).
  destruct (month_start_end _ _ _ _ Hfix Ed) as (Hstart & Hend & _).
  assert (Hdays : 28 <= time.daysIn y m <= 31).
  { unfold time.daysIn. destruct (time.isLeap y).
    - assert (Hc : m = 1 \/ m = 2 \/ m = 3 \/ m = 4 \/ m = 5 \/ m = 6 \/ m = 7 \/
                   m = 8 \/ m = 9 \/ m = 10 \/ m = 11 \/ m = 12) by lia.
      repeat (destruct Hc as [Hc | Hc]); subst m; simpl; lia.
    - assert (Hc : m = 1 \/ m = 2 \/ m = 3 \/ m = 4 \/ m = 5 \/ m = 6 \/ m = 7 \/
                   m = 8 \/ m = 9 \/ m = 10 \/ m = 11 \/ m = 12) by lia.
      repeat (destruct Hc as [Hc | Hc]); subst m; simpl; lia. }
  rewrite Hp, Hs, He. unfold monthKey, monthKeyOf, monthEnd, monthStart. rewrite Ed.
  cbv beta iota. split; [reflexivity |].
  rewrite Hend, Hstart. cbn [time.Location_of].
  split; [exact Hpr |]. split; [exact Hpr |].
  unfold time.Date_of, time.Clock_of. rewrite !(wall_mk _ _ Hfix), !wallClock_midnight.
  split; [apply wallDate_civil; split; lia |]. split; [reflexivity |].
  split; [apply wallDate_civil; split; lia |]. split; [reflexivity |].
  intros pr' Hin'. pose proof (Hk pr' Hin') as Hkey.
  destruct (time.Date_of (MergedAt pr')) as [[y' m'] d'] eqn:Ed'.
  destruct (monthKey_same_month _ _ _ _ _ _ _ _ Ed' Ed Hkey) as [-> ->].
  exists d'. exact Ed'.
Qed.

(** X6 at [examplePRs], whose merge timestamps are in UTC: the bucket
    2023-01 runs from 1 to 31 January. *)
Lemma monthly_bucket_dates_witness :
  let pr := examplePR 1 (time.Date 2023 1 15 12 0 0 0 time.UTC) 30 in
  let prs := [pr; examplePR 2 (time.Date 2023 1 10 9 0 0 0 time.UTC) 20] in
  let a := calculateAggregatedMetrics "2023-01"
             (time.Date 2023 1 1 0 0 0 0 time.UTC)
             (time.Date 2023 1 31 0 0 0 0 time.UTC) prs in
  bucket (monthlyGroups examplePRs) a prs /\
  time.Date_of (StartDate a) = (2023, 1, 1) /\
  time.Date_of (EndDate a) = (2023, 1, time.daysIn 2023 1).
Proof.
  intros pr prs a.
  assert (Hb : bucket (monthlyGroups examplePRs) a prs).
  { exists "2023-01"%string. split; vm_compute; reflexivity. }
  assert (Ed : time.Date_of (MergedAt pr) = (2023, 1, 15)) by (vm_compute; reflexivity).
  assert (Hutc : forall p, In p examplePRs -> time.IsZero (MergedAt p) = false ->
                   time.Location_of (MergedAt p) = time.UTC).
  { intros p [<- | [<- | [<- | []]]] _; reflexivity. }
  pose proof (monthly_bucket_dates examplePRs a prs pr 2023 1 15 time.UTC
                (fixedOffset_FixedZone 0) Hutc Hb (or_introl eq_refl) Ed)
    as (_ & _ & _ & Hs & _ & He & _).
  exact (conj Hb (conj Hs He)).
Defined.

End BucketDates.

(** ** Reviews, commits and waiting periods *)

Section Events.
Import api github metrics spec.

Lemma scanReviews_count (reviews : list PullRequestReview) (n : Z) (f : time.Time) :
  fst (scanReviews reviews n f) = n + len (approvals reviews).
Proof.
  revert n f. induction reviews as [| r rest IH]; intros n f; cbn [scanReviews].
  - unfold len. simpl. lia.
  - unfold approvals. cbn [List.filter]. fold (approvals rest).
    destruct (String.eqb (review_State r) "APPROVED"); rewrite IH;
      unfold len; cbn [length]; lia.
Qed.

(** The instants of the submission timestamps of the approvals. *)
Lemma scanReviews_first_nonzero (reviews : list PullRequestReview) (n : Z)
    (f : time.Time) :
  time.IsZero f = false ->
  Forall (fun r => time.IsZero (GetSubmittedAt r) = false) (approvals reviews) ->
  time.instant (snd (scanReviews reviews n f))
  = fold_left Z.min (map (fun r => time.instant (GetSubmittedAt r)) (approvals reviews))
      (time.instant f) /\
  (snd (scanReviews reviews n f) = f \/
   In (snd (scanReviews reviews n f)) (map GetSubmittedAt (approvals reviews))).
Proof.
  revert n f. induction reviews as [| r rest IH]; intros n f Hf Hall;
    cbn [scanReviews]; [split; [reflexivity | left; reflexivity] |].
  unfold approvals in *. cbn [List.filter] in *. fold (approvals rest) in *.
  destruct (String.eqb (review_State r) "APPROVED").
  - inversion Hall as [| ? ? Hr Hrest]; subst. cbn [map fold_left].
    rewrite Hf. cbn [orb]. unfold time.Before.
    destruct (Z.ltb_spec (time.instant (GetSubmittedAt r)) (time.instant f))
      as [Hlt | Hge].
    + destruct (IH (n + 1) (GetSubmittedAt r) Hr Hrest) as [IH1 IH2].
      rewrite IH1, Z.min_r by lia. split; [reflexivity |].
      right. destruct IH2 as [-> | IH2]; [left; reflexivity | right; exact IH2].
    + destruct (IH (n + 1) f Hf Hrest) as [IH1 IH2].
      rewrite IH1, Z.min_l by lia. split; [reflexivity |].
      destruct IH2 as [IH2 | IH2]; [left; exact IH2 | right; right; exact IH2].
  - apply IH; assumption.
Qed.

Lemma scanReviews_first (reviews : list PullRequestReview) (n : Z) :
  Forall (fun r => time.IsZero (GetSubmittedAt r) = false) (approvals reviews) ->
  time.instant (snd (scanReviews reviews n time.zeroTime))
  = earliest (map (fun r => time.instant (GetSubmittedAt r)) (approvals reviews)) /\
  (approvals reviews = [] -> snd (scanReviews reviews n time.zeroTime) = time.zeroTime) /\
  (approvals reviews <> [] ->
   In (snd (scanReviews reviews n time.zeroTime))
     (map GetSubmittedAt (approvals reviews))).
Proof.
  revert n. induction reviews as [| r rest IH]; intros n Hall;
    cbn [scanReviews];
    [split; [reflexivity | split; [reflexivity | intros H; contradiction H; reflexivity]] |].
  unfold approvals in *. cbn [List.filter] in *. fold (approvals rest) in *.
  destruct (String.eqb (review_State r) "APPROVED").
  - inversion Hall as [| ? ? Hr Hrest]; subst. cbn [map earliest].
    change (time.IsZero time.zeroTime) with true. cbn [orb].
    destruct (scanReviews_first_nonzero rest (n + 1) (GetSubmittedAt r) Hr Hrest)
      as [H1 H2].
    split; [exact H1 |]. split; [discriminate |]. intros _.
    destruct H2 as [-> | H2]; [left; reflexivity | right; exact H2].
  - apply IH; assumption.
Qed.

(** X7: [calculateReviewMetrics] counts every review, counts as approvals
    the reviews in state "APPROVED", never more than the reviews, and
    reports the zero time when there is no approval; when every approval
    carries a submission timestamp, it reports the submission timestamp
    of an approval, and its instant is the earliest of theirs, whatever
    the order of the reviews. *)
Theorem calculateReviewMetrics_approvals
    (c : Client) (owner repo : string) (number : Z)
    (reviews : list PullRequestReview) :
  GetPRReviews c owner repo number = inr reviews ->
  exists r,
    calculateReviewMetrics c owner repo number = inr r /\
    rv_ReviewCount r = len reviews /\
    rv_ApprovalCount r = len (approvals reviews) /\
    rv_ApprovalCount r <= rv_ReviewCount r /\
    (approvals reviews = [] -> rv_FirstApprovalAt r = time.zeroTime) /\
    (Forall (fun a => time.IsZero (GetSubmittedAt a) = false) (approvals reviews) ->
     time.instant (rv_FirstApprovalAt r)
     = earliest (map (fun a => time.instant (GetSubmittedAt a)) (approvals reviews)) /\
     (approvals reviews <> [] ->
      In (rv_FirstApprovalAt r) (map GetSubmittedAt (approvals reviews)))).
Proof.
  intros Hr. unfold calculateReviewMetrics. rewrite Hr.
  pose proof (scanReviews_count reviews 0 time.zeroTime) as Hn.
  pose proof (scanReviews_first reviews 0) as Hf.
  destruct (scanReviews reviews 0 time.zeroTime) as [n f]. cbn [fst snd] in Hn, Hf.
  eexists. split; [reflexivity |].
  cbn [rv_ReviewCount rv_ApprovalCount rv_FirstApprovalAt].
  split; [reflexivity |]. split; [lia |]. split.
  { pose proof (List.filter_length_le
                  (fun r => String.eqb (review_State r) "APPROVED") reviews) as Hle.
    fold (approvals reviews) in Hle. unfold len in *. lia. }
  split.
  - intros He. rewrite He in Hf. apply Hf; [constructor | reflexivity].
  - intros Hall. destruct (Hf Hall) as (H1 & _ & H3). split; assumption.
Qed.

(** X7 at PR 1 of [exampleClient]: one review, an approval at 12:00. *)
Lemma calculateReviewMetrics_approvals_witness :
  exists r,
    calculateReviewMetrics exampleClient "owner" "repo" 1 = inr r /\
    rv_ApprovalCount r = 1 /\
    rv_FirstApprovalAt r = time.Date 2023 1 15 12 0 0 0 time.UTC.
Proof.
  destruct (calculateReviewMetrics_approvals exampleClient "owner" "repo" 1
              [approvalAt (time.Date 2023 1 15 12 0 0 0 time.UTC)] eq_refl)
    as (r & Hr & _ & Hn & _ & _ & Hf).
  exists r. split; [exact Hr |]. split; [exact Hn |].
  destruct Hf as [_ Hin].
  { repeat constructor. }
  destruct (Hin ltac:(discriminate)) as [H | []]. symmetry. exact H.
Defined.

Lemma ascending_ltb_trans : Transitive (ascending Z.ltb).
Proof.
  intros x y z. unfold ascending. rewrite !Z.ltb_ge. lia.
Qed.

Lemma ascending_ltb_antisym : AntiSymm eq (ascending Z.ltb).
Proof.
  intros x y. unfold ascending. rewrite !Z.ltb_ge. lia.
Qed.

(** Sorting instants does not depend on the order they come in. *)
Lemma sort_ltb_perm (l1 l2 : list Z) :
  l1 ≡ₚ l2 -> sort_Slice Z.ltb l1 = sort_Slice Z.ltb l2.
Proof.
  intros Hp.
  apply (@Sorted_unique _ (ascending Z.ltb)
           ascending_ltb_trans ascending_ltb_antisym).
  - apply sort_Slice_sorted. intros x y. rewrite Z.ltb_lt, Z.ltb_ge. lia.
  - apply sort_Slice_sorted. intros x y. rewrite Z.ltb_lt, Z.ltb_ge. lia.
  - rewrite !sort_Slice_perm. exact Hp.
Qed.

(** The instants of sorted times are the sorted instants. *)
Lemma sort_insert_instants (x : time.Time) (s : list time.Time) :
  map time.instant (sort_insert time.Before x s)
  = sort_insert Z.ltb (time.instant x) (map time.instant s).
Proof.
  induction s as [| y s IH]; [reflexivity |].
  cbn [sort_insert map]. unfold time.Before at 1.
  destruct (time.instant x <? time.instant y); cbn [map]; [reflexivity |].
  rewrite IH. reflexivity.
Qed.

Lemma sort_Slice_instants (s : list time.Time) :
  map time.instant (sort_Slice time.Before s) = sort_Slice Z.ltb (map time.instant s).
Proof.
  induction s as [| x s IH]; [reflexivity |].
  unfold sort_Slice in *. cbn [foldr map].
  rewrite sort_insert_instants, IH. reflexivity.
Qed.

Lemma maxGap_step (a b : time.Time) (rest : list time.Time) (max : float) :
  maxGap (a :: b :: rest) max
  = maxGap (b :: rest)
      (if (max <? time.Hours (time.Sub b a))%float
       then time.Hours (time.Sub b a) else max).
Proof. reflexivity. Qed.

(** The largest gap of a series of events depends on their instants
    only. *)
Lemma maxGap_instants (l1 l2 : list time.Time) (max : float) :
  map time.instant l1 = map time.instant l2 -> maxGap l1 max = maxGap l2 max.
Proof.
  revert l2 max. induction l1 as [| a l1 IH]; intros [| a' l2] max E;
    try discriminate E; [reflexivity |].
  cbn [map] in E. injection E as Ea E.
  destruct l1 as [| b l1], l2 as [| b' l2]; try discriminate E; [reflexivity |].
  rewrite !maxGap_step. pose proof E as E'. cbn [map] in E'. injection E' as Eb _.
  assert (Hsub : time.Sub b a = time.Sub b' a').
  { unfold time.Sub. rewrite Ea, Eb. reflexivity. }
  rewrite Hsub. apply IH. exact E.
Qed.

Lemma maxGap_sorted_perm (l1 l2 : list time.Time) (max : float) :
  l1 ≡ₚ l2 ->
  maxGap (sort_Slice time.Before l1) max = maxGap (sort_Slice time.Before l2) max.
Proof.
  intros Hp. apply maxGap_instants. rewrite !sort_Slice_instants.
  apply sort_ltb_perm, Permutation_map, Hp.
Qed.

(** X8: the three waiting periods do not depend on the order in which the
    commits and the comments are listed: the calculator sorts the
    timestamps itself. *)
Theorem calculateWaitingPeriods_any_order
    (commits commits' : list RepositoryCommit)
    (comments comments' : list PullRequestComment) :
  commits ≡ₚ commits' -> comments ≡ₚ comments' ->
  calculateWaitingPeriods commits comments
  = calculateWaitingPeriods commits' comments'.
Proof.
  intros Hc Hm. unfold calculateWaitingPeriods, commitTimesOf.
  assert (H1 : omap authorDate commits ≡ₚ omap authorDate commits')
    by (rewrite Hc; reflexivity).
  assert (H2 : map comment_GetCreatedAt comments ≡ₚ map comment_GetCreatedAt comments')
    by (apply Permutation_map, Hm).
  rewrite (maxGap_sorted_perm _ _ _ H1), (maxGap_sorted_perm _ _ _ H2).
  rewrite (maxGap_sorted_perm _ _ _ (Permutation_app H1 H2)). reflexivity.
Qed.

(** X8 for two commits listed in either order. *)
Lemma calculateWaitingPeriods_any_order_witness :
  let c1 := commitAt (time.Date 2023 1 15 9 0 0 0 time.UTC) in
  let c2 := commitAt (time.Date 2023 1 14 8 0 0 0 time.UTC) in
  let m := commentAt (time.Date 2023 1 15 11 0 0 0 time.UTC) in
  calculateWaitingPeriods [c1; c2] [m] = calculateWaitingPeriods [c2; c1] [m].
Proof.
  intros c1 c2 m.
  exact (calculateWaitingPeriods_any_order [c1; c2] [c2; c1] [m] [m]
           (perm_swap c2 c1 []) (Permutation_refl [m])).
Defined.

Lemma last_default {A} (l : list A) (a d d' : A) :
  List.last (a :: l) d = List.last (a :: l) d'.
Proof.
  revert a. induction l as [| b l IH]; intros a; [reflexivity |].
  change (List.last (b :: l) d = List.last (b :: l) d'). apply IH.
Qed.

Lemma hd_rev {A} (l : list A) (d : A) : hd d (rev l) = List.last l d.
Proof.
  induction l as [| a l IH]; [reflexivity |].
  cbn [rev]. destruct l as [| b l]; [reflexivity |].
  change (List.last (a :: b :: l) d) with (List.last (b :: l) d). rewrite <- IH.
  cbn [rev]. destruct (rev l ++ [b]) eqn:E; [| reflexivity].
  destruct (rev l); discriminate.
Qed.

Lemma last_rev {A} (l : list A) (d : A) : List.last (rev l) d = hd d l.
Proof.
  destruct l as [| a l]; [reflexivity |]. cbn [rev hd]. apply last_last.
Qed.

Lemma calculateCommitMetrics_ends (commits : list RepositoryCommit)
    (createdAt : time.Time) (d : RepositoryCommit) :
  commits <> [] ->
  cm_FirstCommitAt (calculateCommitMetrics commits createdAt)
  = default time.zeroTime (authorDate (hd d commits)) /\
  cm_LastCommitAt (calculateCommitMetrics commits createdAt)
  = default time.zeroTime (authorDate (List.last commits d)).
Proof.
  destruct commits as [| c rest]; [congruence |]. intros _.
  unfold calculateCommitMetrics. cbn [cm_FirstCommitAt cm_LastCommitAt hd].
  rewrite (last_default rest c c d). split; reflexivity.
Qed.

(** X9: the first and the last commit timestamp are read off the ends of
    the commit list as it is given: for the reversed list the two swap,
    while CommitCount and CommitCountDuringPR stay the same. *)
Theorem calculateCommitMetrics_reversed (commits : list RepositoryCommit)
    (createdAt : time.Time) :
  let r := calculateCommitMetrics commits createdAt in
  let r' := calculateCommitMetrics (rev commits) createdAt in
  cm_FirstCommitAt r' = cm_LastCommitAt r /\
  cm_LastCommitAt r' = cm_FirstCommitAt r /\
  cm_CommitCount r' = cm_CommitCount r /\
  cm_CommitCountDuringPR r' = cm_CommitCountDuringPR r.
Proof.
  cbv zeta. destruct commits as [| c rest]; [repeat split; reflexivity |].
  assert (Hne : rev (c :: rest) <> []).
  { cbn [rev]. destruct (rev rest); discriminate. }
  destruct (calculateCommitMetrics_ends (rev (c :: rest)) createdAt c Hne) as [-> ->].
  destruct (calculateCommitMetrics_ends (c :: rest) createdAt c ltac:(discriminate))
    as [-> ->].
  rewrite hd_rev, last_rev. split; [reflexivity |]. split; [reflexivity |].
  split.
  - rewrite !(proj2 (CommitCountDuringPR_le _ _)). unfold len.
    rewrite length_rev. reflexivity.
  - destruct (rev (c :: rest)) as [| c' rest'] eqn:E; [congruence |].
    unfold calculateCommitMetrics. cbn [cm_CommitCountDuringPR].
    rewrite <- E, !countCommitsDuringPR_eq. unfold duringPR, len.
    rewrite filter_rev, length_rev. reflexivity.
Qed.

End Events.

(** ** More on weeks, medians and count fields *)

Section MoreStatistics.
Import api metrics spec.

(** X10: for dates in one location of fixed offset, [getStartOfISOWeek]
    maps a Monday midnight to itself, so applying it twice changes
    nothing, and it keeps the order of instants. *)
Theorem getStartOfISOWeek_idempotent_monotone (d d' : time.Time) :
  fixedOffset (time.Location_of d) ->
  time.Location_of d' = time.Location_of d ->
  time.instant d <= time.instant d' ->
  getStartOfISOWeek (getStartOfISOWeek d) = getStartOfISOWeek d /\
  time.instant (getStartOfISOWeek d) <= time.instant (getStartOfISOWeek d').
Proof.
  intros H Hl Hle.
  assert (H' : fixedOffset (time.Location_of d')) by (rewrite Hl; exact H).
  rewrite (getStartOfISOWeek_eq d H), (getStartOfISOWeek_eq d' H'). split.
  - rewrite getStartOfISOWeek_eq by exact H. cbn [time.Location_of].
    rewrite (wall_mk _ _ H), absDays_midnight.
    f_equal. f_equal. f_equal. Z.to_euclidean_division_equations; lia.
  - cbn [time.instant]. rewrite (wall_fixed _ H), (wall_fixed _ H'), Hl.
    unfold time.absDays.
    assert (Hns : time.nsPerDay = 86400000000000) by reflexivity.
    rewrite Hns. Z.to_euclidean_division_equations; lia.
Qed.

(** X10 for Tuesday 10 and Sunday 15 January 2023, nine hours east of
    UTC. *)
Lemma getStartOfISOWeek_idempotent_monotone_witness :
  let tokyo := time.FixedZone 32400 in
  time.instant (getStartOfISOWeek (time.Date 2023 1 10 9 0 0 0 tokyo))
  <= time.instant (getStartOfISOWeek (time.Date 2023 1 15 12 0 0 0 tokyo)).
Proof.
  intros tokyo.
  refine (proj2 (getStartOfISOWeek_idempotent_monotone
                   (time.Date 2023 1 10 9 0 0 0 tokyo)
                   (time.Date 2023 1 15 12 0 0 0 tokyo)
                   (fixedOffset_FixedZone 32400) eq_refl _)).
  vm_compute. discriminate.
Defined.

(** X11: the median of a collection of odd length is one of its elements;
    the median of a non-empty collection of even length is half the sum
    of two of its elements. *)
Theorem calculateMedianFloat_from_elements (x : float) (rest : list float) :
  let values := x :: rest in
  let m := fst (calculateMedianFloat values) in
  if Nat.odd (length values) then In m values
  else exists a b, In a values /\ In b values /\ m = ((a + b) / 2)%float.
Proof.
  cbv zeta. rewrite calculateMedianFloat_nonempty by discriminate. cbn [fst].
  set (values := x :: rest).
  assert (Hlen : length (sort_Float64s values) = length values)
    by apply Permutation_length, sort_Float64s_perm.
  unfold middle. rewrite Hlen. set (n := length values).
  assert (Hn : (0 < n)%nat) by (unfold n, values; simpl; lia).
  assert (Hin : forall i, (i < n)%nat -> In (nth i (sort_Float64s values) 0%float) values).
  { intros i Hi. apply (Permutation_in _ (sort_Float64s_perm values)).
    apply nth_In. rewrite Hlen. exact Hi. }
  assert (Hhalf : (n / 2 < n)%nat) by (apply Nat.div_lt; lia).
  destruct (Nat.odd n).
  - apply Hin, Hhalf.
  - eexists _, _. split; [apply Hin | split; [apply Hin, Hhalf | reflexivity]]. lia.
Qed.

Lemma wrap64_add (a v : Z) : wrap64 (wrap64 a + v) = wrap64 (a + v).
Proof. unfold wrap64. Z.to_euclidean_division_equations; lia. Qed.

Lemma fold_addInt (values : list Z) (s : Z) (vs : list Z) :
  fold_left addInt values {| isum := wrap64 s; ivalues := vs |} =
  {| isum := wrap64 (s + sumZ values); ivalues := vs ++ values |}.
Proof.
  revert s vs. induction values as [| v values IH]; intros s vs.
  - cbn [fold_left sumZ foldr]. rewrite Z.add_0_r, app_nil_r. reflexivity.
  - cbn [fold_left sumZ foldr]. unfold addInt at 2. cbn [isum ivalues].
    rewrite wrap64_add, IH, <- app_assoc. fold (sumZ values).
    rewrite Z.add_assoc. reflexivity.
Qed.

Lemma fold_accumulate_counts (prs : list PRMetrics) (a : accumulators) :
  let r := fold_left accumulate prs a in
  aCommitCount r = fold_left addInt (map CommitCount prs) (aCommitCount a) /\
  aCommentCount r = fold_left addInt (map CommentCount prs) (aCommentCount a) /\
  aReviewCount r = fold_left addInt (map ReviewCount prs) (aReviewCount a) /\
  aApprovalCount r = fold_left addInt (map ApprovalCount prs) (aApprovalCount a) /\
  aAdditions r = fold_left addInt (map Additions prs) (aAdditions a) /\
  aDeletions r = fold_left addInt (map Deletions prs) (aDeletions a) /\
  aChangedFiles r = fold_left addInt (map ChangedFiles prs) (aChangedFiles a) /\
  aCommitCountDuringPR r
  = fold_left addInt (map CommitCountDuringPR prs) (aCommitCountDuringPR a).
Proof.
  revert a. induction prs as [| pr prs IH]; intros a; cbn [fold_left map].
  - repeat split; reflexivity.
  - apply (IH (accumulate a pr)).
Qed.

Lemma intAcc_summarizes (f : PRMetrics -> Z) (prs : list PRMetrics) :
  let a := fold_left addInt (map f prs) intAcc0 in
  summarizesCount (avgInt a (len prs)) (fst (calculateMedianInt (ivalues a))) f prs.
Proof.
  cbv zeta. change intAcc0 with {| isum := wrap64 0; ivalues := [] |}.
  rewrite fold_addInt. unfold summarizesCount, avgInt. cbn [isum ivalues app].
  rewrite Z.add_0_l. split; reflexivity.
Qed.

(** X12: in a non-empty bucket, each count field (commits, comments,
    reviews, approvals, additions, deletions, changed files, commits
    during the PR) is averaged over every PR of the bucket, zeros
    included: the average is the 64-bit sum of the values over PRCount
    and the median is the median of all the values; the sum is the exact
    one when it fits in 64 bits. *)
Theorem count_fields_average_every_PR
    (period : string) (startDate endDate : time.Time)
    (p : PRMetrics) (rest : list PRMetrics) :
  let prs := p :: rest in
  let a := calculateAggregatedMetrics period startDate endDate prs in
  summarizesCount (AvgCommitCount a) (MedianCommitCount a) CommitCount prs /\
  summarizesCount (AvgCommentCount a) (MedianCommentCount a) CommentCount prs /\
  summarizesCount (AvgReviewCount a) (MedianReviewCount a) ReviewCount prs /\
  summarizesCount (AvgApprovalCount a) (MedianApprovalCount a) ApprovalCount prs /\
  summarizesCount (AvgAdditions a) (MedianAdditions a) Additions prs /\
  summarizesCount (AvgDeletions a) (MedianDeletions a) Deletions prs /\
  summarizesCount (AvgChangedFiles a) (MedianChangedFiles a) ChangedFiles prs /\
  summarizesCount (AvgCommitCountDuringPR a) (MedianCommitCountDuringPR a)
    CommitCountDuringPR prs /\
  (forall values : list Z,
     - 2 ^ 63 <= sumZ values < 2 ^ 63 -> wrap64 (sumZ values) = sumZ values).
Proof.
  cbv zeta. unfold calculateAggregatedMetrics.
  assert (E : (len (p :: rest) =? 0) = false)
    by (apply Z.eqb_neq; unfold len; cbn [length]; lia).
  rewrite E. cbv zeta.
  cbn [AvgCommitCount MedianCommitCount AvgCommentCount MedianCommentCount
       AvgReviewCount MedianReviewCount AvgApprovalCount MedianApprovalCount
       AvgAdditions MedianAdditions AvgDeletions MedianDeletions AvgChangedFiles
       MedianChangedFiles AvgCommitCountDuringPR MedianCommitCountDuringPR].
  pose proof (fold_accumulate_counts (p :: rest) accumulators0) as H.
  cbv zeta in H. cbn [accumulators0 aCommitCount aCommentCount aReviewCount
    aApprovalCount aAdditions aDeletions aChangedFiles aCommitCountDuringPR] in H.
  destruct H as (H1 & H2 & H3 & H4 & H5 & H6 & H7 & H8).
  rewrite H1, H2, H3, H4, H5, H6, H7, H8.
  repeat (split; [apply intAcc_summarizes |]).
  intros values Hv. unfold wrap64. Z.to_euclidean_division_equations; lia.
Qed.

End MoreStatistics.

(** ** The requests of the API client *)

Section Requests.
Import github api_client spec.

Lemma allPages_served {A} (ps : list (list A)) (n : nat) :
  forall (k : nat) (fuel : nat) (perPage : Z) (all : list A),
    (k + n = length ps)%nat -> (0 < n)%nat -> (n <= fuel)%nat ->
    allPages fuel (served ps)
      {| Page := Z.of_nat (S k); PerPage := perPage |} all
    = Some (inr (all ++ concat (drop k ps))).
Proof.
  induction n as [| n IH]; intros k fuel perPage all Hk Hn Hf; [lia |].
  destruct fuel as [| fuel]; [lia |]. cbn [allPages]. unfold served at 1.
  cbn [Page PerPage NextPage].
  assert (E0 : (Z.of_nat (S k) =? 0) = false) by (apply Z.eqb_neq; lia).
  rewrite E0.
  replace (Z.to_nat (Z.of_nat (S k) - 1)) with k by lia.
  destruct (drop k ps) as [| pg rest] eqn:Ed.
  { apply (f_equal length) in Ed. rewrite length_drop in Ed. simpl in Ed. lia. }
  assert (Hnth : nth k ps [] = pg).
  { rewrite <- (take_drop k ps) at 1. rewrite Ed.
    rewrite app_nth2; rewrite length_take; [| lia].
    replace (k - k `min` length ps)%nat with 0%nat by lia. reflexivity. }
  assert (Hrest : drop (S k) ps = rest).
  { replace (S k) with (k + 1)%nat by lia. rewrite <- drop_drop, Ed. reflexivity. }
  rewrite Hnth. cbn [concat]. unfold len.
  destruct (Z.ltb_spec (Z.of_nat (S k)) (Z.of_nat (length ps))) as [Hlt | Hge].
  - assert (Ez : (Z.of_nat (S k) + 1 =? 0) = false) by (apply Z.eqb_neq; lia).
    rewrite Ez. replace (Z.of_nat (S k) + 1) with (Z.of_nat (S (S k))) by lia.
    rewrite (IH (S k) fuel perPage (all ++ pg)) by lia.
    rewrite Hrest, <- app_assoc. reflexivity.
  - cbn [Z.eqb]. assert (rest = []) as ->.
    { subst rest. apply drop_ge. lia. }
    rewrite app_nil_r. reflexivity.
Qed.

(** From the first request: page 0 is the first page. *)
Lemma allPages_served_first {A} (ps : list (list A)) (fuel : nat) :
  (length ps <= fuel)%nat -> (0 < fuel)%nat ->
  allPages fuel (served ps) firstPage [] = Some (inr (concat ps)).
Proof.
  intros Hf H0. destruct ps as [| pg ps].
  - destruct fuel as [| fuel]; [lia |]. reflexivity.
  - pose proof (allPages_served (pg :: ps) (length (pg :: ps)) 0 fuel 100 []
                  ltac:(lia) ltac:(simpl; lia) Hf) as H.
    destruct fuel as [| fuel]; [lia |].
    cbn [allPages] in H |- *. unfold served at 1 in H. unfold served at 1.
    exact H.
Qed.

Lemma allPages_servedThenFails {A} (ps : list (list A)) (err : error) (n : nat) :
  forall (k : nat) (fuel : nat) (perPage : Z) (all : list A),
    (k + n = length ps)%nat -> (n < fuel)%nat ->
    allPages fuel (servedThenFails ps err)
      {| Page := Z.of_nat (S k); PerPage := perPage |} all
    = Some (inl err).
Proof.
  induction n as [| n IH]; intros k fuel perPage all Hk Hf;
    (destruct fuel as [| fuel]; [lia |]); cbn [allPages];
    unfold servedThenFails at 1; cbn [Page PerPage NextPage];
    assert (E0 : (Z.of_nat (S k) =? 0) = false) by (apply Z.eqb_neq; lia);
    rewrite E0; unfold len.
  - destruct (Z.leb_spec (Z.of_nat (S k)) (Z.of_nat (length ps))); [lia |].
    reflexivity.
  - destruct (Z.leb_spec (Z.of_nat (S k)) (Z.of_nat (length ps))); [| lia].
    assert (Ez : (Z.of_nat (S k) + 1 =? 0) = false) by (apply Z.eqb_neq; lia).
    cbn [NextPage]. rewrite Ez. replace (Z.of_nat (S k) + 1) with (Z.of_nat (S (S k))) by lia.
    apply IH; lia.
Qed.

Lemma allPages_servedThenFails_first {A} (ps : list (list A)) (err : error)
    (fuel : nat) :
  (length ps < fuel)%nat ->
  allPages fuel (servedThenFails ps err) firstPage [] = Some (inl err).
Proof.
  intros Hf.
  pose proof (allPages_servedThenFails ps err (length ps) 0 fuel 100 []
                ltac:(lia) Hf) as H.
  destruct fuel as [| fuel]; [lia |].
  cbn [allPages] in H |- *. unfold servedThenFails at 1 in H.
  unfold servedThenFails at 1. exact H.
Qed.

Lemma fetchAll_value {A} (fetching fetched : string) (fuel : nat)
    (request : ListOptions -> error + (list A * Response)) (number : Z) :
  option_map value (fetchAll fetching fetched fuel request number)
  = allPages fuel request firstPage [].
Proof.
  unfold fetchAll. fold firstPage.
  destruct (allPages fuel request firstPage []) as [[err | all] |]; reflexivity.
Qed.

(** X13: [GetPRCommits], [GetPRComments] and [GetPRReviews] return the
    entities of all the pages the API serves, in page order, when given
    more requests than there are pages; and when a later page fails they
    return that error and nothing of the pages fetched before. *)
Theorem requests_return_all_pages
    (s : Service) (owner repo : string) (number : Z) (fuel : nat) (err : error)
    (commits : list (list RepositoryCommit))
    (comments : list (list PullRequestComment))
    (reviews : list (list PullRequestReview)) :
  (length commits < fuel)%nat ->
  (length comments < fuel)%nat ->
  (length reviews < fuel)%nat ->
  (PullRequests_ListCommits s owner repo number = served commits ->
   option_map value (GetPRCommits fuel s owner repo number)
   = Some (inr (concat commits))) /\
  (PullRequests_ListComments s owner repo number = served comments ->
   option_map value (GetPRComments fuel s owner repo number)
   = Some (inr (concat comments))) /\
  (PullRequests_ListReviews s owner repo number = served reviews ->
   option_map value (GetPRReviews fuel s owner repo number)
   = Some (inr (concat reviews))) /\
  (PullRequests_ListCommits s owner repo number = servedThenFails commits err ->
   option_map value (GetPRCommits fuel s owner repo number) = Some (inl err)) /\
  (PullRequests_ListComments s owner repo number = servedThenFails comments err ->
   option_map value (GetPRComments fuel s owner repo number) = Some (inl err)) /\
  (PullRequests_ListReviews s owner repo number = servedThenFails reviews err ->
   option_map value (GetPRReviews fuel s owner repo number) = Some (inl err)).
Proof.
  intros H1 H2 H3. unfold GetPRCommits, GetPRComments, GetPRReviews.
  rewrite !fetchAll_value.
  repeat split; intros ->;
    (apply allPages_served_first; lia) || (apply allPages_servedThenFails_first; lia).
Qed.

(** X13 for two pages of commits, and for one page followed by a failure. *)
Lemma requests_return_all_pages_witness :
  let c1 := commitAt (time.Date 2023 1 14 8 0 0 0 time.UTC) in
  let c2 := commitAt (time.Date 2023 1 15 9 0 0 0 time.UTC) in
  let s := {| PullRequests_List := fun _ _ _ => served [];
              PullRequests_Get := fun _ _ n => inr (examplePull n);
              PullRequests_ListCommits := fun _ _ _ => served [[c1]; [c2]];
              PullRequests_ListComments := fun _ _ _ => served [];
              PullRequests_ListReviews :=
                fun _ _ _ => servedThenFails [[]] "reviews unavailable" |} in
  option_map value (GetPRCommits 3 s "owner" "repo" 1) = Some (inr [c1; c2]) /\
  option_map value (GetPRReviews 3 s "owner" "repo" 1)
  = Some (inl "reviews unavailable"%string).
Proof.
  intros c1 c2 s.
  pose proof (requests_return_all_pages s "owner" "repo" 1 3 "reviews unavailable"
                [[c1]; [c2]] [] [[]]
                ltac:(simpl; lia) ltac:(simpl; lia) ltac:(simpl; lia))
    as (Hc & _ & _ & _ & _ & Hr).
  exact (conj (Hc eq_refl) (Hr eq_refl)).
Defined.

(** X14: the requests have no page limit of their own: against an API
    that announces a next page on every page, [GetPRCommits] (and the
    others, which share its loop) never return, however many requests
    are allowed. *)
Theorem requests_never_return_without_last_page
    (s : Service) (owner repo : string) (number : Z) (fuel : nat) :
  (forall opts, exists page resp,
     PullRequests_ListCommits s owner repo number opts = inr (page, resp) /\
     NextPage resp <> 0) ->
  GetPRCommits fuel s owner repo number = None.
Proof.
  intros Hnext. unfold GetPRCommits, fetchAll.
  assert (H : forall fuel opts all,
             allPages fuel (PullRequests_ListCommits s owner repo number) opts all
             = None).
  { clear fuel. induction fuel as [| fuel IH]; intros opts all; [reflexivity |].
    cbn [allPages]. destruct (Hnext opts) as (page & resp & -> & Hn).
    apply Z.eqb_neq in Hn. rewrite Hn. apply IH. }
  rewrite H. reflexivity.
Qed.

(** X14 for an API whose every page names the page after it. *)
Lemma requests_never_return_without_last_page_witness :
  let s := {| PullRequests_List := fun _ _ _ => served [];
              PullRequests_Get := fun _ _ n => inr (examplePull n);
              PullRequests_ListCommits :=
                fun _ _ _ opts => inr ([], {| NextPage := Z.abs (Page opts) + 1 |});
              PullRequests_ListComments := fun _ _ _ => served [];
              PullRequests_ListReviews := fun _ _ _ => served [] |} in
  GetPRCommits 1000 s "owner" "repo" 1 = None.
Proof.
  intros s. apply requests_never_return_without_last_page.
  intros opts. eexists _, _. split; [reflexivity |]. cbn [NextPage]. lia.
Defined.

Lemma createdWithin_spec (startDate endDate : time.Time) (pr : PullRequest) :
  createdWithin startDate endDate pr = true <->
  exists t, pr_CreatedAt pr = Some t /\
            time.instant startDate <= time.instant t <= time.instant endDate.
Proof.
  unfold createdWithin, time.After, time.Before, time.Equal.
  destruct (pr_CreatedAt pr) as [t |].
  - rewrite andb_true_iff, !orb_true_iff, !Z.ltb_lt, !Z.eqb_eq. split.
    + intros H. exists t. split; [reflexivity | lia].
    + intros (t' & [= <-] & H). lia.
  - split; [discriminate |]. intros (t & H & _). discriminate.
Qed.

(** The loop of [GetPullRequests] filters page by page what the plain
    loop collects. *)
Lemma pullRequestPages_value (fuel : nat) (s : Service) (owner repo : string)
    (startDate endDate : time.Time) :
  forall (opts : ListOptions) (all : list PullRequest),
    option_map value
      (pullRequestPages fuel s owner repo startDate endDate opts
         (List.filter (createdWithin startDate endDate) all))
    = keepWithin startDate endDate
        (allPages fuel (PullRequests_List s owner repo "all") opts all).
Proof.
  induction fuel as [| fuel IH]; intros opts all; [reflexivity |].
  cbn [pullRequestPages allPages].
  destruct (PullRequests_List s owner repo "all" opts) as [err | [prs resp]];
    [reflexivity |].
  rewrite <- List.filter_app.
  destruct (NextPage resp =? 0); [reflexivity |].
  rewrite <- IH.
  destruct (pullRequestPages fuel s owner repo startDate endDate _ _); reflexivity.
Qed.

(** X15: [GetPullRequests] returns the listed pull requests that carry a
    creation timestamp from [startDate] to [endDate], both ends included,
    in the order listed: exactly the ones the date filter keeps of all
    the pages; it fails when a page fails. *)
Theorem GetPullRequests_window
    (fuel : nat) (s : Service) (owner repo : string) (startDate endDate : time.Time)
    (r : Logged (error + list PullRequest)) :
  GetPullRequests fuel s owner repo startDate endDate = Some r ->
  Some (value r)
  = keepWithin startDate endDate
      (allPages fuel (PullRequests_List s owner repo "all") firstPage []) /\
  (forall prs pr, value r = inr prs -> In pr prs ->
     exists t, pr_CreatedAt pr = Some t /\
               time.instant startDate <= time.instant t <= time.instant endDate).
Proof.
  intros Hr.
  assert (Hv : Some (value r)
               = keepWithin startDate endDate
                   (allPages fuel (PullRequests_List s owner repo "all") firstPage [])).
  { rewrite <- (pullRequestPages_value fuel s owner repo startDate endDate firstPage []).
    unfold GetPullRequests in Hr. fold firstPage in Hr. cbn [List.filter].
    destruct (pullRequestPages fuel s owner repo startDate endDate firstPage [])
      as [[l [err | prs]] |]; [| | discriminate]; injection Hr as <-; reflexivity. }
  split; [exact Hv |].
  intros prs pr Hprs Hin. rewrite Hprs in Hv.
  destruct (allPages fuel (PullRequests_List s owner repo "all") firstPage [])
    as [[err | all] |]; cbn [keepWithin] in Hv; try discriminate.
  injection Hv as ->. apply filter_In in Hin. destruct Hin as [_ Hin].
  apply createdWithin_spec, Hin.
Qed.

(** X15 for two pages of pull requests created on 15 January 2023 at
    10:00 UTC, listed with the window from that instant to that instant. *)
Lemma GetPullRequests_window_witness :
  let t := time.Date 2023 1 15 10 0 0 0 time.UTC in
  exists r,
    GetPullRequests 3 (listing [[examplePull 1]; [examplePull 2]]) "owner" "repo" t t
    = Some r /\
    value r = inr [examplePull 1; examplePull 2].
Proof.
  intros t.
  destruct (GetPullRequests 3 (listing [[examplePull 1]; [examplePull 2]])
              "owner" "repo" t t) as [r |] eqn:E.
  - exists r. split; [reflexivity |].
    pose proof (proj1 (GetPullRequests_window _ _ _ _ _ _ _ E)) as H.
    assert (K : Some (value r) = Some (inr [examplePull 1; examplePull 2])).
    { etransitivity; [exact H |]. vm_compute. reflexivity. }
    injection K as K. exact K.
  - vm_compute in E. discriminate E.
Defined.

End Requests.

(** ** The timestamps of the CSV files *)

Section Output.
Import time output.

Lemma string_app_assoc (a b c : string) : ((a ++ b) ++ c = a ++ b ++ c)%string.
Proof.
  induction a as [| x a IH]; [reflexivity |].
  change (String x ((a ++ b) ++ c) = String x (a ++ b ++ c))%string.
  f_equal. exact IH.
Qed.

Lemma string_cons_app (x : ascii) (a b : string) :
  (String x a ++ b = String x (a ++ b))%string.
Proof. reflexivity. Qed.

Lemma string_nil_app (b : string) : (EmptyString ++ b = b)%string.
Proof. reflexivity. Qed.

Ltac string_heads := repeat (rewrite string_cons_app || rewrite string_nil_app).

(** Two strings that begin with prefixes of one length split alike. *)
Lemma string_app_inj_prefix (s1 s2 t1 t2 : string) :
  String.length s1 = String.length s2 ->
  (s1 ++ t1 = s2 ++ t2)%string -> s1 = s2 /\ t1 = t2.
Proof.
  revert s2. induction s1 as [| c s1 IH]; intros [| c' s2] Hlen E;
    simpl in Hlen; try discriminate.
  - split; [reflexivity | exact E].
  - rewrite !string_cons_app in E. injection E as -> E. injection Hlen as Hlen.
    destruct (IH _ Hlen E) as [-> ->]. split; reflexivity.
Qed.

(** The digits of a number that is not negative. *)
Lemma fmt_d_digits (a : Z) :
  0 <= a ->
  exists d, NilEmpty.uint_of_string (fmt_d a) = Some d /\ Z.of_uint d = a /\
            fmt_d a <> EmptyString.
Proof.
  intros Ha. destruct a as [| p | p]; [| | lia].
  - exists (Decimal.D0 Decimal.Nil). repeat split. discriminate.
  - exists (Pos.to_uint p). unfold fmt_d, Z.to_int, NilZero.string_of_int.
    pose proof (Unsigned.to_uint_nonnil p) as Hnil.
    assert (Es : NilZero.string_of_uint (Pos.to_uint p)
                 = NilEmpty.string_of_uint (Pos.to_uint p)).
    { destruct (Pos.to_uint p); [contradiction Hnil |..]; reflexivity. }
    rewrite Es. split; [apply NilEmpty.usu |]. split.
    + unfold Z.of_uint. rewrite Unsigned.of_to. reflexivity.
    + destruct (Pos.to_uint p); [contradiction Hnil |..]; discriminate.
Qed.

(** Zeros in front of a numeral leave its value. *)
Lemma zeros_digits (n : nat) (s : string) (d : Decimal.uint) :
  NilEmpty.uint_of_string s = Some d ->
  exists d', NilEmpty.uint_of_string (zeros n ++ s) = Some d' /\
             Z.of_uint d' = Z.of_uint d.
Proof.
  intros Hs. induction n as [| n (d' & Hd' & Hv)].
  - exists d. split; [exact Hs | reflexivity].
  - exists (Decimal.D0 d'). cbn [zeros]. rewrite string_cons_app.
    cbn [NilEmpty.uint_of_string]. rewrite Hd'. split; [reflexivity | exact Hv].
Qed.

(** A number is read back from what [appendInt] writes, at any width. *)
Lemma read_appendInt (x : Z) (width : nat) : read_02d (appendInt x width) = x.
Proof.
  unfold appendInt. cbv zeta.
  destruct (fmt_d_digits (Z.abs x) (Z.abs_nonneg x)) as (d & Hd & Hv & Hne).
  destruct (zeros_digits (width - String.length (fmt_d (Z.abs x))) _ _ Hd)
    as (d' & Hd' & Hv').
  remember (zeros (width - String.length (fmt_d (Z.abs x))) ++ fmt_d (Z.abs x))%string
    as padded eqn:Ep.
  assert (Hpad : padded <> EmptyString).
  { intros ->. apply (f_equal String.length) in Ep.
    rewrite string_length_app in Ep. simpl in Ep.
    destruct (fmt_d (Z.abs x)); [contradiction Hne; reflexivity |].
    simpl in Ep. lia. }
  destruct (Z.ltb_spec x 0) as [Hneg | Hpos].
  - unfold read_02d. cbn [NilZero.int_of_string]. change ("-" =? "-")%char with true.
    cbv iota. unfold NilZero.uint_of_string.
    destruct padded as [| c rest]; [contradiction Hpad; reflexivity |].
    rewrite Hd'. cbn [option_map Z.of_int]. rewrite Hv', Hv. lia.
  - unfold read_02d. destruct padded as [| c rest]; [contradiction Hpad; reflexivity |].
    cbn [NilZero.int_of_string].
    destruct (Ascii.eqb_spec c "-") as [-> | _].
    { cbn [NilEmpty.uint_of_string] in Hd'. unfold uint_of_char in Hd'.
      destruct (NilEmpty.uint_of_string rest); discriminate Hd'. }
    unfold NilZero.uint_of_string. rewrite Hd'. cbn [option_map Z.of_int].
    rewrite Hv', Hv. lia.
Qed.

(** Below 100, [appendInt] of width 2 writes exactly two characters. *)
Lemma appendInt_2_length (z : Z) :
  0 <= z < 100 -> String.length (appendInt z 2) = 2%nat.
Proof.
  intros Hz.
  assert (Hall : forallb (fun n => (String.length (appendInt (Z.of_nat n) 2) =? 2)%nat)
                   (seq 0 100) = true) by (vm_compute; reflexivity).
  rewrite forallb_forall in Hall.
  specialize (Hall (Z.to_nat z)). rewrite Z2Nat.id in Hall by lia.
  apply Nat.eqb_eq, Hall, in_seq. lia.
Qed.

(** The clock of a wall clock, from its whole seconds. *)
Lemma wallClock_seconds (t : Z) :
  wallClock t =
  (let s := (t / Second) mod 86400 in
   (s / 3600, (s mod 3600) / 60, s mod 60, nsOfDay t mod Second)).
Proof.
  unfold wallClock. cbv zeta.
  assert (E : nsOfDay t / Second = (t / Second) mod 86400).
  { unfold nsOfDay, nsPerDay, Hour, Second.
    change (24 * (3600 * 1000000000)) with (1000000000 * 86400).
    rewrite Z.rem_mul_r by lia.
    rewrite Z.mul_comm, Z.div_add by lia.
    rewrite Z.div_small by (apply Z.mod_pos_bound; lia). reflexivity. }
  rewrite E. reflexivity.
Qed.

Lemma absDays_seconds (t : Z) : absDays t = (t / Second) / 86400.
Proof.
  unfold absDays, nsPerDay, Hour, Second.
  change (24 * (3600 * 1000000000)) with (1000000000 * 86400).
  rewrite Z.div_div by lia. reflexivity.
Qed.

(** In UTC the wall clock is the instant. *)
Lemma wall_UTC (z : Z) : wall {| instant := z; Location_of := UTC |} = z.
Proof.
  unfold wall, zoneOffset. cbn [instant Location_of UTC FixedZone lookup zone_offset].
  lia.
Qed.

(** What [Format_RFC3339] writes in UTC: the year, then sixteen
    characters. *)
Lemma Format_RFC3339_eq (t y m d : Z) :
  wallDate t = (y, m, d) ->
  let s := (t / Second) mod 86400 in
  Format_RFC3339 {| instant := t; Location_of := UTC |}
  = (appendInt y 4 ++ "-" ++ appendInt m 2 ++ "-" ++ appendInt d 2 ++ "T"
     ++ appendInt (s / 3600) 2 ++ ":" ++ appendInt ((s mod 3600) / 60) 2 ++ ":"
     ++ appendInt (s mod 60) 2 ++ "Z")%string.
Proof.
  intros Ed s. unfold Format_RFC3339, Format_date, Date_of, Clock_of.
  rewrite !wall_UTC, wallClock_seconds, Ed.
  change (Format_zone (zoneOffset {| instant := t; Location_of := UTC |}))
    with "Z"%string.
  cbv zeta beta iota. fold s. rewrite !string_app_assoc. reflexivity.
Qed.

Lemma daysIn_le_31 (y m : Z) : daysIn y m <= 31.
Proof.
  unfold daysIn. destruct ((m =? 2) && isLeap y); [lia |].
  destruct m as [| p | p]; try (vm_compute; discriminate).
  do 5 (destruct p as [p | p |]; try (vm_compute; discriminate)).
Qed.

(** In UTC, the instants of one second are written alike, and no
    others. *)
Lemma Format_RFC3339_inj (t u : Z) :
  Format_RFC3339 {| instant := t; Location_of := UTC |}
  = Format_RFC3339 {| instant := u; Location_of := UTC |}
  <-> t / Second = u / Second.
Proof.
  destruct (wallDate t) as [[y m] d] eqn:Et, (wallDate u) as [[y' m'] d'] eqn:Eu.
  rewrite (Format_RFC3339_eq t y m d Et), (Format_RFC3339_eq u y' m' d' Eu).
  cbv zeta. split.
  - pose proof (wallDate_spec _ _ _ _ Et) as (Hm & Hd & Hs).
    pose proof (wallDate_spec _ _ _ _ Eu) as (Hm' & Hd' & Hs').
    pose proof (daysIn_le_31 y m) as Hle. pose proof (daysIn_le_31 y' m') as Hle'.
    set (s := (t / Second) mod 86400) in *. set (s' := (u / Second) mod 86400) in *.
    assert (Hs0 : 0 <= s < 86400) by (apply Z.mod_pos_bound; lia).
    assert (Hs0' : 0 <= s' < 86400) by (apply Z.mod_pos_bound; lia).
    assert (L : forall z, 0 <= z < 100 -> String.length (appendInt z 2) = 2%nat)
      by exact appendInt_2_length.
    assert (Lm := L m ltac:(lia)). assert (Lm' := L m' ltac:(lia)).
    assert (Ld := L d ltac:(lia)). assert (Ld' := L d' ltac:(lia)).
    assert (Lh := L (s / 3600) ltac:(Z.to_euclidean_division_equations; lia)).
    assert (Lh' := L (s' / 3600) ltac:(Z.to_euclidean_division_equations; lia)).
    assert (Li := L ((s mod 3600) / 60) ltac:(Z.to_euclidean_division_equations; lia)).
    assert (Li' := L ((s' mod 3600) / 60) ltac:(Z.to_euclidean_division_equations; lia)).
    assert (Lc := L (s mod 60) ltac:(Z.to_euclidean_division_equations; lia)).
    assert (Lc' := L (s' mod 60) ltac:(Z.to_euclidean_division_equations; lia)).
    string_heads. intros E.
    apply string_app_inj in E;
      [| cbn [String.length]; rewrite !string_length_app; cbn [String.length];
         rewrite !string_length_app; cbn [String.length];
         rewrite !string_length_app; cbn [String.length];
         rewrite !string_length_app; cbn [String.length];
         rewrite !string_length_app; cbn [String.length]; lia].
    destruct E as [Ey E]. injection E as E.
    apply string_app_inj_prefix in E; [| congruence]. destruct E as [Em E].
    injection E as E.
    apply string_app_inj_prefix in E; [| congruence]. destruct E as [Ed E].
    injection E as E.
    apply string_app_inj_prefix in E; [| congruence]. destruct E as [Eh E].
    injection E as E.
    apply string_app_inj_prefix in E; [| congruence]. destruct E as [Ei E].
    injection E as E.
    apply string_app_inj_prefix in E; [| congruence]. destruct E as [Ec _].
    apply (f_equal read_02d) in Ey, Em, Ed, Eh, Ei, Ec.
    rewrite !read_appendInt in Ey, Em, Ed, Eh, Ei, Ec.
    subst y' m' d'. rewrite !absDays_seconds in Hs, Hs'.
    assert (Hss : s = s') by (Z.to_euclidean_division_equations; lia).
    unfold s, s' in Hss.
    rewrite (Z.div_mod (t / Second) 86400), (Z.div_mod (u / Second) 86400) by lia.
    rewrite Hss. lia.
  - intros E. rewrite E.
    assert (Ed : wallDate t = wallDate u).
    { unfold wallDate. rewrite !absDays_seconds, E. reflexivity. }
    rewrite Et, Eu in Ed. injection Ed as -> -> ->. reflexivity.
Qed.

(** In every location, [Format_RFC3339] writes something. *)
Lemma Format_RFC3339_nonempty (t : Time) : Format_RFC3339 t <> EmptyString.
Proof.
  unfold Format_RFC3339. destruct (Clock_of t) as [[[h mi] s] ns]. intros E.
  apply (f_equal String.length) in E. rewrite string_length_app in E.
  rewrite string_cons_app in E. cbn [String.length] in E. lia.
Qed.

(** X16: a CSV cell of a timestamp is empty exactly for the zero time;
    and two timestamps in UTC are written alike exactly when they are the
    same instant, or both are set and lie in the same second: the cell
    keeps the instant to the second and drops the rest. *)
Theorem formatTime_to_the_second (t u : Time) :
  (formatTime t = EmptyString <-> IsZero t = true) /\
  (formatTime (UTC_of t) = formatTime (UTC_of u) <->
   instant t = instant u \/
   (IsZero t = false /\ IsZero u = false /\ instant t / Second = instant u / Second)).
Proof.
  unfold formatTime. split.
  - destruct (IsZero t); split; try reflexivity; try discriminate.
    intros E. contradiction (Format_RFC3339_nonempty t E).
  - change (IsZero (UTC_of t)) with (IsZero t).
    change (IsZero (UTC_of u)) with (IsZero u). unfold UTC_of. split.
    + destruct (IsZero t) eqn:Zt, (IsZero u) eqn:Zu; intros E.
      * left. unfold IsZero in Zt, Zu. apply Z.eqb_eq in Zt, Zu. congruence.
      * symmetry in E. contradiction (Format_RFC3339_nonempty _ E).
      * contradiction (Format_RFC3339_nonempty _ E).
      * right. repeat split. apply Format_RFC3339_inj, E.
    + intros [E | (Zt & Zu & E)].
      * unfold IsZero. rewrite E. reflexivity.
      * rewrite Zt, Zu. apply Format_RFC3339_inj, E.
Qed.

End Output.

(** ** Pull requests that are not merged *)

Section Unmerged.
Import api github metrics spec output.

(** X17: the record of a PR without a merge timestamp has the zero merge
    time and zero for the three durations up to the merge; its merge cell
    in the CSV file is empty, and the rollups leave it out. *)
Theorem unmerged_PR_no_merge_durations
    (c : Client) (owner repo : string) (pr : PullRequest) (m : PRMetrics) :
  pr_MergedAt pr = None ->
  value (CalculatePRMetrics c owner repo pr) = inr m ->
  MergedAt m = time.zeroTime /\
  FirstCommitToMergeHours m = 0%float /\
  LastCommitToMergeHours m = 0%float /\
  TotalPRLifetimeHours m = 0%float /\
  formatTime (MergedAt m) = EmptyString /\
  merged [m] = [].
Proof.
  intros Hnone. unfold CalculatePRMetrics.
  destruct (calculatePRDetails c owner repo (pr_Number pr)) as [e | [[a d] cf]];
    [cbn [value logs mbind mret Logged_bind Logged_ret log app]; discriminate |].
  destruct (GetPRCommits c owner repo (pr_Number pr)) as [e | commits];
    [cbn [value logs mbind mret Logged_bind Logged_ret log app]; discriminate |].
  destruct (GetPRComments c owner repo (pr_Number pr)),
    (calculateReviewMetrics c owner repo (pr_Number pr));
    cbn [value logs mbind mret Logged_bind Logged_ret log app]; intros [= <-];
    unfold merged, formatTime, calculateTimeMetrics, GetMergedAt;
    cbn [MergedAt FirstCommitToMergeHours LastCommitToMergeHours TotalPRLifetimeHours
         tm_FirstCommitToMergeHours tm_LastCommitToMergeHours tm_TotalPRLifetimeHours
         List.filter];
    rewrite Hnone; cbn [default]; change (time.IsZero time.zeroTime) with true;
    cbn [negb andb]; repeat split; reflexivity.
Qed.

(** X17 at an open PR served by the example client. *)
Lemma unmerged_PR_no_merge_durations_witness :
  let pr := {| pr_Number := 7; pr_Title := "t"; pr_UserLogin := "u";
               pr_Milestone := None;
               pr_CreatedAt := Some (time.Date 2023 1 15 10 0 0 0 time.UTC);
               pr_MergedAt := None; pr_State := "open";
               pr_Additions := 0; pr_Deletions := 0; pr_ChangedFiles := 0 |} in
  exists m,
    value (CalculatePRMetrics exampleClient "owner" "repo" pr) = inr m /\
    TotalPRLifetimeHours m = 0%float /\ merged [m] = [].
Proof.
  intros pr.
  destruct (value (CalculatePRMetrics exampleClient "owner" "repo" pr))
    as [e | m] eqn:E.
  - vm_compute in E. discriminate E.
  - exists m. split; [reflexivity |].
    destruct (unmerged_PR_no_merge_durations exampleClient "owner" "repo" pr m
                eq_refl E) as (_ & _ & _ & H1 & _ & H2).
    split; assumption.
Defined.

End Unmerged.

(** ** The repository argument *)

Section Arguments.
Import spec.

Lemma pieces_first (sep : ascii) (s p : string) (ps : list string) :
  pieces s sep = (p, ps) ->
  occurs sep p = false /\
  match ps with
  | [] => s = p
  | q :: qs => exists rest, s = (p ++ String sep rest)%string /\ pieces rest sep = (q, qs)
  end.
Proof.
  revert p ps. induction s as [| c s IH]; intros p ps E; cbn [pieces] in E.
  - injection E as <- <-. split; reflexivity.
  - destruct (pieces s sep) as [p' ps'] eqn:Es. specialize (IH _ _ eq_refl).
    destruct IH as [Hocc Hrest]. destruct (Ascii.eqb_spec c sep) as [-> | Hne].
    + injection E as <- <-. split; [reflexivity |]. exists s. split; [reflexivity | exact Es].
    + injection E as <- <-. split.
      * cbn [occurs]. rewrite Hocc, orb_false_r. apply Ascii.eqb_neq, Hne.
      * destruct ps' as [| q qs]; [rewrite Hrest; reflexivity |].
        destruct Hrest as (rest & -> & Hr). exists rest. split; [reflexivity | exact Hr].
Qed.

Lemma pieces_free (sep : ascii) (s : string) :
  occurs sep s = false -> pieces s sep = (s, []).
Proof.
  induction s as [| c s IH]; [reflexivity |]. cbn [occurs pieces].
  intros H. apply orb_false_elim in H. destruct H as [Hc Hs].
  rewrite (IH Hs), Hc. reflexivity.
Qed.

Lemma pieces_app (sep : ascii) (p rest : string) :
  occurs sep p = false ->
  pieces (p ++ String sep rest) sep
  = (p, fst (pieces rest sep) :: snd (pieces rest sep)).
Proof.
  induction p as [| c p IH].
  - intros _. change (EmptyString ++ String sep rest)%string with (String sep rest).
    cbn [pieces]. destruct (pieces rest sep). rewrite Ascii.eqb_refl. reflexivity.
  - cbn [occurs]. intros H. apply orb_false_elim in H. destruct H as [Hc Hp].
    change (String c p ++ String sep rest)%string with (String c (p ++ String sep rest)).
    cbn [pieces]. rewrite (IH Hp), Hc. reflexivity.
Qed.

(** X18: [main] goes on past its repository check exactly when the
    argument has one slash; the owner is what stands before the slash
    and the name what stands after it, and either may be empty. *)
Theorem repository_one_slash (repo owner repoName : string) :
  cmd.repository repo = Some (owner, repoName) <->
  repo = (owner ++ String "/" repoName)%string /\
  occurs "/" owner = false /\ occurs "/" repoName = false.
Proof.
  unfold cmd.repository, strings_Split. split.
  - destruct (String.eqb repo ""); [discriminate |].
    destruct (pieces repo "/") as [p ps] eqn:E.
    destruct ps as [| q [| r rs]]; try discriminate. intros [= -> ->].
    apply pieces_first in E. destruct E as (Ho & rest & -> & Er).
    apply pieces_first in Er. destruct Er as (Hn & ->).
    repeat split; assumption.
  - intros (-> & Ho & Hn).
    destruct (String.eqb_spec (owner ++ String "/" repoName) "") as [E | _].
    { destruct owner; discriminate E. }
    rewrite (pieces_app _ _ _ Ho), (pieces_free _ _ Hn). reflexivity.
Qed.

End Arguments.
